(** * RDS slow-SQL monitors: a shallow embedding and its properties

    The development follows the two monitors of the repository:
    - [huaweiyun_rds/huawei_rds_slow_sql_monitor.py] (export job poller, log
      download and clean-up, slow-log parser, deduplication cursor, poll loop);
    - [aliyun_rds/aliyun_rds_slow_sql_monitor.py] (time window, alert delivery,
      poll loop).

    Text is modelled on code points below 256: a Python [str] is a [string]
    of such characters, and the character classes of [str.strip] and of [re]
    are Python's on that range.
    Exceptions are values of [exn]; a call that may raise returns a [result].
    The parser is parametric in [datetime.fromisoformat], which reads more
    in Python 3.11 and later than in 3.9 and 3.10, and in what the reading
    of the file gives. *)

From Stdlib Require Import ZArith List String Ascii Bool Lia QArith Sorting.Sorted Permutation.
From stdpp Require Import base option list gmap strings.

Local Open Scope Z_scope.

(** ** Python exceptions and fallible results *)

Inductive exn : Type :=
  | ValueError
  | IndexError
  | TypeError
  | KeyError
  | OverflowError
  | OSError
  | KeyboardInterrupt.

Inductive result (A : Type) : Type :=
  | Ok (a : A)
  | Raise (e : exn).
Arguments Ok {A} a.
Arguments Raise {A} e.

#[global] Instance result_ret : MRet result := fun A a => Ok a.
#[global] Instance result_bind : MBind result := fun A B k r =>
  match r with
  | Ok a => k a
  | Raise e => Raise e
  end.

Definition is_ok {A : Type} (r : result A) : bool :=
  match r with Ok _ => true | Raise _ => false end.

(** ** Characters and strings (the [str] methods the monitors use) *)

Module Str.

Definition code (c : ascii) : Z := Z.of_N (N_of_ascii c).

(** [str.isspace], which is also [\s] and what [str.strip] removes: TAB..CR,
    FS..US and the space, and below 256 also NEL and the no-break space. *)
Definition isspace (c : ascii) : bool :=
  let n := code c in
  ((9 <=? n) && (n <=? 13)) || ((28 <=? n) && (n <=? 32))
  || (n =? 133) || (n =? 160).

(** [\d]: below 256 the decimal digits are the ASCII ones. *)
Definition isdigit (c : ascii) : bool :=
  let n := code c in (48 <=? n) && (n <=? 57).

(** [\w]: letters, digits and the underscore, and below 256 also the
    letters and numbers of Latin-1. *)
Definition isword (c : ascii) : bool :=
  let n := code c in
  isdigit c || ((65 <=? n) && (n <=? 90)) || ((97 <=? n) && (n <=? 122))
  || (n =? 95)
  || (n =? 170) || ((178 <=? n) && (n <=? 179)) || (n =? 181)
  || ((185 <=? n) && (n <=? 186)) || ((188 <=? n) && (n <=? 190))
  || ((192 <=? n) && (n <=? 214)) || ((216 <=? n) && (n <=? 246))
  || ((248 <=? n) && (n <=? 255)).

Definition digit_val (c : ascii) : Z := code c - 48.

Fixpoint length (s : string) : nat :=
  match s with
  | EmptyString => 0%nat
  | String _ s' => S (length s')
  end.

(** [s.startswith(p)] *)
Fixpoint startswith (p s : string) : bool :=
  match p, s with
  | EmptyString, _ => true
  | String a p', String b s' => Ascii.eqb a b && startswith p' s'
  | String _ _, EmptyString => false
  end.

(** [sub in s] *)
Fixpoint contains (sub s : string) : bool :=
  startswith sub s ||
  match s with
  | EmptyString => false
  | String _ s' => contains sub s'
  end.

Fixpoint lstrip (s : string) : string :=
  match s with
  | String c s' => if isspace c then lstrip s' else s
  | EmptyString => EmptyString
  end.

Fixpoint rstrip (s : string) : string :=
  match s with
  | String c s' =>
      match rstrip s' with
      | EmptyString => if isspace c then EmptyString else String c EmptyString
      | r => String c r
      end
  | EmptyString => EmptyString
  end.

(** [s.strip()] *)
Definition strip (s : string) : string := rstrip (lstrip s).

Fixpoint drop (n : nat) (s : string) : string :=
  match n, s with
  | O, _ => s
  | S n', String _ s' => drop n' s'
  | S _, EmptyString => EmptyString
  end.

Fixpoint take (n : nat) (s : string) : string :=
  match n, s with
  | O, _ => EmptyString
  | S n', String c s' => String c (take n' s')
  | S _, EmptyString => EmptyString
  end.

(** Longest prefix of characters in the class [p], and the rest. *)
Fixpoint span (p : ascii -> bool) (s : string) : string * string :=
  match s with
  | String c s' =>
      if p c then let '(a, b) := span p s' in (String c a, b)
      else (EmptyString, s)
  | EmptyString => (EmptyString, EmptyString)
  end.

Fixpoint rev_app (acc s : string) : string :=
  match acc with
  | EmptyString => s
  | String c acc' => rev_app acc' (String c s)
  end.

(** [s.split(sep)] for a non-empty [sep]: the pieces between the
    non-overlapping occurrences of [sep], scanning from the left. [skip]
    counts the characters of a separator still to be consumed, [cur] is the
    piece under construction, reversed. *)
Fixpoint split_aux (sep s : string) (skip : nat) (cur : string) : list string :=
  match s with
  | EmptyString => [rev_app cur EmptyString]
  | String c s' =>
      match skip with
      | S k => split_aux sep s' k cur
      | O =>
          if startswith sep s
          then rev_app cur EmptyString :: split_aux sep s' (length sep - 1) EmptyString
          else split_aux sep s' O (String c cur)
      end
  end.

Definition split (sep s : string) : list string := split_aux sep s O EmptyString.

(** ['\n'.join(l)] *)
Fixpoint join_nl (l : list string) : string :=
  match l with
  | [] => EmptyString
  | [x] => x
  | x :: rest => x +:+ String "010"%char (join_nl rest)
  end.

(** The lines a text-mode file yields (universal newlines: CR LF, CR and LF
    all end a line); the terminators are dropped, [strip] would remove them. *)
Fixpoint lines_aux (s : string) (cur : string) : list string :=
  match s with
  | EmptyString =>
      match cur with EmptyString => [] | _ => [rev_app cur EmptyString] end
  | String c s' =>
      if Ascii.eqb c "010"%char then rev_app cur EmptyString :: lines_aux s' EmptyString
      else if Ascii.eqb c "013"%char then
        match s' with
        | String d s'' =>
            if Ascii.eqb d "010"%char
            then lines_aux s' cur
            else rev_app cur EmptyString :: lines_aux s' EmptyString
        | EmptyString => [rev_app cur EmptyString]
        end
      else lines_aux s' (String c cur)
  end.

Definition lines (s : string) : list string := lines_aux s EmptyString.

Definition all (p : ascii -> bool) (s : string) : bool :=
  forallb p (list_ascii_of_string s).

End Str.

(** ** [datetime]: civil fields with an optional UTC offset

    A [datetime] carries the civil fields as written and [tzinfo]: [None] for
    a naive value, [Some off] for an aware one, [off] being its UTC offset in
    microseconds (Asia/Shanghai is the fixed offset +08:00). *)

Record datetime : Type := mkDT {
  year : Z; month : Z; day : Z;
  hour : Z; minute : Z; second : Z; microsecond : Z;
  tzinfo : option Z
}.

Record date : Type := mkDate { d_year : Z; d_month : Z; d_day : Z }.

#[global] Instance date_eq_dec : EqDecision date.
Proof. solve_decision. Defined.

Module DT.

Definition us_per_second : Z := 1000000.
Definition us_per_minute : Z := 60 * us_per_second.
Definition us_per_hour : Z := 60 * us_per_minute.
Definition us_per_day : Z := 24 * us_per_hour.

(** [ZoneInfo('Asia/Shanghai')] and [ZoneInfo('UTC')] as offsets. *)
Definition shanghai : Z := 8 * us_per_hour.
Definition utc : Z := 0.

Definition is_leap (y : Z) : bool :=
  (y mod 4 =? 0) && (negb (y mod 100 =? 0) || (y mod 400 =? 0)).

Definition days_in_month (y m : Z) : Z :=
  if m =? 2 then (if is_leap y then 29 else 28)
  else if (m =? 4) || (m =? 6) || (m =? 9) || (m =? 11) then 30
  else 31.

(** Days in the months of the year before month [m] (a common year). *)
Definition days_before_month_common (m : Z) : Z :=
  nth (Z.to_nat m) [0; 0; 31; 59; 90; 120; 151; 181; 212; 243; 273; 304; 334] 0.

Definition days_before_month (y m : Z) : Z :=
  days_before_month_common m + (if (2 <? m) && is_leap y then 1 else 0).

Definition days_before_year (y : Z) : Z :=
  let p := y - 1 in p * 365 + p / 4 - p / 100 + p / 400.

(** Proleptic Gregorian ordinal: 0001-01-01 is day 1. *)
Definition ymd2ord (y m d : Z) : Z :=
  days_before_year y + days_before_month y m + d.

Definition valid_date (y m d : Z) : bool :=
  (1 <=? y) && (y <=? 9999) && (1 <=? m) && (m <=? 12) &&
  (1 <=? d) && (d <=? days_in_month y m).

Definition valid_time (h mi s us : Z) : bool :=
  (0 <=? h) && (h <? 24) && (0 <=? mi) && (mi <? 60) &&
  (0 <=? s) && (s <? 60) && (0 <=? us) && (us <? us_per_second).

(** Microseconds of the civil fields since 0001-01-01T00:00:00, offset
    ignored. *)
Definition local_us (t : datetime) : Z :=
  (ymd2ord (year t) (month t) (day t) - 1) * us_per_day
  + hour t * us_per_hour + minute t * us_per_minute
  + second t * us_per_second + microsecond t.

(** The instant of an aware value: civil fields minus the offset. *)
Definition instant (t : datetime) : Z :=
  local_us t - default 0 (tzinfo t).

Definition aware (t : datetime) : bool :=
  match tzinfo t with Some _ => true | None => false end.

(** [t.date()]: the civil date as written, whatever the offset. *)
Definition date_of (t : datetime) : date :=
  mkDate (year t) (month t) (day t).

Definition date_eqb (a b : date) : bool :=
  (d_year a =? d_year b) && (d_month a =? d_month b) && (d_day a =? d_day b).

(** Ordering comparisons ([<], [>]): two naive values compare by their
    fields, two aware values by instant, a naive and an aware value raise
    [TypeError]. *)
Definition compare (a b : datetime) : result comparison :=
  match tzinfo a, tzinfo b with
  | None, None => Ok (local_us a ?= local_us b)
  | Some oa, Some ob => Ok (local_us a - oa ?= local_us b - ob)
  | _, _ => Raise TypeError
  end.

Definition gt (a b : datetime) : result bool :=
  c ← compare a b; mret (match c with Gt => true | _ => false end).

Definition lt (a b : datetime) : result bool :=
  c ← compare a b; mret (match c with Lt => true | _ => false end).

End DT.

(** ** Date arithmetic: [astimezone], [- timedelta] and [strftime] *)

Module Cal.

Definition days_in_month_common (m : Z) : Z :=
  nth (Z.to_nat m) [0; 31; 28; 31; 30; 31; 30; 31; 31; 30; 31; 30; 31] 0.

(** The civil date of an ordinal (the inverse of [DT.ymd2ord]), with the
    400-, 100-, 4- and 1-year cycles of the calendar. *)
Definition ord2ymd (n : Z) : Z * Z * Z :=
  let n := n - 1 in
  let n400 := n / 146097 in
  let n := n mod 146097 in
  let n100 := n / 36524 in
  let n := n mod 36524 in
  let n4 := n / 1461 in
  let n := n mod 1461 in
  let n1 := n / 365 in
  let n := n mod 365 in
  let y := n400 * 400 + 1 + n100 * 100 + n4 * 4 + n1 in
  if (n1 =? 4) || (n100 =? 4) then (y - 1, 12, 31)
  else
    let leapyear := (n1 =? 3) && (negb (n4 =? 24) || (n100 =? 3)) in
    let m := Z.shiftr (n + 50) 5 in
    let preceding :=
      DT.days_before_month_common m + (if (2 <? m) && leapyear then 1 else 0) in
    if n <? preceding then
      let m := m - 1 in
      let preceding :=
        preceding - (days_in_month_common m
                     + (if (m =? 2) && leapyear then 1 else 0)) in
      (y, m, n - preceding + 1)
    else (y, m, n - preceding + 1).

(** The value with the given civil microseconds and offset. *)
Definition of_local_us (us : Z) (tz : option Z) : datetime :=
  let '(y, m, d) := ord2ymd (us / DT.us_per_day + 1) in
  let r := us mod DT.us_per_day in
  mkDT y m d (r / DT.us_per_hour) (r mod DT.us_per_hour / DT.us_per_minute)
       (r mod DT.us_per_minute / DT.us_per_second) (r mod DT.us_per_second) tz.

(** 0001-01-01T00:00:00 up to 9999-12-31T23:59:59.999999, in civil
    microseconds. *)
Definition max_local_us : Z := 3652059 * DT.us_per_day.

Definition in_range (us : Z) : bool := (0 <=? us) && (us <? max_local_us).

Definition checked (us : Z) (tz : option Z) : result datetime :=
  if in_range us then Ok (of_local_us us tz) else Raise OverflowError.

(** [datetime.now(tz)] when the clock reads [utc_us], in microseconds since
    0001-01-01T00:00:00 UTC. *)
Definition now (tz : Z) (utc_us : Z) : datetime :=
  of_local_us (utc_us + tz) (Some tz).

(** [t.astimezone(tz)] for an aware [t]. *)
Definition astimezone (t : datetime) (tz : Z) : result datetime :=
  match tzinfo t with
  | Some off => checked (DT.local_us t - off + tz) (Some tz)
  | None => Raise ValueError
  end.

(** [t - timedelta(microseconds=delta)] *)
Definition minus (t : datetime) (delta : Z) : result datetime :=
  checked (DT.local_us t - delta) (tzinfo t).

Definition digit_char (d : Z) : ascii := ascii_of_N (Z.to_N (48 + d)).

(** The last [width] decimal digits of [n], zero padded. *)
Fixpoint fixed (width : nat) (n : Z) (tail : string) : string :=
  match width with
  | O => tail
  | S w => fixed w (n / 10) (String (digit_char (n mod 10)) tail)
  end.

(** [t.strftime('%Y-%m-%dT%H:%MZ')] for a four-digit year. *)
Definition strftime_minute (t : datetime) : string :=
  fixed 4 (year t) (String "-" (fixed 2 (month t) (String "-"
    (fixed 2 (day t) (String "T" (fixed 2 (hour t) (String ":"
      (fixed 2 (minute t) "Z")))))))).

End Cal.

(** ** [datetime.fromisoformat]

    What the function reads depends on the Python that runs the monitor.
    [Iso.fromisoformat] is the grammar documented for Python 3.7 to 3.10,
    [YYYY-MM-DD[*HH[:MM[:SS[.fff[fff]]]][+HH:MM[:SS[.ffffff]]]]], the [*]
    being any one character, with the field ranges checked; [None] is the
    [ValueError] of those versions. Later versions read every string of this
    grammar to the same value and read more of ISO 8601 besides (from 3.11
    on a [Z] suffix, offsets without a colon, fractions of any length, the
    basic format). The parser below therefore takes the function of the
    running Python as a parameter; [Iso.fromisoformat] is the part every
    version shares. *)

Module Iso.

(** Exactly [n] decimal digits at the head of [s]. *)
Fixpoint digits (n : nat) (acc : Z) (s : string) : option (Z * string) :=
  match n with
  | O => Some (acc, s)
  | S n' =>
      match s with
      | String c s' =>
          if Str.isdigit c then digits n' (10 * acc + Str.digit_val c) s'
          else None
      | EmptyString => None
      end
  end.

Definition expect (c : ascii) (s : string) : option string :=
  match s with
  | String d s' => if Ascii.eqb c d then Some s' else None
  | EmptyString => None
  end.

Definition parse_date (s : string) : option (Z * Z * Z * string) :=
  '(y, s) ← digits 4 0 s;
  s ← expect "-" s;
  '(m, s) ← digits 2 0 s;
  s ← expect "-" s;
  '(d, s) ← digits 2 0 s;
  Some (y, m, d, s).

(** [.fff] or [.ffffff], as microseconds; the whole of [s] is consumed. *)
Definition parse_fraction (s : string) : option Z :=
  match Str.length s with
  | 3%nat => '(f, _) ← digits 3 0 s; Some (f * 1000)
  | 6%nat => '(f, _) ← digits 6 0 s; Some f
  | _ => None
  end.

(** [HH[:MM[:SS[.fff[fff]]]]]; the whole of [s] is consumed. *)
Definition parse_hh_mm_ss_ff (s : string) : option (Z * Z * Z * Z) :=
  '(h, s) ← digits 2 0 s;
  match s with
  | EmptyString => Some (h, 0, 0, 0)
  | String ":" s =>
      '(mi, s) ← digits 2 0 s;
      match s with
      | EmptyString => Some (h, mi, 0, 0)
      | String ":" s =>
          '(se, s) ← digits 2 0 s;
          match s with
          | EmptyString => Some (h, mi, se, 0)
          | String "." s => us ← parse_fraction s; Some (h, mi, se, us)
          | _ => None
          end
      | _ => None
      end
  | _ => None
  end.

Definition is_sign (c : ascii) : bool := Ascii.eqb c "+" || Ascii.eqb c "-".

(** [+HH:MM], [+HH:MM:SS] or [+HH:MM:SS.ffffff] after the sign, as an offset
    in microseconds strictly between -24h and +24h. *)
Definition parse_offset (s : string) : option Z :=
  match s with
  | String sg body =>
      if negb (is_sign sg) then None else
      match Str.length body with
      | 5%nat | 8%nat | 15%nat =>
          '(h, mi, se, us) ← parse_hh_mm_ss_ff body;
          let mag := h * DT.us_per_hour + mi * DT.us_per_minute
                     + se * DT.us_per_second + us in
          if DT.us_per_day <=? mag then None
          else Some (if Ascii.eqb sg "-" then - mag else mag)
      | _ => None
      end
  | EmptyString => None
  end.

Definition parse_time (s : string) : option (Z * Z * Z * Z * option Z) :=
  let '(clock, tz) := Str.span (fun c => negb (is_sign c)) s in
  '(h, mi, se, us) ← parse_hh_mm_ss_ff clock;
  match tz with
  | EmptyString => Some (h, mi, se, us, None)
  | _ => off ← parse_offset tz; Some (h, mi, se, us, Some off)
  end.

Definition fromisoformat (s : string) : option datetime :=
  '(y, m, d, rest) ← parse_date s;
  '(h, mi, se, us, tz) ←
    match rest with
    | EmptyString => Some (0, 0, 0, 0, None)
    | String _sep tstr => parse_time tstr
    end;
  if DT.valid_date y m d && DT.valid_time h mi se us
  then Some (mkDT y m d h mi se us tz)
  else None.

End Iso.

(** ** [float] and [int] on the values the metric pattern captures

    [float(s)] is the binary64 number nearest to the decimal [s] (ties to
    even), [inf] past the largest finite one; a finite float is kept as the
    rational it denotes, in lowest terms. *)

Inductive pyfloat : Type :=
  | Finite (q : Q)
  | Inf.

Module Float.

(** [s] as digits with at most one point: the digits read as an integer and
    the number of digits after the point. [None] when [s] has no digit, a
    second point or any other character. *)
Fixpoint decimal (s : string) (seen_point : bool) (any_digit : bool)
    (num : Z) (places : Z) : option (Z * Z) :=
  match s with
  | EmptyString => if any_digit then Some (num, places) else None
  | String c s' =>
      if Str.isdigit c then
        decimal s' seen_point true (10 * num + Str.digit_val c)
                (if seen_point then places + 1 else places)
      else if Ascii.eqb c "." && negb seen_point then
        decimal s' true any_digit num places
      else None
  end.

(** [n / d] rounded to [m * 2^e] with [m < 2^53], [e >= -1074]. *)
Definition round_binary64 (n d : Z) : pyfloat :=
  if n =? 0 then Finite 0 else
  let e1 := Z.log2 n - Z.log2 d - 53 in
  let quot e :=
    if 0 <=? e then n / (d * 2 ^ e) else (n * 2 ^ (- e)) / d in
  let e2 := if 2 ^ 53 <=? quot e1 then e1 + 1 else e1 in
  let e := Z.max e2 (-1074) in
  let num := if 0 <=? e then n else n * 2 ^ (- e) in
  let den := if 0 <=? e then d * 2 ^ e else d in
  let q := num / den in
  let r := num mod den in
  let m := if (den <? 2 * r) || ((den =? 2 * r) && Z.odd q) then q + 1 else q in
  if 0 <=? e then
    if 2 ^ 1024 <=? m * 2 ^ e then Inf else Finite (inject_Z (m * 2 ^ e))
  else Finite (Qred (Qmake m (Z.to_pos (2 ^ (- e))))).

(** [float(s)] *)
Definition float (s : string) : result pyfloat :=
  match decimal s false false 0 0 with
  | Some (num, places) => Ok (round_binary64 num (10 ^ places))
  | None => Raise ValueError
  end.

(** [int(x)] for a non-negative float: truncation, [OverflowError] on [inf]. *)
Definition int (x : pyfloat) : result Z :=
  match x with
  | Finite q => Ok (Qnum q / Z.pos (Qden q))
  | Inf => Raise OverflowError
  end.

End Float.

(** ** The three regular expressions of the parser *)

Module Re.

Definition is_digit_or_point (c : ascii) : bool :=
  Str.isdigit c || Ascii.eqb c ".".

Definition nonempty (s : string) : bool :=
  match s with EmptyString => false | _ => true end.

(** One match of [(\w+):\s*([\d.]+)] anchored at the head of [s]: the two
    groups and the length of the match. Each class is disjoint from what
    follows it, so the greedy choice is the only one. *)
Definition match_pair (s : string) : option (string * string * nat) :=
  let '(key, r1) := Str.span Str.isword s in
  if negb (nonempty key) then None else
  match r1 with
  | String ":" r2 =>
      let '(ws, r3) := Str.span Str.isspace r2 in
      let '(value, _) := Str.span is_digit_or_point r3 in
      if nonempty value
      then Some (key, value,
                 (Str.length key + 1 + Str.length ws + Str.length value)%nat)
      else None
  | _ => None
  end.

(** [re.findall(r'(\w+):\s*([\d.]+)', s)]: the matches from left to right,
    each search resuming where the previous match ended. *)
Fixpoint findall_pairs_aux (s : string) (skip : nat) : list (string * string) :=
  match s with
  | EmptyString => []
  | String _ s' =>
      match skip with
      | S k => findall_pairs_aux s' k
      | O =>
          match match_pair s with
          | Some (key, value, len) => (key, value) :: findall_pairs_aux s' (len - 1)
          | None => findall_pairs_aux s' O
          end
      end
  end.

Definition findall_pairs (s : string) : list (string * string) :=
  findall_pairs_aux s O.

(** [re.search(key + r'\s*(cls+)', s).group(1)]: the first place where [key]
    is followed by optional spaces and at least one character of [cls]. *)
Fixpoint search_after (key : string) (cls : ascii -> bool) (s : string)
    : option string :=
  let here :=
    if Str.startswith key s then
      let '(_, r) := Str.span Str.isspace (Str.drop (Str.length key) s) in
      let '(v, _) := Str.span cls r in
      if nonempty v then Some v else None
    else None in
  match here with
  | Some v => Some v
  | None =>
      match s with
      | String _ s' => search_after key cls s'
      | EmptyString => None
      end
  end.

End Re.

(** ** The slow-log parser (huawei_rds_slow_sql_monitor.py) *)

(** The [SlowQuery] dataclass. *)
Record SlowQuery : Type := mkSlowQuery {
  timestamp : datetime;
  user_host : string;
  query_time : pyfloat;
  lock_time : pyfloat;
  rows_sent : Z;
  rows_examined : Z;
  thread_id : string;
  db_name : string;
  sql_text : string;
  start_time : datetime;
  end_time : datetime;
  full_scan : bool;
  tmp_table : bool;
  tmp_table_on_disk : bool
}.

(** The [current_query] dict of [parse_slow_log]: its keys are the fourteen
    below, each present or absent. *)
Record query : Type := mkQuery {
  q_timestamp : option datetime;
  q_user_host : option string;
  q_query_time : option pyfloat;
  q_lock_time : option pyfloat;
  q_rows_sent : option Z;
  q_rows_examined : option Z;
  q_thread_id : option string;
  q_db_name : option string;
  q_sql_text : option string;
  q_start_time : option datetime;
  q_end_time : option datetime;
  q_full_scan : option bool;
  q_tmp_table : option bool;
  q_tmp_table_on_disk : option bool
}.

Module Query.

(** [{'timestamp': t}] *)
Definition new (t : datetime) : query :=
  mkQuery (Some t) None None None None None None None None None None None None None.

Definition set_user_host (v : string) (q : query) : query :=
  let '(mkQuery a _ c d e f g h i j k l m n) := q in
  mkQuery a (Some v) c d e f g h i j k l m n.
Definition set_query_time (v : pyfloat) (q : query) : query :=
  let '(mkQuery a b _ d e f g h i j k l m n) := q in
  mkQuery a b (Some v) d e f g h i j k l m n.
Definition set_lock_time (v : pyfloat) (q : query) : query :=
  let '(mkQuery a b c _ e f g h i j k l m n) := q in
  mkQuery a b c (Some v) e f g h i j k l m n.
Definition set_rows_sent (v : Z) (q : query) : query :=
  let '(mkQuery a b c d _ f g h i j k l m n) := q in
  mkQuery a b c d (Some v) f g h i j k l m n.
Definition set_rows_examined (v : Z) (q : query) : query :=
  let '(mkQuery a b c d e _ g h i j k l m n) := q in
  mkQuery a b c d e (Some v) g h i j k l m n.
Definition set_thread_id (v : string) (q : query) : query :=
  let '(mkQuery a b c d e f _ h i j k l m n) := q in
  mkQuery a b c d e f (Some v) h i j k l m n.
Definition set_db_name (v : string) (q : query) : query :=
  let '(mkQuery a b c d e f g _ i j k l m n) := q in
  mkQuery a b c d e f g (Some v) i j k l m n.
Definition set_sql_text (v : string) (q : query) : query :=
  let '(mkQuery a b c d e f g h _ j k l m n) := q in
  mkQuery a b c d e f g h (Some v) j k l m n.
Definition set_start_time (v : datetime) (q : query) : query :=
  let '(mkQuery a b c d e f g h i _ k l m n) := q in
  mkQuery a b c d e f g h i (Some v) k l m n.
Definition set_end_time (v : datetime) (q : query) : query :=
  let '(mkQuery a b c d e f g h i j _ l m n) := q in
  mkQuery a b c d e f g h i j (Some v) l m n.
Definition set_flags (fs tt td : bool) (q : query) : query :=
  let '(mkQuery a b c d e f g h i j k _ _ _) := q in
  mkQuery a b c d e f g h i j k (Some fs) (Some tt) (Some td).

End Query.

(** [_is_valid_query]; [now] is the value of
    [datetime.now(ZoneInfo('Asia/Shanghai'))] at the call. *)
Definition _is_valid_query (now : datetime) (q : query) : bool :=
  match q_timestamp q with
  | None => false
  | Some ts =>
      let today := DT.date_of now in
      let query_date := DT.date_of ts in
      DT.date_eqb query_date today
  end.

(** [_create_slow_query]; [query['timestamp']] is a [KeyError] when the key
    is absent. *)
Definition _create_slow_query (q : query) : result SlowQuery :=
  match q_timestamp q with
  | None => Raise KeyError
  | Some ts =>
      Ok (mkSlowQuery ts
            (default EmptyString (q_user_host q))
            (default (Finite 0) (q_query_time q))
            (default (Finite 0) (q_lock_time q))
            (default 0 (q_rows_sent q))
            (default 0 (q_rows_examined q))
            (default EmptyString (q_thread_id q))
            (default EmptyString (q_db_name q))
            (default EmptyString (q_sql_text q))
            (default ts (q_start_time q))
            (default ts (q_end_time q))
            (default false (q_full_scan q))
            (default false (q_tmp_table q))
            (default false (q_tmp_table_on_disk q)))
  end.

(** [l[1]] *)
Definition item1 (l : list string) : result string :=
  match l with
  | _ :: x :: _ => Ok x
  | _ => Raise IndexError
  end.

(** [datetime.fromisoformat(s)] as a call that may raise; [iso] is the
    function of the Python that runs the monitor. *)
Definition fromisoformat (iso : string -> option datetime) (s : string)
    : result datetime :=
  match iso s with
  | Some t => Ok t
  | None => Raise ValueError
  end.


(** The sort of [slow_queries] by timestamp. Keys are compared with [<]: a
    list of two or more records that mixes naive and aware timestamps raises
    [TypeError]; otherwise the result is the stable sort, by civil fields
    when the timestamps are naive and by instant when they are aware. *)
Module Sort.

Definition key (x : SlowQuery) : Z := DT.instant (timestamp x).

Fixpoint insert (x : SlowQuery) (l : list SlowQuery) : list SlowQuery :=
  match l with
  | [] => [x]
  | y :: l' => if key y <? key x then y :: insert x l' else x :: y :: l'
  end.

Definition stable_sort (l : list SlowQuery) : list SlowQuery :=
  foldr insert [] l.

Definition comparable (l : list SlowQuery) : bool :=
  match l with
  | [] => true
  | x :: l' =>
      forallb (fun y => Bool.eqb (DT.aware (timestamp x)) (DT.aware (timestamp y))) l'
  end.

Definition sort_by_timestamp (l : list SlowQuery) : result (list SlowQuery) :=
  if comparable l then Ok (stable_sort l) else Raise TypeError.

End Sort.

(** The loop state of [parse_slow_log]: its three locals, and the number of
    times the wall clock has been read so far ([_is_valid_query] reads it at
    every call). *)
Record pstate : Type := mkP {
  slow_queries : list SlowQuery;
  current_query : option query;
  sql_lines : list string;
  reads : nat
}.

Module Parser.

Definition init : pstate := mkP [] None [] O.

(** "Process the previous query": runs when [current_query] and [sql_text]
    are both non-empty. [clock k] is what the wall clock reads, in
    microseconds since 0001-01-01T00:00:00 UTC, when it is read the [k]-th
    time. *)
Definition flush (clock : nat -> Z) (st : pstate) : result pstate :=
  match current_query st, sql_lines st with
  | Some q, _ :: _ =>
      let q := Query.set_sql_text (Str.join_nl (sql_lines st)) q in
      if _is_valid_query (Cal.now DT.shanghai (clock (reads st))) q then
        r ← _create_slow_query q;
        Ok (mkP (slow_queries st ++ [r]) (Some q) (sql_lines st) (S (reads st)))
      else Ok (mkP (slow_queries st) (Some q) (sql_lines st) (S (reads st)))
  | _, _ => Ok st
  end.

(** One [(key, value)] of the metric pairs. *)
Definition apply_pair (q : query) (kv : string * string) : result query :=
  let '(key, value) := kv in
  if String.eqb key "Query_time" then
    f ← Float.float value; Ok (Query.set_query_time f q)
  else if String.eqb key "Lock_time" then
    f ← Float.float value; Ok (Query.set_lock_time f q)
  else if String.eqb key "Rows_sent" then
    f ← Float.float value; n ← Float.int f; Ok (Query.set_rows_sent n q)
  else if String.eqb key "Rows_examined" then
    f ← Float.float value; n ← Float.int f; Ok (Query.set_rows_examined n q)
  else if String.eqb key "Thread_id" then
    Ok (Query.set_thread_id value q)
  else Ok q.

Fixpoint apply_pairs (q : query) (pairs : list (string * string)) : result query :=
  match pairs with
  | [] => Ok q
  | kv :: rest => q' ← apply_pair q kv; apply_pairs q' rest
  end.

Definition not_space (c : ascii) : bool := negb (Str.isspace c).

Definition with_query (st : pstate) (q : query) : pstate :=
  mkP (slow_queries st) (Some q) (sql_lines st) (reads st).

(** The lines that are neither comments nor the boilerplate of the file head. *)
Definition is_sql_line (line : string) : bool :=
  negb (Str.startswith "#" line)
  && negb (Str.startswith "/usr/local/mysql/bin/mysqld" line)
  && negb (Str.startswith "Tcp port:" line)
  && negb (Str.startswith "Time                 Id Command" line).

Section Runtime.

(** [datetime.fromisoformat] of the Python that runs the monitor. *)
Variable iso : string -> option datetime.

(** The body of the [# Query_time:] branch. *)
Definition metrics (line : string) (q : query) : result query :=
  q ← apply_pairs q (Re.findall_pairs line);
  let q :=
    match Re.search_after "Schema:" Str.isword line with
    | Some name => Query.set_db_name name q
    | None => q
    end in
  let start_match := Re.search_after "Start:" not_space line in
  let end_match := Re.search_after "End:" not_space line in
  q ← match start_match with
      | Some s => t ← fromisoformat iso s; Ok (Query.set_start_time t q)
      | None => Ok q
      end;
  match end_match with
  | Some s => t ← fromisoformat iso s; Ok (Query.set_end_time t q)
  | None => Ok q
  end.

(** The body of [for line in f]. *)
Definition parse_line (clock : nat -> Z) (st : pstate) (raw : string)
    : result pstate :=
  let line := Str.strip raw in
  if negb (Re.nonempty line) then Ok st
  else if Str.startswith "# Time:" line then
    st ← flush clock st;
    piece ← item1 (Str.split "Time: " line);
    t ← fromisoformat iso piece;
    Ok (mkP (slow_queries st) (Some (Query.new t)) [] (reads st))
  else if Str.startswith "# User@Host:" line then
    match current_query st with
    | Some q =>
        v ← item1 (Str.split "# User@Host: " line);
        Ok (with_query st (Query.set_user_host v q))
    | None => Ok st
    end
  else if Str.startswith "# Query_time:" line then
    match current_query st with
    | Some q => q ← metrics line q; Ok (with_query st q)
    | None => Ok st
    end
  else if Str.startswith "# QC_Hit:" line then
    match current_query st with
    | Some q =>
        Ok (with_query st
              (Query.set_flags (Str.contains "Full_scan: Yes" line)
                               (Str.contains "Tmp_table: Yes" line)
                               (Str.contains "Tmp_table_on_disk: Yes" line) q))
    | None => Ok st
    end
  else if is_sql_line line then
    match current_query st with
    | Some _ =>
        if negb (Str.startswith "SET timestamp=" line)
        then Ok (mkP (slow_queries st) (current_query st)
                     (sql_lines st ++ [line]) (reads st))
        else Ok st
    | None => Ok st
    end
  else Ok st.

Fixpoint parse_lines (clock : nat -> Z) (st : pstate) (ls : list string)
    : result pstate :=
  match ls with
  | [] => Ok st
  | l :: rest => st' ← parse_line clock st l; parse_lines clock st' rest
  end.

End Runtime.

End Parser.

(** What reading the file gives the loop: the lines it yields and, when the
    reading fails, the exception that ends it: an [OSError] of [open], before
    any line, or the [UnicodeDecodeError] of a file that is not UTF-8, after
    the lines that were decoded before it. *)
Record reading : Type := mkReading {
  lines_read : list string;
  read_error : option exn
}.

(** A file that is read to its end and decodes to [text]. *)
Definition whole (text : string) : reading := mkReading (Str.lines text) None.

(** [parse_slow_log]; [iso] is [datetime.fromisoformat] of the Python that
    runs the monitor, [file] what reading the file gives. *)
Definition parse_slow_log_with (iso : string -> option datetime)
    (clock : nat -> Z) (file : reading) : result (list SlowQuery) :=
  st ← Parser.parse_lines iso clock Parser.init (lines_read file);
  match read_error file with
  | Some ex => Raise ex
  | None =>
      st ← Parser.flush clock st;
      Sort.sort_by_timestamp (slow_queries st)
  end.

(** [parse_slow_log] on a file that is read to its end and decodes to
    [text], under a Python that reads the grammar of 3.7 to 3.10 and no
    more. *)
Definition parse_slow_log (clock : nat -> Z) (text : string)
    : result (list SlowQuery) :=
  parse_slow_log_with Iso.fromisoformat clock (whole text).

(** ** The export job poller *)

(** One entry of the [list] of a download reply, and the reply itself
    ([response.to_dict()]): a key maps to [None] when it is absent or null. *)
Record file_entry : Type := mkEntry {
  fe_status : option string;
  fe_file_link : option string
}.

Record response : Type := mkResponse {
  r_status : option string;
  r_list : option (list file_entry)
}.

(** What one pass of the loop of [wait_for_download_link] does with the
    value of [request_download_link], which is [None] after a failed call. *)
Inductive verdict : Type :=
  | Return (success : bool) (link : option string)
  | Retry.

Definition poll_once (result : option response) : verdict :=
  match result with
  | None => Return false None
  | Some r =>
      if bool_decide (r_status r = Some "FINISH") then
        match default [] (r_list r) with
        | first :: _ =>
            if bool_decide (fe_status first = Some "SUCCESS")
            then Return true (fe_file_link first)
            else Retry
        | [] => Retry
        end
      else if bool_decide (r_status r = Some "FAILED") then Return false None
      else Retry
  end.

(** [for i in range(max_retries)]: [i] is the index of the pass, [replies i]
    the value of the [i]-th call of [request_download_link]. *)
Fixpoint wait_loop (replies : nat -> option response) (i remaining : nat)
    : bool * option string :=
  match remaining with
  | O => (false, None)
  | S remaining' =>
      match poll_once (replies i) with
      | Return success link => (success, link)
      | Retry => wait_loop replies (S i) remaining'
      end
  end.

Definition wait_for_download_link (replies : nat -> option response)
    (max_retries : nat) : bool * option string :=
  wait_loop replies O max_retries.

(** ** The download directory and its clean-up *)

(** The download directory: file name to content. *)
Abbreviation directory := (gmap string string).

Definition is_old_slowlog (new_file_name file_name : string) : bool :=
  Str.contains "slowlog_download" file_name
  && negb (String.eqb file_name new_file_name).

(** [_delete_old_slowlog]. [listable] is false when [os.listdir] raises, and
    [remove_fails name] is true when [os.remove] raises on that file; both
    failures are logged and nothing else happens. *)
Definition _delete_old_slowlog (listable : bool) (remove_fails : string -> bool)
    (instance_id new_file_name : string) (dir : directory) : directory :=
  if listable then
    filter (fun entry => negb (is_old_slowlog new_file_name entry.1
                               && negb (remove_fails entry.1))) dir
  else dir.

(** What the HTTP transfer of [download_slow_log] does: it fails before the
    local file is opened, breaks while streaming, or delivers the body. *)
Inductive transfer : Type :=
  | TransferFails
  | TransferBreaks (partial : string)
  | TransferBody (content : string).

Record download_env : Type := mkDownloadEnv {
  (** [os.path.basename(urlparse(link).path)] as a function of the link *)
  link_basename : string -> string;
  (** [datetime.now().strftime('%Y%m%d_%H%M%S')] *)
  stamp : string;
  listable : bool;
  remove_fails : string -> bool;
  http : transfer
}.

(** [download_slow_log]: the path of the downloaded file (its name in the
    download directory) or [None], and the directory afterwards. *)
Definition download_slow_log (e : download_env) (download_link instance_id : string)
    (dir : directory) : option string * directory :=
  let file_name := link_basename e download_link in
  let file_name :=
    if Re.nonempty file_name then file_name
    else "slowlog_download_" +:+ stamp e in
  let dir := _delete_old_slowlog (listable e) (remove_fails e) instance_id file_name dir in
  match http e with
  | TransferFails => (None, dir)
  | TransferBreaks partial => (None, <[file_name := partial]> dir)
  | TransferBody content => (Some file_name, <[file_name := content]> dir)
  end.

(** ** Deduplication, alerting and the cursor *)

(** [[query for query in slow_queries if query.timestamp > last_time]] *)
Fixpoint new_queries (slow_queries : list SlowQuery) (last_time : datetime)
    : result (list SlowQuery) :=
  match slow_queries with
  | [] => Ok []
  | query :: rest =>
      DT.gt (timestamp query) last_time ≫= λ keep : bool,
      rest' ← new_queries rest last_time;
      Ok (if keep then query :: rest' else rest')
  end.

(** [max(query.timestamp for query in batch)]: the first of the greatest. *)
Fixpoint max_from (best : datetime) (l : list SlowQuery) : result datetime :=
  match l with
  | [] => Ok best
  | query :: rest =>
      DT.gt (timestamp query) best ≫= λ better : bool,
      max_from (if better then timestamp query else best) rest
  end.

Definition max_timestamp (batch : list SlowQuery) : result datetime :=
  match batch with
  | [] => Raise ValueError
  | query :: rest => max_from (timestamp query) rest
  end.

(** [_generate_alert_file]: no file for an empty list, or when writing it
    fails; otherwise the file, which reports the records given. *)
Definition _generate_alert_file (writable : bool) (slow_queries : list SlowQuery)
    : option (list SlowQuery) :=
  match slow_queries with
  | [] => None
  | _ => if writable then Some slow_queries else None
  end.

(** The two replies of the webhook: the [errcode] of each JSON body, or the
    exception of the transport, of [raise_for_status] or of the decoding. *)
Record webhook : Type := mkWebhook {
  upload_reply : result (option Z);
  send_reply : result (option Z)
}.

(** [send_alert] *)
Definition send_alert (w : webhook) : bool :=
  match upload_reply w with
  | Ok (Some 0) =>
      match send_reply w with
      | Ok (Some 0) => true
      | _ => false
      end
  | _ => false
  end.

(** What can be observed of the monitors from outside. *)
Inductive event (B : Type) : Type :=
  | Checked (instance_id : string)
  | Delivered (instance_id : string) (batch : B)
  | Undelivered (instance_id : string) (batch : B)
  | LoggedError (e : exn)
  | Slept (seconds : Z)
  | Stopped.
Arguments Checked {B} instance_id.
Arguments Delivered {B} instance_id batch.
Arguments Undelivered {B} instance_id batch.
Arguments LoggedError {B} e.
Arguments Slept {B} seconds.
Arguments Stopped {B}.

(** The events of the Huawei monitor: a batch is a list of records. *)
Abbreviation hw_event := (event (list SlowQuery)).

(** The monitor's mutable state: the cursors and the download directory. *)
Record monitor : Type := mkMonitor {
  last_process_time : gmap string datetime;
  download_dir : directory
}.

(** What the outside world answers during one [process_instance]. *)
Record instance_env : Type := mkInstanceEnv {
  replies : nat -> option response;
  downloading : download_env;
  clock : nat -> Z;
  alert_writable : bool;
  hook : webhook
}.

Definition truthy (s : option string) : bool :=
  match s with Some s => Re.nonempty s | None => false end.

(** The [try] block of [process_instance]. *)
Definition process_downloaded (e : instance_env) (instance_id file_path : string)
    (m : monitor) : result (monitor * list hw_event) :=
  text ← match download_dir m !! file_path with
         | Some text => Ok text
         | None => Raise OSError
         end;
  slow_queries ← parse_slow_log (clock e) text;
  match slow_queries with
  | [] => Ok (m, [])
  | _ =>
      last_time ← match last_process_time m !! instance_id with
                  | Some t => Ok t
                  | None => Raise KeyError
                  end;
      fresh ← new_queries slow_queries last_time;
      match fresh with
      | [] => Ok (m, [])
      | _ =>
          match _generate_alert_file (alert_writable e) fresh with
          | Some batch =>
              if send_alert (hook e) then
                newest ← max_timestamp fresh;
                Ok (mkMonitor (<[instance_id := newest]> (last_process_time m))
                              (download_dir m),
                    [Delivered instance_id batch])
              else Ok (m, [Undelivered instance_id batch])
          | None => Ok (m, [])
          end
      end
  end.

(** [process_instance]; the defaults of [wait_for_download_link] give ten
    passes. *)
Definition process_instance (e : instance_env) (instance_id : string)
    (m : monitor) : monitor * list hw_event :=
  let '(success, download_link) := wait_for_download_link (replies e) 10 in
  if negb success || negb (truthy download_link) then (m, [])
  else
    let '(file_path, dir) :=
      download_slow_log (downloading e) (default EmptyString download_link)
                        instance_id (download_dir m) in
    let m := mkMonitor (last_process_time m) dir in
    match file_path with
    | None => (m, [])
    | Some file_path =>
        match process_downloaded e instance_id file_path m with
        | Ok done => done
        | Raise ex => (m, [LoggedError ex])
        end
    end.

(** [__init__]: every configured instance starts with the cursor at
    [datetime.now(ZoneInfo('Asia/Shanghai'))]; [clock k] is the reading for
    the [k]-th instance of the list. *)
Fixpoint init_cursors (clock : nat -> Z) (k : nat) (instances : list string)
    (last_process_time : gmap string datetime) : gmap string datetime :=
  match instances with
  | [] => last_process_time
  | instance_id :: rest =>
      init_cursors clock (S k) rest
        (<[instance_id := Cal.now DT.shanghai (clock k)]> last_process_time)
  end.

(** ** The time window (aliyun_rds_slow_sql_monitor.py) *)

(** [get_time_range]; [cst_now] is the value of
    [datetime.now(ZoneInfo("Asia/Shanghai"))]. *)
Definition get_time_range (cst_now : datetime) : result (string * string) :=
  utc_now ← Cal.astimezone cst_now DT.utc;
  utc_start ← Cal.minus utc_now DT.us_per_minute;
  let start_time := Cal.strftime_minute utc_start in
  let end_time := Cal.strftime_minute utc_now in
  Ok (start_time, end_time).

(** ** The Aliyun monitor: scopes, records and alerts *)

(** One [SQLSlowRecord] of the reply: the keys that steer the code, and the
    statement. *)
Record item : Type := mkItem {
  DBName : option string;
  ExecutionStartTime : option string;
  SQLText : option string
}.

Abbreviation al_event := (event (string * list item)).

(** [get_instance_databases]; [config] maps the name of a section to its
    [databases] option (the empty string when the option is missing). *)
Definition get_instance_databases (config : gmap string string)
    (instance_id : string) : list string :=
  match config !! instance_id with
  | None => []
  | Some databases =>
      let databases := Str.strip databases in
      if negb (Re.nonempty databases) then []
      else List.filter Re.nonempty (map Str.strip (Str.split "," databases))
  end.

(** What the outside world answers while one instance is handled. [k]
    numbers the calls of [get_slow_sql_records] for that instance. *)
Record aliyun_env : Type := mkAliyunEnv {
  (** the reading of the wall clock at call [k] *)
  al_clock : nat -> Z;
  (** the [Items.SQLSlowRecord] of the reply to the request with the given
      instance, window and database, or the exception of the client *)
  describe : nat -> string -> string * string -> option string
             -> result (option (list item));
  (** [datetime.strptime(s, '%Y-%m-%dT%H:%M:%SZ')] *)
  strptime : string -> result datetime;
  (** whether [open(file_path, 'w')] succeeds for the database *)
  file_writable : string -> bool;
  (** the [media_id] of [upload_file] for the database *)
  upload_file : string -> option string;
  (** whether [send_file_message] got [errcode] 0 *)
  message_sent : string -> bool
}.

(** [get_slow_sql_records]: the window is computed outside the [try], the
    request inside; [except Exception] catches what the request raises,
    [KeyboardInterrupt] apart. A reply is a non-empty dict. *)
Definition get_slow_sql_records (e : aliyun_env) (k : nat) (instance_id : string)
    (db_name : option string) : result (option (option (list item))) :=
  window ← get_time_range (Cal.now DT.shanghai (al_clock e k));
  match describe e k instance_id window db_name with
  | Ok reply => Ok (Some reply)
  | Raise KeyboardInterrupt => Raise KeyboardInterrupt
  | Raise _ => Ok None
  end.

(** "Group by database": the groups in the order their first record came. *)
Fixpoint add_to_group (db : string) (x : item) (groups : list (string * list item))
    : list (string * list item) :=
  match groups with
  | [] => [(db, [x])]
  | (name, members) :: rest =>
      if String.eqb name db then (name, members ++ [x]) :: rest
      else (name, members) :: add_to_group db x rest
  end.

Definition group_by_db (items : list item) : list (string * list item) :=
  foldl (fun groups x => add_to_group (default "Unknown" (DBName x)) x groups)
        [] items.

(** The execution times of the records written to the alert file:
    [strptime] of a missing value is a [TypeError]. *)
Fixpoint render_items (e : aliyun_env) (db_items : list item) : result unit :=
  match db_items with
  | [] => Ok tt
  | x :: rest =>
      match ExecutionStartTime x with
      | None => Raise TypeError
      | Some s => _ ← strptime e s; render_items e rest
      end
  end.

(** The loop over the groups of [send_wechat_alert]: the file is written
    with no handler around it, the upload and the message never raise. *)
Fixpoint alert_groups (e : aliyun_env) (instance_id : string)
    (groups : list (string * list item)) : result unit * list al_event :=
  match groups with
  | [] => (Ok tt, [])
  | (db_name, db_items) :: rest =>
      if negb (file_writable e db_name) then (Raise OSError, [])
      else
        match render_items e db_items with
        | Raise ex => (Raise ex, [])
        | Ok _ =>
            let sent :=
              truthy (upload_file e db_name) && message_sent e db_name in
            let ev := if sent then Delivered instance_id (db_name, db_items)
                      else Undelivered instance_id (db_name, db_items) in
            let '(r, evs) := alert_groups e instance_id rest in
            (r, ev :: evs)
        end
  end.

(** [send_wechat_alert] *)
Definition send_wechat_alert (e : aliyun_env) (slow_sql_info : option (list item))
    (instance_id : string) : result unit * list al_event :=
  match slow_sql_info with
  | None => (Ok tt, [])
  | Some [] => (Ok tt, [])
  | Some items => alert_groups e instance_id (group_by_db items)
  end.

(** One scope of one instance: the records, then the alert if there is a
    reply. *)
Definition check_scope (e : aliyun_env) (k : nat) (instance_id : string)
    (db_name : option string) : result unit * list al_event :=
  match get_slow_sql_records e k instance_id db_name with
  | Raise ex => (Raise ex, [])
  | Ok None => (Ok tt, [])
  | Ok (Some slow_sql_records) => send_wechat_alert e slow_sql_records instance_id
  end.

Fixpoint check_databases (e : aliyun_env) (k : nat) (instance_id : string)
    (databases : list string) : result unit * list al_event :=
  match databases with
  | [] => (Ok tt, [])
  | db_name :: rest =>
      match check_scope e k instance_id (Some db_name) with
      | (Ok _, evs) =>
          let '(r, evs') := check_databases e (S k) instance_id rest in
          (r, evs ++ evs')
      | (Raise ex, evs) => (Raise ex, evs)
      end
  end.

(** The body of [for instance_id in self.instances] in [run]. *)
Definition check_instance (config : gmap string string) (e : aliyun_env)
    (instance_id : string) : result unit * list al_event :=
  match get_instance_databases config instance_id with
  | [] => check_scope e O instance_id None
  | databases => check_databases e O instance_id databases
  end.

(** ** The poll loop

    Both [run] methods have the same shape: one [try] around the loop over
    the instances and the sleep, [KeyboardInterrupt] leaves the loop, any
    other exception is logged and followed by the same sleep. [body c id s]
    is the handling of instance [id] in cycle [c] from state [s]: how it
    ends, the state it leaves and what it did. *)

Section PollLoop.

Context {St B : Type}.
Variable body : nat -> string -> St -> result unit * St * list (event B).
Variable instances : list string.
Variable query_interval : Z.

(** [for instance_id in self.instances: ...] *)
Fixpoint for_instances (c : nat) (ids : list string) (s : St)
    : result unit * St * list (event B) :=
  match ids with
  | [] => (Ok tt, s, [])
  | instance_id :: rest =>
      match body c instance_id s with
      | (Ok _, s', evs) =>
          let '(r, s'', evs') := for_instances c rest s' in
          (r, s'', Checked instance_id :: evs ++ evs')
      | (Raise ex, s', evs) => (Raise ex, s', Checked instance_id :: evs)
      end
  end.

(** One pass of [while True]: whether the loop goes on, the state and the
    events. *)
Definition cycle (c : nat) (s : St) : bool * St * list (event B) :=
  match for_instances c instances s with
  | (Ok _, s', evs) => (true, s', evs ++ [Slept query_interval])
  | (Raise KeyboardInterrupt, s', evs) => (false, s', evs ++ [Stopped])
  | (Raise ex, s', evs) => (true, s', evs ++ [LoggedError ex; Slept query_interval])
  end.

(** The first [n] passes of [run], starting with cycle [c]. *)
Fixpoint run (n : nat) (c : nat) (s : St) : St * list (event B) :=
  match n with
  | O => (s, [])
  | S n' =>
      match cycle c s with
      | (true, s', evs) => let '(s'', evs') := run n' (S c) s' in (s'', evs ++ evs')
      | (false, s', evs) => (s', evs)
      end
  end.

End PollLoop.

(** The two instances of the loop. *)
Definition huawei_body (envs : nat -> string -> instance_env) (c : nat)
    (instance_id : string) (m : monitor) : result unit * monitor * list hw_event :=
  let '(m', evs) := process_instance (envs c instance_id) instance_id m in
  (Ok tt, m', evs).

Definition aliyun_body (config : gmap string string)
    (envs : nat -> string -> aliyun_env) (c : nat) (instance_id : string)
    (s : unit) : result unit * unit * list al_event :=
  let '(r, evs) := check_instance config (envs c instance_id) instance_id in
  (r, s, evs).

Definition huawei_run (envs : nat -> string -> instance_env)
    (instances : list string) (query_interval : Z) :=
  run (huawei_body envs) instances query_interval.

Definition aliyun_run (config : gmap string string)
    (envs : nat -> string -> aliyun_env) (instances : list string)
    (query_interval : Z) :=
  run (aliyun_body config envs) instances query_interval.

(** ** The configuration ([__init__] of both monitors) *)

(** [[instance.strip() for instance in instance_list.split(',')
      if instance.strip()]] *)
Definition configured_instances (instance_list : string) : list string :=
  List.filter Re.nonempty (map Str.strip (Str.split "," instance_list)).

(** [webhook_url.split('key=')[-1]] *)
Definition webhook_key (webhook_url : string) : string :=
  List.last (Str.split "key=" webhook_url) EmptyString.

(** The URL of the upload of [send_alert] and [upload_file]. *)
Definition upload_url (webhook_url : string) : string :=
  "https://qyapi.weixin.qq.com/cgi-bin/webhook/upload_media?key="
  +:+ webhook_key webhook_url +:+ "&type=file".

(** ** The execution time of the Aliyun alert

    [datetime.strptime(s, '%Y-%m-%dT%H:%M:%SZ')]: the format becomes the
    pattern
    [(\d\d\d\d)-(1[0-2]|0[1-9]|[1-9])-(3[0-1]|[1-2]\d|0[1-9]|[1-9]| [1-9])T(2[0-3]|[0-1]\d|\d):([0-5]\d|\d):(6[0-1]|[0-5]\d|\d)Z],
    matched at the head of the text without regard to case; text left
    over, a date that does not exist or a second past 59 is a
    [ValueError]. *)

Module Strptime.

(** A digit between [lo] and [hi]. *)
Definition digit_in (lo hi : Z) (c : ascii) : bool :=
  Str.isdigit c && (lo <=? Str.digit_val c) && (Str.digit_val c <=? hi).

Definition blank (c : ascii) : bool := Ascii.eqb c " ".

(** One character of each class in turn: the text matched and the rest. *)
Fixpoint classes (cls : list (ascii -> bool)) (s : string)
    : option (string * string) :=
  match cls with
  | [] => Some (EmptyString, s)
  | p :: cls' =>
      match s with
      | String c s' =>
          if p c then
            match classes cls' s' with
            | Some (text, rest) => Some (String c text, rest)
            | None => None
            end
          else None
      | EmptyString => None
      end
  end.

(** [int(text)] for digits that may follow a blank. *)
Definition int (text : string) : Z :=
  fold_left (fun acc c => 10 * acc + (if Str.isdigit c then Str.digit_val c else 0))
            (list_ascii_of_string text) 0.

(** A group of alternatives: they are tried in order, and the next one is
    tried when what follows the group does not match ([k] is what
    follows). *)
Fixpoint group {A : Type} (alts : list (list (ascii -> bool)))
    (k : Z -> string -> option A) (s : string) : option A :=
  match alts with
  | [] => None
  | alt :: alts' =>
      match classes alt s with
      | Some (text, rest) =>
          match k (int text) rest with
          | Some r => Some r
          | None => group alts' k s
          end
      | None => group alts' k s
      end
  end.

(** One character of the format. *)
Definition one {A : Type} (p : ascii -> bool) (k : string -> option A)
    (s : string) : option A :=
  match s with
  | String c s' => if p c then k s' else None
  | EmptyString => None
  end.

Definition digit : ascii -> bool := digit_in 0 9.

(** [%m], [%d], [%H], [%M] and [%S]. *)
Definition m : list (list (ascii -> bool)) :=
  [[digit_in 1 1; digit_in 0 2]; [digit_in 0 0; digit_in 1 9]; [digit_in 1 9]].
Definition d : list (list (ascii -> bool)) :=
  [[digit_in 3 3; digit_in 0 1]; [digit_in 1 2; digit]; [digit_in 0 0; digit_in 1 9];
   [digit_in 1 9]; [blank; digit_in 1 9]].
Definition H : list (list (ascii -> bool)) :=
  [[digit_in 2 2; digit_in 0 3]; [digit_in 0 1; digit]; [digit]].
Definition M : list (list (ascii -> bool)) :=
  [[digit_in 0 5; digit]; [digit]].
Definition S : list (list (ascii -> bool)) :=
  [[digit_in 6 6; digit_in 0 1]; [digit_in 0 5; digit]; [digit]].

(** [%Y]: four digits. *)
Definition Y {A : Type} (k : Z -> string -> option A) (s : string) : option A :=
  match Iso.digits 4 0 s with
  | Some (y, rest) => k y rest
  | None => None
  end.

Definition dash (c : ascii) : bool := Ascii.eqb c "-".
Definition colon (c : ascii) : bool := Ascii.eqb c ":".
Definition tee (c : ascii) : bool := Ascii.eqb c "T" || Ascii.eqb c "t".
Definition zed (c : ascii) : bool := Ascii.eqb c "Z" || Ascii.eqb c "z".

(** The match of the pattern at the head of [s]: the six numbers and the
    text left over. *)
Definition match_format (s : string)
    : option (Z * Z * Z * Z * Z * Z * string) :=
  Y (fun year => one dash (group m (fun month => one dash (group d (fun day =>
    one tee (group H (fun hour => one colon (group M (fun minute =>
      one colon (group S (fun second => one zed (fun rest =>
        Some (year, month, day, hour, minute, second, rest))))))))))))) s.

Definition strptime (s : string) : result datetime :=
  match match_format s with
  | Some (year, month, day, hour, minute, second, rest) =>
      if Re.nonempty rest then Raise ValueError
      else if DT.valid_date year month day && DT.valid_time hour minute second 0
      then Ok (mkDT year month day hour minute second 0 None)
      else Raise ValueError
  | None => Raise ValueError
  end.

End Strptime.

(** [t.strftime('%Y-%m-%d %H:%M:%S')] for a four-digit year. *)
Definition strftime_seconds (t : datetime) : string :=
  Cal.fixed 4 (year t) (String "-" (Cal.fixed 2 (month t) (String "-"
    (Cal.fixed 2 (day t) (String " " (Cal.fixed 2 (hour t) (String ":"
      (Cal.fixed 2 (minute t) (String ":" (Cal.fixed 2 (second t) "")))))))))).

(** The execution time as [send_wechat_alert] writes it:
    [strptime(item.get('ExecutionStartTime'), '%Y-%m-%dT%H:%M:%SZ')],
    [.replace(tzinfo=ZoneInfo('UTC'))], [.astimezone(ZoneInfo('Asia/Shanghai'))]
    and [.strftime('%Y-%m-%d %H:%M:%S')]. A missing value is a [TypeError].
    [zone] gives the UTC offset of Asia/Shanghai at an instant (+08:00 at
    every instant since 1992). *)
Definition execution_time_cst (zone : Z -> Z) (value : option string)
    : result string :=
  match value with
  | None => Raise TypeError
  | Some s =>
      t ← Strptime.strptime s;
      let execution_time_utc :=
        mkDT (year t) (month t) (day t) (hour t) (minute t) (second t)
             (microsecond t) (Some DT.utc) in
      cst ← Cal.astimezone execution_time_utc (zone (DT.instant execution_time_utc));
      Ok (strftime_seconds cst)
  end.

(** ** The time the poller spends asleep

    The loop of [wait_for_download_link] once more, with the seconds it
    sleeps: a pass that settles nothing is followed by
    [time.sleep(retry_interval)], the last pass included. *)
Fixpoint wait_loop_slept (replies : nat -> option response) (retry_interval : Z)
    (i remaining : nat) : bool * option string * Z :=
  match remaining with
  | O => (false, None, 0)
  | S remaining' =>
      match poll_once (replies i) with
      | Return success link => (success, link, 0)
      | Retry =>
          let '(success, link, slept) :=
            wait_loop_slept replies retry_interval (S i) remaining' in
          (success, link, retry_interval + slept)
      end
  end.

Definition wait_for_download_link_slept (replies : nat -> option response)
    (max_retries : nat) (retry_interval : Z) : bool * option string * Z :=
  wait_loop_slept replies retry_interval O max_retries.

(** ** Vocabulary of the statements *)

(** *** The filter and the cursor *)

(** The record's timestamp and the cursor are both naive or both aware. *)
Definition same_awareness (last_time : datetime) (query : SlowQuery) : bool :=
  Bool.eqb (DT.aware (timestamp query)) (DT.aware last_time).

(** The record is later than the cursor: by instant for aware values, by
    civil fields for naive ones. *)
Definition later_than (last_time : datetime) (query : SlowQuery) : bool :=
  DT.instant last_time <? DT.instant (timestamp query).

Definition is_aware (query : SlowQuery) : bool := DT.aware (timestamp query).

(** The text of a time marker carries a UTC offset: past the date and the
    separator there is a sign. *)
Definition has_offset (s : string) : bool :=
  negb (Str.all (fun c => negb (Iso.is_sign c)) (Str.drop 11 s)).

(** The cursor of an instance. *)
Definition cursor (m : monitor) (instance_id : string) : option datetime :=
  last_process_time m !! instance_id.

(** [newest] is the timestamp of a record of [batch] and no record of
    [batch] is later. *)
Definition is_newest (newest : datetime) (batch : list SlowQuery) : Prop :=
  (exists query, In query batch /\ timestamp query = newest)
  /\ (forall query, In query batch ->
        DT.instant (timestamp query) <= DT.instant newest).

(** The order of two readings of a cursor: both absent, or both present,
    alike in awareness, the second not earlier than the first. *)
Definition cursor_le (a b : option datetime) : Prop :=
  match a, b with
  | None, None => True
  | Some x, Some y => DT.instant x <= DT.instant y /\ DT.aware x = DT.aware y
  | _, _ => False
  end.

(** A sequence of executions of [process_instance], each with what the
    world answers and the instance it is for. *)
Fixpoint process_all (steps : list (instance_env * string)) (m : monitor)
    : monitor :=
  match steps with
  | [] => m
  | (e, instance_id) :: rest =>
      process_all rest (process_instance e instance_id m).1
  end.

(** *** The poller *)

(** The reply announces a finished export whose first file succeeded;
    [link] is the [file_link] of that first file. *)
Definition first_file_ready (r : option response) (link : option string) : Prop :=
  exists resp first rest,
    r = Some resp
    /\ r_status resp = Some "FINISH"
    /\ r_list resp = Some (first :: rest)
    /\ fe_status first = Some "SUCCESS"
    /\ fe_file_link first = link.

(** The call failed, or the reply says the export failed. *)
Definition export_failed (r : option response) : Prop :=
  r = None \/ exists resp, r = Some resp /\ r_status resp = Some "FAILED".

(** *** The Python that runs the monitor *)

(** [iso] reads every string of the grammar of Python 3.7 to 3.10, to the
    same value. *)
Definition reads_common_grammar (iso : string -> option datetime) : Prop :=
  forall s t, Iso.fromisoformat s = Some t -> iso s = Some t.

(** *** Well-formed lines

    The places of [parse_slow_log] that can raise, line by line. [iso] is
    [datetime.fromisoformat] of the running Python; [seen] tells whether a
    time marker has been read before the line. *)

(** A [# Time:] line: ['Time: '] occurs in it and what follows parses. *)
Definition time_marker_ok (iso : string -> option datetime) (line : string)
    : bool :=
  match item1 (Str.split "Time: " line) with
  | Ok piece => bool_decide (is_Some (iso piece))
  | Raise _ => false
  end.

(** A [# User@Host:] line: something follows the colon and a space. *)
Definition user_host_ok (line : string) : bool :=
  is_ok (item1 (Str.split "# User@Host: " line)).

(** One metric pair: the four numeric keys need a value [float] accepts,
    the two row counts one that [int] accepts too. *)
Definition pair_ok (kv : string * string) : bool :=
  let '(key, value) := kv in
  if String.eqb key "Query_time" || String.eqb key "Lock_time"
  then is_ok (Float.float value)
  else if String.eqb key "Rows_sent" || String.eqb key "Rows_examined"
  then is_ok (Float.float value ≫= Float.int)
  else true.

Definition stamp_ok (iso : string -> option datetime) (found : option string)
    : bool :=
  match found with
  | Some s => bool_decide (is_Some (iso s))
  | None => true
  end.

(** A [# Query_time:] line. *)
Definition metrics_ok (iso : string -> option datetime) (line : string) : bool :=
  forallb pair_ok (Re.findall_pairs line)
  && stamp_ok iso (Re.search_after "Start:" Parser.not_space line)
  && stamp_ok iso (Re.search_after "End:" Parser.not_space line).

Definition is_time_marker (raw : string) : bool :=
  let line := Str.strip raw in
  Re.nonempty line && Str.startswith "# Time:" line.

Definition line_ok (iso : string -> option datetime) (seen : bool)
    (raw : string) : bool :=
  let line := Str.strip raw in
  if negb (Re.nonempty line) then true
  else if Str.startswith "# Time:" line then time_marker_ok iso line
  else if Str.startswith "# User@Host:" line then negb seen || user_host_ok line
  else if Str.startswith "# Query_time:" line then negb seen || metrics_ok iso line
  else true.

Fixpoint lines_ok (iso : string -> option datetime) (seen : bool)
    (ls : list string) : bool :=
  match ls with
  | [] => true
  | l :: rest => line_ok iso seen l && lines_ok iso (seen || is_time_marker l) rest
  end.

(** *** The loop of the parser and what it returns *)

(** The accumulator of the loop, when there is one, has its timestamp. *)
Definition has_timestamp (st : pstate) : Prop :=
  forall q, current_query st = Some q -> is_Some (q_timestamp q).

(** Whether the loop has an accumulator, that is, has read a time marker. *)
Definition seen (st : pstate) : bool :=
  match current_query st with Some _ => true | None => false end.

(** The timestamp of the accumulator of the loop, when there is one. *)
Definition cur_ts (st : pstate) : option datetime :=
  match current_query st with
  | Some q => q_timestamp q
  | None => None
  end.

(** The civil date of the record, as written, is the date in Asia/Shanghai
    at one of the first [n] readings of the clock. *)
Definition dated_by (clock : nat -> Z) (n : nat) (r : SlowQuery) : Prop :=
  exists k, (k < n)%nat
            /\ DT.date_of (timestamp r)
               = DT.date_of (Cal.now DT.shanghai (clock k)).

(** The invariant of the loop of [parse_slow_log]. *)
Definition parser_inv (clock : nat -> Z) (st : pstate) : Prop :=
  has_timestamp st /\ Forall (dated_by clock (reads st)) (slow_queries st).

(** [t] is what [fromisoformat] makes of the text after ['Time: '] on one
    of the time-marker lines of [ls]. *)
Definition from_marker (iso : string -> option datetime) (ls : list string)
    (t : datetime) : Prop :=
  exists raw piece,
    In raw ls
    /\ is_time_marker raw = true
    /\ item1 (Str.split "Time: " (Str.strip raw)) = Ok piece
    /\ iso piece = Some t.

(** The time markers of [ls] are all read as aware ([b] true) or all as
    naive ([b] false). *)
Definition markers_alike (iso : string -> option datetime) (b : bool)
    (ls : list string) : Prop :=
  forall raw piece t,
    In raw ls -> is_time_marker raw = true ->
    item1 (Str.split "Time: " (Str.strip raw)) = Ok piece ->
    iso piece = Some t ->
    DT.aware t = b.

(** Every time marker of [ls] is a timestamp of the common grammar without
    an offset. *)
Definition written_without_offset (ls : list string) : Prop :=
  forall raw piece,
    In raw ls -> is_time_marker raw = true ->
    item1 (Str.split "Time: " (Str.strip raw)) = Ok piece ->
    exists t, Iso.fromisoformat piece = Some t /\ has_offset piece = false.

(** The texts of the time markers of [ls] all carry an offset ([b] true) or
    all carry none ([b] false). *)
Definition offsets_alike (b : bool) (ls : list string) : Prop :=
  forall raw piece,
    In raw ls -> is_time_marker raw = true ->
    item1 (Str.split "Time: " (Str.strip raw)) = Ok piece ->
    has_offset piece = b.

(** Every timestamp the loop holds satisfies [P]. *)
Definition stamped (P : datetime -> Prop) (st : pstate) : Prop :=
  (forall ts, cur_ts st = Some ts -> P ts)
  /\ Forall (fun r => P (timestamp r)) (slow_queries st).

(** The records [parse_slow_log] has accepted when it reaches its sort, in
    the order of the file. *)
Definition accepted_with (iso : string -> option datetime) (clock : nat -> Z)
    (ls : list string) : result (list SlowQuery) :=
  st ← Parser.parse_lines iso clock Parser.init ls;
  st ← Parser.flush clock st;
  Ok (slow_queries st).

Definition accepted (clock : nat -> Z) (text : string) : result (list SlowQuery) :=
  accepted_with Iso.fromisoformat clock (Str.lines text).

(** The order the sort establishes. *)
Definition key_le (a b : SlowQuery) : Prop := Sort.key a <= Sort.key b.

(** In Python's terms: no record is earlier than one before it. *)
Definition not_earlier (a b : SlowQuery) : Prop :=
  DT.lt (timestamp b) (timestamp a) = Ok false.

(** The civil date in Asia/Shanghai of the instant of an aware value. *)
Definition shanghai_date (t : datetime) : date :=
  DT.date_of (Cal.now DT.shanghai (DT.instant t)).

(** Two clocks agree on the civil day in Asia/Shanghai at every reading. *)
Definition same_days (c1 c2 : nat -> Z) : Prop :=
  forall k, DT.date_of (Cal.now DT.shanghai (c1 k))
            = DT.date_of (Cal.now DT.shanghai (c2 k)).

(** *** The poll loop *)

(** The instances a trace shows as handled, in order. *)
Fixpoint checked {B : Type} (evs : list (event B)) : list string :=
  match evs with
  | [] => []
  | Checked instance_id :: rest => instance_id :: checked rest
  | _ :: rest => checked rest
  end.

(** *** Reading the wire format back *)

Module Wire.

(** The minute a rendered bound denotes: ["YYYY-MM-DDTHH:MMZ"] as minutes
    since 0001-01-01T00:00 UTC. *)
Definition minutes (s : string) : option Z :=
  '(y, s) ← Iso.digits 4 0 s;
  s ← Iso.expect "-" s;
  '(m, s) ← Iso.digits 2 0 s;
  s ← Iso.expect "-" s;
  '(d, s) ← Iso.digits 2 0 s;
  s ← Iso.expect "T" s;
  '(h, s) ← Iso.digits 2 0 s;
  s ← Iso.expect ":" s;
  '(mi, s) ← Iso.digits 2 0 s;
  match s with
  | "Z" => Some (((DT.ymd2ord y m d - 1) * 24 + h) * 60 + mi)
  | _ => None
  end.

End Wire.

(** The ordinal [n] maps to a date of the first 400 years that maps back
    to [n]. *)
Definition day_ok (n : Z) : bool :=
  let '(y, m, d) := Cal.ord2ymd n in
  (DT.ymd2ord y m d =? n) && (1 <=? y) && (y <=? 400)
  && (1 <=? m) && (m <=? 12) && (1 <=? d) && (d <=? 31).

Fixpoint days_ok (count : nat) (n : Z) : bool :=
  match count with
  | O => true
  | S count' => if day_ok n then days_ok count' (n + 1) else false
  end.

(** The readings of the clock the statements about the window cover: from
    the Unix epoch to the end of the year 9600. *)
Definition unix_epoch : Z := (DT.ymd2ord 1970 1 1 - 1) * DT.us_per_day.
Definition year_9601 : Z := 24 * 146097 * DT.us_per_day.

(** *** Clocks, logs, records and worlds of the examples *)

Definition nl : string := String "010"%char EmptyString.

(** A wall clock that stays at the instant of [t]. *)
Definition at_time (t : datetime) : nat -> Z := fun _ => DT.instant t.

Definition may_1_noon : datetime := mkDT 2024 5 1 12 0 0 0 (Some DT.shanghai).

(** 2024-05-01 at [h]:[mi], Asia/Shanghai. *)
Definition may_1 (h mi : Z) : datetime := mkDT 2024 5 1 h mi 0 0 (Some DT.shanghai).

Definition jan_2_2023_noon : datetime := mkDT 2023 1 2 12 0 0 0 (Some DT.shanghai).

Definition may_2_just_after_midnight : datetime :=
  mkDT 2024 5 2 0 10 0 0 (Some DT.shanghai).

(** The two-record log of the specification's example. *)
Definition example_log : string :=
  "# Time: 2024-05-01T02:00:00" +:+ nl +:+
  "# Query_time: 3.500000  Lock_time: 0.000000 Rows_sent: 1  Rows_examined: 100" +:+ nl +:+
  "SELECT 1;" +:+ nl +:+
  "# Time: 2024-05-01T02:05:00" +:+ nl +:+
  "# Query_time: 3.500000  Lock_time: 0.000000 Rows_sent: 1  Rows_examined: 100" +:+ nl +:+
  "SELECT 2;" +:+ nl.

Definition example_record (mi : Z) (sql : string) : SlowQuery :=
  let ts := mkDT 2024 5 1 2 mi 0 0 None in
  mkSlowQuery ts "" (Finite (7 # 2)) (Finite 0) 1 100 "" "" sql ts ts
              false false false.

(** The example log with the offset of Asia/Shanghai on its time markers. *)
Definition aware_log : string :=
  "# Time: 2024-05-01T02:00:00+08:00" +:+ nl +:+
  "# Query_time: 3.500000  Lock_time: 0.000000 Rows_sent: 1  Rows_examined: 100" +:+ nl +:+
  "SELECT 1;" +:+ nl +:+
  "# Time: 2024-05-01T02:05:00+08:00" +:+ nl +:+
  "# Query_time: 3.500000  Lock_time: 0.000000 Rows_sent: 1  Rows_examined: 100" +:+ nl +:+
  "SELECT 2;" +:+ nl.

Definition aware_record (mi : Z) (sql : string) : SlowQuery :=
  let ts := may_1 2 mi in
  mkSlowQuery ts "" (Finite (7 # 2)) (Finite 0) 1 100 "" "" sql ts ts
              false false false.

(** The example log with its two records in the opposite order. *)
Definition reversed_log : string :=
  "# Time: 2024-05-01T02:05:00" +:+ nl +:+
  "# Query_time: 3.500000  Lock_time: 0.000000 Rows_sent: 1  Rows_examined: 100" +:+ nl +:+
  "SELECT 2;" +:+ nl +:+
  "# Time: 2024-05-01T02:00:00" +:+ nl +:+
  "# Query_time: 3.500000  Lock_time: 0.000000 Rows_sent: 1  Rows_examined: 100" +:+ nl +:+
  "SELECT 1;" +:+ nl.

(** The log of the specification's stale-record example. *)
Definition stale_log : string :=
  "# Time: 2023-01-01T10:00:00" +:+ nl +:+
  "# Query_time: 3.500000  Lock_time: 0.000000 Rows_sent: 1  Rows_examined: 100" +:+ nl +:+
  "SELECT 1;" +:+ nl.

(** A record written half an hour after midnight of 2024-05-02 at offset
    +09:00, that is at 23:30 of 2024-05-01 in Shanghai, and a clock that
    reads ten minutes past midnight of 2024-05-02 in Shanghai. *)
Definition tokyo_log : string :=
  "# Time: 2024-05-02T00:30:00+09:00" +:+ nl +:+
  "SELECT 1;" +:+ nl.

Definition tokyo_stamp : datetime :=
  mkDT 2024 5 2 0 30 0 0 (Some (9 * DT.us_per_hour)).

(** Logs for the examples of the parser's robustness: a time marker that is
    no timestamp, a metric with two points, and a file with the boilerplate
    of the server at its head, a record without metadata and a statement on
    two lines. *)
Definition bad_marker_log : string :=
  "# Time: not-a-timestamp" +:+ nl +:+
  "SELECT 1;" +:+ nl.

Definition bad_metric_log : string :=
  "# Time: 2024-05-01T02:00:00" +:+ nl +:+
  "# Query_time: 1.2.3  Lock_time: 0.000000 Rows_sent: 1  Rows_examined: 100" +:+ nl +:+
  "SELECT 1;" +:+ nl.

Definition noisy_log : string :=
  "/usr/local/mysql/bin/mysqld, Version: 5.7.38 (MySQL Community Server). started with:" +:+ nl +:+
  "Tcp port: 3306  Unix socket: /tmp/mysql.sock" +:+ nl +:+
  "Time                 Id Command    Argument" +:+ nl +:+
  "# Query_time: 1.2.3" +:+ nl +:+
  "# Time: 2024-05-01T02:00:00" +:+ nl +:+
  "# Something: else" +:+ nl +:+
  "SET timestamp=1714500000;" +:+ nl +:+
  "SELECT a" +:+ nl +:+
  "FROM t;" +:+ nl.

(** A record with only its timestamp and statement filled in. *)
Definition record_at (ts : datetime) (sql : string) : SlowQuery :=
  mkSlowQuery ts "" (Finite 0) (Finite 0) 0 0 "" "" sql ts ts false false false.

(** A reply that announces a finished export with one successful file. *)
Definition finished_reply (link : string) : response :=
  mkResponse (Some "FINISH") (Some [mkEntry (Some "SUCCESS") (Some link)]).

(** Replies for the examples: still generating, and finished with two files
    of which only the second succeeded. *)
Definition generating_reply : response := mkResponse (Some "CREATING") None.

Definition second_file_reply : response :=
  mkResponse (Some "FINISH")
    (Some [mkEntry (Some "FAILED") None;
           mkEntry (Some "SUCCESS") (Some "https://obs.example/logs/slowlog_download_2")]).

Definition webhook_ok : webhook := mkWebhook (Ok (Some 0)) (Ok (Some 0)).
Definition webhook_refuses : webhook := mkWebhook (Ok (Some 0)) (Ok (Some 93000)).

(** A world in which the export is ready at once, the download delivers
    [text] as [slowlog_download_1], it is noon of 2024-05-01 in Shanghai and
    the webhook answers [w]. *)
Definition ready_env (text : string) (w : webhook) : instance_env :=
  mkInstanceEnv
    (fun _ => Some (finished_reply "https://obs.example/logs/slowlog_download_1"))
    (mkDownloadEnv (fun _ => "slowlog_download_1") "20240501_120000" true
                   (fun _ => false) (TransferBody text))
    (at_time may_1_noon) true w.

(** A monitor of the instance [rds-1] whose cursor is at 02:00:00. *)
Definition monitor_at_0200 : monitor :=
  mkMonitor {["rds-1" := may_1 2 0]} ∅.

(** A download directory shared by two instances, with a file of each and
    a file that is no slow log. *)
Definition shared_dir : gmap string string :=
  {[ "slowlog_download_a" := "log of rds-1";
     "slowlog_download_b" := "log of rds-2";
     "notes.txt" := "keep" ]}.

(** A download of [slowlog_download_c] whose transfer succeeds; [fails]
    tells on which files [os.remove] raises. *)
Definition fetch_env (fails : string -> bool) : download_env :=
  mkDownloadEnv (fun _ => "slowlog_download_c") "20240501_120000" true fails
                (TransferBody "new log").

(** A world for the Aliyun monitor at noon of 2024-05-01 in which every
    request returns [items] and every file, upload and message succeeds;
    [strptime] is taken to accept every string. *)
Definition aliyun_world (items : list item) : aliyun_env :=
  mkAliyunEnv (at_time may_1_noon)
              (fun _ _ _ _ => Ok (Some items))
              (fun _ => Ok may_1_noon)
              (fun _ => true)
              (fun _ => Some "media-1")
              (fun _ => true).

(** A record whose reply lacks [ExecutionStartTime], and a complete one. *)
Definition item_without_start : item :=
  mkItem (Some "shop") None (Some "SELECT 1").

Definition item_complete : item :=
  mkItem (Some "shop") (Some "2024-05-01T03:59:30Z") (Some "SELECT 2").

(** Instance [rds-a] gets the incomplete record, every other instance the
    complete one. *)
Definition two_instances (c : nat) (instance_id : string) : aliyun_env :=
  if String.eqb instance_id "rds-a" then aliyun_world [item_without_start]
  else aliyun_world [item_complete].

(** Every record a trace shows as delivered is covered by the cursor of its
    instance. *)
Definition covered (m : monitor) (evs : list hw_event) : Prop :=
  forall id b q,
    In (Delivered id b) evs -> In q b ->
    exists cur, cursor m id = Some cur
                /\ DT.instant (timestamp q) <= DT.instant cur.

(** The batches a trace shows as delivered for one instance come in order:
    every record of a later batch is later than every record of an earlier
    one. *)
Definition in_order (evs : list hw_event) : Prop :=
  forall (i j : nat) id b1 b2 q1 q2,
    (i < j)%nat ->
    evs !! i = Some (Delivered id b1) -> evs !! j = Some (Delivered id b2) ->
    In q1 b1 -> In q2 b2 ->
    DT.instant (timestamp q1) < DT.instant (timestamp q2).

(** The cursors of [m] are not earlier than those of [m0], and every record
    a trace shows as delivered is later than the cursor its instance has in
    [m0]. *)
Definition after_start (m0 m : monitor) (evs : list hw_event) : Prop :=
  (forall id, cursor_le (cursor m0 id) (cursor m id))
  /\ forall id b q,
       In (Delivered id b) evs -> In q b ->
       exists start, cursor m0 id = Some start /\ later_than start q = true.

(** The log of a later export: the 02:05 record again and one of 02:10. *)
Definition later_log : string :=
  "# Time: 2024-05-01T02:05:00+08:00" +:+ nl +:+
  "SELECT 2;" +:+ nl +:+
  "# Time: 2024-05-01T02:10:00+08:00" +:+ nl +:+
  "SELECT 3;" +:+ nl.

(** The world of two passes: the export of the first pass holds
    [aware_log], that of every later pass [later_log]. *)
Definition two_passes (c : nat) (instance_id : string) : instance_env :=
  ready_env (match c with O => aware_log | S _ => later_log end) webhook_ok.

(** *** The blocks of the slow log *)

(** The line is a statement line: once stripped it is not empty, is
    neither a comment nor boilerplate of the file head, and does not start
    with [SET timestamp=]. *)
Definition is_statement (raw : string) : bool :=
  Re.nonempty (Str.strip raw)
  && Parser.is_sql_line (Str.strip raw)
  && negb (Str.startswith "SET timestamp=" (Str.strip raw)).

(** The statement lines among [body], stripped. *)
Definition statement_lines (body : list string) : list string :=
  map Str.strip (List.filter is_statement body).

(** The lines up to the next time marker. *)
Fixpoint body_of (ls : list string) : list string :=
  match ls with
  | [] => []
  | l :: rest => if is_time_marker l then [] else l :: body_of rest
  end.

(** The timestamp the running Python reads on a time-marker line. *)
Definition block_stamp (iso : string -> option datetime) (marker : string)
    : option datetime :=
  match item1 (Str.split "Time: " (Str.strip marker)) with
  | Ok piece => iso piece
  | Raise _ => None
  end.

(** The blocks of a file: one for each time-marker line, with the timestamp
    read on the marker and the statement lines from there to the next
    marker. The lines before the first marker belong to no block. *)
Fixpoint blocks_of (iso : string -> option datetime) (ls : list string)
    : list (option datetime * list string) :=
  match ls with
  | [] => []
  | l :: rest =>
      if is_time_marker l
      then (block_stamp iso l, statement_lines (body_of rest)) :: blocks_of iso rest
      else blocks_of iso rest
  end.

(** What the blocks yield, in their order. A block without a statement line
    yields nothing. A block with one takes a reading of the clock ([k]
    counts the readings) and yields the timestamp of its marker with its
    statement lines joined by newlines when the date of the timestamp, as
    written, is the date of that reading in Asia/Shanghai. *)
Fixpoint yielding (clock : nat -> Z) (k : nat)
    (blocks : list (option datetime * list string)) : list (datetime * string) :=
  match blocks with
  | [] => []
  | (stamp, lines) :: rest =>
      match lines with
      | [] => yielding clock k rest
      | _ :: _ =>
          match stamp with
          | Some t =>
              if DT.date_eqb (DT.date_of t)
                             (DT.date_of (Cal.now DT.shanghai (clock k)))
              then (t, Str.join_nl lines) :: yielding clock (S k) rest
              else yielding clock (S k) rest
          | None => yielding clock (S k) rest
          end
      end
  end.

(** The timestamp and the statement of a record. *)
Definition stamp_and_statement (r : SlowQuery) : datetime * string :=
  (timestamp r, sql_text r).

(** The number of time markers among the lines. *)
Definition count_markers (ls : list string) : nat :=
  List.length (List.filter is_time_marker ls).

(** The example log after two lines that belong to no record. *)
Definition example_log_with_head : string :=
  "Tcp port: 3306  Unix socket: /tmp/mysql.sock" +:+ nl +:+
  "SELECT 0;" +:+ nl +:+ example_log.

(** *** Row counts *)

(** The number a run of decimal digits denotes. *)
Definition number_of (s : string) : Z :=
  fold_left (fun acc c => 10 * acc + Str.digit_val c) (list_ascii_of_string s) 0.

(** *** Names read from the configuration *)

(** [','.join(l)] *)
Fixpoint join_comma (l : list string) : string :=
  match l with
  | [] => EmptyString
  | [x] => x
  | x :: rest => x +:+ String "," (join_comma rest)
  end.

(** A name with no comma in it. *)
Definition comma_free (s : string) : bool := negb (Str.contains "," s).

(** A name as the monitors use it: not empty, no blank at either end, no
    comma. *)
Definition clean_name (s : string) : Prop :=
  s <> EmptyString /\ Str.strip s = s /\ comma_free s = true.

(** *** The groups of the Aliyun alert *)

(** The database a record is filed under. *)
Definition db_of (x : item) : string := default "Unknown" (DBName x).

(** The records of [items] filed under [name], in their order. *)
Definition records_of (name : string) (items : list item) : list item :=
  List.filter (fun x => String.eqb (db_of x) name) items.

(** The batches a trace shows as handed to the webhook, delivered or not,
    in order. *)
Fixpoint reported (evs : list al_event) : list (string * list item) :=
  match evs with
  | [] => []
  | Delivered _ batch :: rest => batch :: reported rest
  | Undelivered _ batch :: rest => batch :: reported rest
  | _ :: rest => reported rest
  end.

(** The names in the order of their first appearance. *)
Fixpoint first_seen (names : list string) : list string :=
  match names with
  | [] => []
  | name :: rest =>
      name :: List.filter (fun n => negb (String.eqb n name)) (first_seen rest)
  end.

(** The alert file of the group can be written: the file opens and the
    execution time of every record of the group parses. *)
Definition group_written (e : aliyun_env) (g : string * list item) : bool :=
  file_writable e g.1 && is_ok (render_items e g.2).

(** The groups before the first one whose file cannot be written. *)
Fixpoint written_prefix (e : aliyun_env) (groups : list (string * list item))
    : list (string * list item) :=
  match groups with
  | [] => []
  | g :: rest => if group_written e g then g :: written_prefix e rest else []
  end.

(** What the trace shows for a group whose file was written: delivered when
    the upload gave a [media_id] and the message was accepted, undelivered
    otherwise. *)
Definition alert_of (e : aliyun_env) (instance_id : string)
    (g : string * list item) : al_event :=
  if truthy (upload_file e g.1) && message_sent e g.1
  then Delivered instance_id g else Undelivered instance_id g.

(** Three records of two databases, the second without a database name. *)
Definition three_items : list item :=
  [mkItem (Some "shop") (Some "2024-05-01T03:59:30Z") (Some "SELECT 1");
   mkItem None (Some "2024-05-01T03:59:40Z") (Some "SELECT 2");
   mkItem (Some "shop") (Some "2024-05-01T03:59:50Z") (Some "SELECT 3")].

(** *** The execution time *)

(** The text [YYYY-MM-DDTHH:MM:SSZ] of a UTC time. *)
Definition utc_text (y mo d h mi s : Z) : string :=
  Cal.fixed 4 y (String "-" (Cal.fixed 2 mo (String "-" (Cal.fixed 2 d
    (String "T" (Cal.fixed 2 h (String ":" (Cal.fixed 2 mi (String ":"
      (Cal.fixed 2 s "Z")))))))))).

(** Asia/Shanghai as it has been since 1992. *)
Definition shanghai_zone : Z -> Z := fun _ => DT.shanghai.

(** *** A record without metadata *)

(** A time marker and a statement on two lines, nothing else. *)
Definition bare_log : string :=
  "# Time: 2024-05-01T02:00:00" +:+ nl +:+
  "SELECT a" +:+ nl +:+
  "  FROM t;" +:+ nl.

(** *** Passes of the Aliyun monitor with nothing to report *)

(** The answer to a request leaves nothing to report: the client raised
    an exception that [except Exception] catches, or the reply has no
    [Items], or its list of records is empty. *)
Definition nothing_to_report (answer : result (option (list item))) : Prop :=
  match answer with
  | Raise ex => ex <> KeyboardInterrupt
  | Ok None => True
  | Ok (Some items) => items = []
  end.

(** The clock reads a time from 1970 on whose Shanghai time is before the
    year 9601. *)
Definition within_the_calendar (t : Z) : Prop :=
  unix_epoch <= t /\ t + DT.shanghai < year_9601.

(** What [n] passes over [instances] that do nothing leave behind. *)
Fixpoint idle_passes {B : Type} (instances : list string) (interval : Z) (n : nat)
    : list (event B) :=
  match n with
  | O => []
  | S n' => map Checked instances ++ [Slept interval]
            ++ idle_passes instances interval n'
  end.

(** The API is down: every request ends in a connection error. *)
Definition api_down : aliyun_env :=
  mkAliyunEnv (at_time may_1_noon) (fun _ _ _ _ => Raise OSError)
              (fun _ => Raise ValueError) (fun _ => true) (fun _ => None)
              (fun _ => false).

(** * Properties

    First the sanity checks of the library models on concrete inputs, then
    the lemmas and theorems about the monitors. *)

Example split_time_marker :
  Str.split "Time: " "# Time: 2024-05-01T02:00:00" = ["# "; "2024-05-01T02:00:00"].
Proof. reflexivity. Qed.

Example split_no_separator : Str.split "Time: " "# Time:" = ["# Time:"].
Proof. reflexivity. Qed.

Example strip_line : Str.strip "  # Time: x  " = "# Time: x".
Proof. reflexivity. Qed.

Example lines_crlf :
  Str.lines ("a" +:+ String "013"%char (String "010"%char "b")) = ["a"; "b"].
Proof. reflexivity. Qed.

Example iso_naive :
  Iso.fromisoformat "2024-05-01T02:00:00" = Some (mkDT 2024 5 1 2 0 0 0 None).
Proof. reflexivity. Qed.

Example iso_aware :
  Iso.fromisoformat "2024-05-01T02:05:00.250+08:00"
  = Some (mkDT 2024 5 1 2 5 0 250000 (Some DT.shanghai)).
Proof. reflexivity. Qed.

Example iso_garbage : Iso.fromisoformat "garbage" = None.
Proof. reflexivity. Qed.

Example iso_bad_day : Iso.fromisoformat "2023-02-29T10:00:00" = None.
Proof. reflexivity. Qed.

Example float_3_5 : Float.float "3.500000" = Ok (Finite (7 # 2)).
Proof. vm_compute. reflexivity. Qed.

Example float_tenth :
  Float.float "0.1" = Ok (Finite (3602879701896397 # 36028797018963968)).
Proof. vm_compute. reflexivity. Qed.

Example float_two_points : Float.float "1.2.3" = Raise ValueError.
Proof. reflexivity. Qed.

Example float_only_point : Float.float "." = Raise ValueError.
Proof. reflexivity. Qed.

Example int_float_100 : Float.float "100" ≫= Float.int = Ok 100.
Proof. vm_compute. reflexivity. Qed.

Example int_float_rounds_up :
  Float.float "0.99999999999999999999" ≫= Float.int = Ok 1.
Proof. vm_compute. reflexivity. Qed.

Example findall_metrics :
  Re.findall_pairs "# Query_time: 3.500000  Lock_time: 0.000000 Rows_sent: 1  Rows_examined: 100"
  = [("Query_time", "3.500000"); ("Lock_time", "0.000000");
     ("Rows_sent", "1"); ("Rows_examined", "100")].
Proof. reflexivity. Qed.

Example findall_inside_timestamp :
  Re.findall_pairs "Start: 2024-05-01T02:00:00" = [("Start", "2024"); ("01T02", "00")].
Proof. reflexivity. Qed.

Example search_schema :
  Re.search_after "Schema:" Str.isword "# Query_time: 1  Schema: shop  Last_errno: 0"
  = Some "shop".
Proof. reflexivity. Qed.

Example parse_example_log :
  parse_slow_log (at_time may_1_noon) example_log
  = Ok [example_record 0 "SELECT 1;"; example_record 5 "SELECT 2;"].
Proof. vm_compute. reflexivity. Qed.

Example ord2ymd_2024_05_01 : Cal.ord2ymd (DT.ymd2ord 2024 5 1) = (2024, 5, 1).
Proof. reflexivity. Qed.

Example ord2ymd_leap_day : Cal.ord2ymd (DT.ymd2ord 2024 2 29) = (2024, 2, 29).
Proof. reflexivity. Qed.

Example ord2ymd_year_end : Cal.ord2ymd (DT.ymd2ord 2000 12 31) = (2000, 12, 31).
Proof. reflexivity. Qed.

Example time_range_example :
  get_time_range (mkDT 2024 5 1 8 0 30 0 (Some DT.shanghai))
  = Ok ("2024-04-30T23:59Z", "2024-05-01T00:00Z").
Proof. vm_compute. reflexivity. Qed.

(** ** The deduplication filter *)

Lemma gt_spec (a b : datetime) :
  DT.gt a b =
  if Bool.eqb (DT.aware a) (DT.aware b)
  then Ok (DT.instant b <? DT.instant a)
  else Raise TypeError.
Proof.
  unfold DT.gt, DT.compare, DT.aware, DT.instant.
  destruct (tzinfo a) as [oa|], (tzinfo b) as [ob|]; simpl; try reflexivity.
  - destruct (Z.compare_spec (DT.local_us a - oa) (DT.local_us b - ob)) as [E|E|E];
      simpl; f_equal; symmetry;
      [apply Z.ltb_ge | apply Z.ltb_ge | apply Z.ltb_lt]; lia.
  - destruct (Z.compare_spec (DT.local_us a) (DT.local_us b)) as [E|E|E];
      simpl; f_equal; symmetry;
      [apply Z.ltb_ge | apply Z.ltb_ge | apply Z.ltb_lt]; lia.
Qed.

Lemma new_queries_spec (slow_queries : list SlowQuery) (last_time : datetime) :
  new_queries slow_queries last_time =
  if forallb (same_awareness last_time) slow_queries
  then Ok (List.filter (later_than last_time) slow_queries)
  else Raise TypeError.
Proof.
  induction slow_queries as [|query rest IH]; simpl; [reflexivity|].
  rewrite gt_spec. fold (same_awareness last_time query).
  destruct (same_awareness last_time query); simpl; [|reflexivity].
  rewrite IH. fold (later_than last_time query).
  destruct (forallb (same_awareness last_time) rest); simpl; [|reflexivity].
  destruct (later_than last_time query); reflexivity.
Qed.

(** C1, as the code has it: the comprehension of [process_instance] raises
    [TypeError] as soon as one record's timestamp is naive where the cursor
    is aware (or the reverse); otherwise it returns exactly the records
    later than the cursor, in their order. With the times of the example
    written with offset +08:00, a cursor at 02:00:00 keeps exactly the
    02:05:00 record. *)
Theorem dedup_filter_exact :
  (forall (slow_queries : list SlowQuery) (last_time : datetime),
     new_queries slow_queries last_time =
     if forallb (same_awareness last_time) slow_queries
     then Ok (List.filter (later_than last_time) slow_queries)
     else Raise TypeError)
  /\ new_queries [record_at (may_1 2 0) "SELECT 1;"; record_at (may_1 2 5) "SELECT 2;"]
                 (may_1 2 0)
     = Ok [record_at (may_1 2 5) "SELECT 2;"].
Proof.
  split; [exact new_queries_spec|].
  rewrite new_queries_spec. vm_compute. reflexivity.
Qed.

(** C1, as stated, fails: the two records parsed from the example log have
    naive timestamps, the cursor of the monitor is aware, and the filter
    raises instead of returning the 02:05:00 record. *)
Lemma dedup_filter_raises_on_naive :
  parse_slow_log (at_time may_1_noon) example_log
  = Ok [example_record 0 "SELECT 1;"; example_record 5 "SELECT 2;"]
  /\ new_queries [example_record 0 "SELECT 1;"; example_record 5 "SELECT 2;"]
                 (may_1 2 0)
     = Raise TypeError.
Proof. split; vm_compute; reflexivity. Qed.

(** ** The cursor *)

Lemma max_from_spec (l : list SlowQuery) (best : datetime) :
  Forall (fun q => DT.aware (timestamp q) = DT.aware best) l ->
  exists newest,
    max_from best l = Ok newest
    /\ DT.aware newest = DT.aware best
    /\ (newest = best \/ exists q, In q l /\ timestamp q = newest)
    /\ DT.instant best <= DT.instant newest
    /\ (forall q, In q l -> DT.instant (timestamp q) <= DT.instant newest).
Proof.
  revert best. induction l as [|q l IH]; intros best Hall.
  - exists best. simpl. repeat split; auto; try lia; intros q [].
  - inversion Hall as [|? ? Hq Hl]; subst. simpl.
    rewrite gt_spec, Hq, eqb_reflx. simpl.
    destruct (Z.ltb_spec (DT.instant best) (DT.instant (timestamp q))) as [Hlt|Hge].
    + destruct (IH (timestamp q)) as (newest & Hmax & Haw & Hin & Hle & Hub).
      { eapply List.Forall_impl; [|exact Hl]. simpl. intros a Ha. congruence. }
      exists newest. split; [exact Hmax|]. split; [congruence|].
      split; [|split; [lia|]].
      * right. destruct Hin as [->|(q' & Hq' & <-)]; eauto.
      * intros q' [<-|Hq']; auto.
    + destruct (IH best Hl) as (newest & Hmax & Haw & Hin & Hle & Hub).
      exists newest. split; [exact Hmax|]. split; [exact Haw|].
      split; [|split; [exact Hle|]].
      * destruct Hin as [->|(q' & Hq' & <-)]; eauto.
      * intros q' [<-|Hq']; auto. lia.
Qed.

Lemma max_timestamp_spec (batch : list SlowQuery) (c : datetime) :
  batch <> [] ->
  Forall (fun q => same_awareness c q = true) batch ->
  exists newest,
    max_timestamp batch = Ok newest
    /\ DT.aware newest = DT.aware c
    /\ is_newest newest batch.
Proof.
  intros Hne Hall. destruct batch as [|q rest]; [congruence|].
  inversion Hall as [|? ? Hq Hrest]; subst.
  apply eqb_prop in Hq.
  destruct (max_from_spec rest (timestamp q)) as (newest & Hmax & Haw & Hin & Hle & Hub).
  { eapply List.Forall_impl; [|exact Hrest]. simpl. intros a Ha.
    apply eqb_prop in Ha. congruence. }
  exists newest. split; [exact Hmax|]. split; [congruence|]. split.
  - destruct Hin as [->|(q' & Hq' & <-)]; [exists q | exists q']; simpl; auto.
  - intros q' [<-|Hq']; auto.
Qed.

Lemma new_queries_ok (slow_queries fresh : list SlowQuery) (c : datetime) :
  new_queries slow_queries c = Ok fresh ->
  fresh = List.filter (later_than c) slow_queries
  /\ Forall (fun q => same_awareness c q = true) slow_queries.
Proof.
  rewrite new_queries_spec.
  destruct (forallb (same_awareness c) slow_queries) eqn:E; [|discriminate].
  intros [= <-]. split; [reflexivity|].
  apply List.Forall_forall. intros q Hq.
  rewrite List.forallb_forall in E. auto.
Qed.

Lemma process_downloaded_inv (e : instance_env) (id path : string)
    (m m' : monitor) (evs : list hw_event) :
  process_downloaded e id path m = Ok (m', evs) ->
  (m' = m /\ forall b, ~ In (Delivered id b) evs)
  \/ exists text slow_queries old batch newest,
       download_dir m !! path = Some text
       /\ parse_slow_log (clock e) text = Ok slow_queries
       /\ cursor m id = Some old
       /\ new_queries slow_queries old = Ok batch
       /\ batch <> []
       /\ send_alert (hook e) = true
       /\ max_timestamp batch = Ok newest
       /\ evs = [Delivered id batch]
       /\ m' = mkMonitor (<[id := newest]> (last_process_time m)) (download_dir m).
Proof.
  unfold process_downloaded, cursor.
  destruct (download_dir m !! path) as [text|] eqn:Htext;
    cbn [mbind result_bind]; [|discriminate].
  destruct (parse_slow_log (clock e) text) as [slow_queries|ex] eqn:Hparse;
    cbn [mbind result_bind]; [|discriminate].
  destruct slow_queries as [|q0 qs].
  { intros [= <- <-]. left. split; [reflexivity|]. intros b []. }
  destruct (last_process_time m !! id) as [old|] eqn:Hold;
    cbn [mbind result_bind]; [|discriminate].
  destruct (new_queries (q0 :: qs) old) as [batch|ex] eqn:Hnew;
    cbn [mbind result_bind]; [|discriminate].
  destruct batch as [|b0 bs].
  { intros [= <- <-]. left. split; [reflexivity|]. intros b []. }
  unfold _generate_alert_file.
  destruct (alert_writable e).
  - destruct (send_alert (hook e)) eqn:Hsend.
    + destruct (max_timestamp (b0 :: bs)) as [newest|ex] eqn:Hmax;
        cbn [mbind result_bind]; [|discriminate].
      intros [= <- <-]. right.
      exists text, (q0 :: qs), old, (b0 :: bs), newest.
      repeat split; auto; discriminate.
    + intros [= <- <-]. left. split; [reflexivity|].
      intros b [H|[]]. discriminate.
  - intros [= <- <-]. left. split; [reflexivity|]. intros b [].
Qed.

Lemma cursor_le_refl (a : option datetime) : cursor_le a a.
Proof. destruct a; simpl; auto. split; [lia|reflexivity]. Qed.

Lemma cursor_le_trans (a b c : option datetime) :
  cursor_le a b -> cursor_le b c -> cursor_le a c.
Proof.
  destruct a, b, c; simpl; try tauto.
  intros [H1 H2] [H3 H4]. split; [lia|congruence].
Qed.

Lemma filter_later (c : datetime) (l : list SlowQuery) :
  Forall (fun q => later_than c q = true) (List.filter (later_than c) l).
Proof.
  apply List.Forall_forall. intros q Hq. apply List.filter_In in Hq. tauto.
Qed.

Lemma filter_same_awareness (c : datetime) (l : list SlowQuery) :
  Forall (fun q => same_awareness c q = true) l ->
  Forall (fun q => same_awareness c q = true) (List.filter (later_than c) l).
Proof.
  rewrite !List.Forall_forall. intros H q Hq.
  apply List.filter_In in Hq. apply H. tauto.
Qed.

(** What one execution of [process_instance] does to the cursors. *)
Lemma process_instance_cursor (e : instance_env) (id : string)
    (m m' : monitor) (evs : list hw_event) :
  process_instance e id m = (m', evs) ->
  (last_process_time m' = last_process_time m
   /\ forall b, ~ In (Delivered id b) evs)
  \/ exists text slow_queries old batch newest,
       parse_slow_log (clock e) text = Ok slow_queries
       /\ cursor m id = Some old
       /\ new_queries slow_queries old = Ok batch
       /\ batch <> []
       /\ send_alert (hook e) = true
       /\ evs = [Delivered id batch]
       /\ is_newest newest batch
       /\ DT.aware newest = DT.aware old
       /\ DT.instant old < DT.instant newest
       /\ last_process_time m' = <[id := newest]> (last_process_time m).
Proof.
  unfold process_instance.
  destruct (wait_for_download_link (replies e) 10) as [success download_link].
  destruct (negb success || negb (truthy download_link)).
  { intros [= <- <-]. left. split; [reflexivity|]. intros b []. }
  destruct (download_slow_log _ _ _ _) as [[file_path|] dir].
  2:{ intros [= <- <-]. left. split; [reflexivity|]. intros b []. }
  destruct (process_downloaded _ _ _ _) as [[m1 evs1]|ex] eqn:Hdone.
  2:{ intros [= <- <-]. left. split; [reflexivity|].
      intros b [H|[]]. discriminate. }
  intros [= <- <-].
  apply process_downloaded_inv in Hdone.
  destruct Hdone as [[-> Hnone]|Hdel]; [left; split; [reflexivity|exact Hnone]|].
  destruct Hdel as (text & slow_queries & old & batch & newest & _ & Hparse
                    & Hold & Hnew & Hne & Hsend & Hmax & -> & ->).
  right. exists text, slow_queries, old, batch, newest.
  unfold cursor in *. simpl in *.
  destruct (new_queries_ok _ _ _ Hnew) as [Hfilter Haware].
  destruct (max_timestamp_spec batch old Hne) as (newest' & Hmax' & Haw & Hnewest).
  { rewrite Hfilter. apply filter_same_awareness. exact Haware. }
  rewrite Hmax in Hmax'. injection Hmax' as <-.
  repeat split; auto; try apply Hnewest.
  destruct Hnewest as [(q & Hq & <-) _].
  pose proof (filter_later old slow_queries) as Hl. rewrite <- Hfilter in Hl.
  rewrite List.Forall_forall in Hl. specialize (Hl q Hq).
  unfold later_than in Hl. apply Z.ltb_lt in Hl. exact Hl.
Qed.

Lemma process_all_app (before after : list (instance_env * string)) (m : monitor) :
  process_all (before ++ after) m = process_all after (process_all before m).
Proof.
  revert m. induction before as [|[e id] rest IH]; intros m; simpl; auto.
Qed.

Lemma process_instance_monotone (e : instance_env) (id other : string) (m : monitor) :
  cursor_le (cursor m other) (cursor (process_instance e id m).1 other).
Proof.
  destruct (process_instance e id m) as [m' evs] eqn:Hrun. simpl.
  apply process_instance_cursor in Hrun.
  destruct Hrun as [[Hsame _]|Hadv].
  - unfold cursor. rewrite Hsame. apply cursor_le_refl.
  - destruct Hadv as (text & sq & old & batch & newest & _ & Hold & _ & _ & _ & _
                      & _ & Haw & Hlt & Hnew).
    unfold cursor in *. rewrite Hnew.
    destruct (decide (other = id)) as [->|Hne].
    + rewrite lookup_insert_eq, Hold. simpl. split; [lia|congruence].
    + rewrite lookup_insert_ne by congruence. apply cursor_le_refl.
Qed.

Lemma process_all_monotone (steps : list (instance_env * string)) (m : monitor)
    (id : string) :
  cursor_le (cursor m id) (cursor (process_all steps m) id).
Proof.
  revert m. induction steps as [|[e i] rest IH]; intros m; simpl.
  - apply cursor_le_refl.
  - eapply cursor_le_trans; [apply (process_instance_monotone e i id m)|apply IH].
Qed.

(** C2: one execution of [process_instance] for [id] leaves every other
    cursor alone and never moves the cursor of [id] back; it leaves all the
    cursors as they were when the delivery did not report success, and in
    every case either nothing changed and nothing was delivered, or the
    batch of the new records (a non-empty result of the filter on the parsed
    records) was delivered with success and the cursor of [id] is now the
    greatest timestamp of that batch, later than the old cursor. Hence over
    any sequence of executions the cursor of an instance never decreases. *)
Theorem cursor_moves_only_after_delivery :
  (forall (e : instance_env) (id : string) (m m' : monitor) (evs : list hw_event),
     process_instance e id m = (m', evs) ->
     (forall other, other <> id -> cursor m' other = cursor m other)
     /\ cursor_le (cursor m id) (cursor m' id)
     /\ (send_alert (hook e) = false ->
         last_process_time m' = last_process_time m)
     /\ ((last_process_time m' = last_process_time m
          /\ forall b, ~ In (Delivered id b) evs)
         \/ exists text slow_queries old batch newest,
              parse_slow_log (clock e) text = Ok slow_queries
              /\ cursor m id = Some old
              /\ new_queries slow_queries old = Ok batch
              /\ batch <> []
              /\ send_alert (hook e) = true
              /\ evs = [Delivered id batch]
              /\ is_newest newest batch
              /\ DT.instant old < DT.instant newest
              /\ last_process_time m' = <[id := newest]> (last_process_time m)))
  /\ (forall (before after : list (instance_env * string)) (m : monitor) (id : string),
        cursor_le (cursor (process_all before m) id)
                  (cursor (process_all (before ++ after) m) id)).
Proof.
  split.
  - intros e id m m' evs Hrun.
    pose proof (process_instance_monotone e id id m) as Hmono.
    rewrite Hrun in Hmono. simpl in Hmono.
    pose proof (process_instance_cursor e id m m' evs Hrun) as Hcases.
    split; [|split; [exact Hmono|split]].
    + intros other Hother. unfold cursor.
      destruct Hcases as [[-> _]|Hadv]; [reflexivity|].
      destruct Hadv as (_ & _ & _ & _ & newest & _ & _ & _ & _ & _ & _ & _ & _ & _ & ->).
      apply lookup_insert_ne. congruence.
    + intros Hfail.
      destruct Hcases as [[-> _]|Hadv]; [reflexivity|].
      destruct Hadv as (_ & _ & _ & _ & _ & _ & _ & _ & _ & Hsend & _).
      congruence.
    + destruct Hcases as [Hsame|Hadv]; [left; exact Hsame|right].
      destruct Hadv as (text & sq & old & batch & newest & Hparse & Hold & Hnew
                        & Hne & Hsend & Hev & Hnewest & _ & Hlt & Hm').
      exists text, sq, old, batch, newest. repeat split; auto; apply Hnewest.
  - intros before after m id. rewrite process_all_app.
    apply process_all_monotone.
Qed.

(** An execution in which the cursor moves: the export is ready, the log
    with the 02:00 and 02:05 records is downloaded, the webhook accepts the
    alert, and the cursor goes from 02:00 to 02:05. *)
Lemma cursor_moves_witness :
  process_instance (ready_env aware_log webhook_ok) "rds-1" monitor_at_0200
  = (mkMonitor (<["rds-1" := may_1 2 5]> {["rds-1" := may_1 2 0]})
               {["slowlog_download_1" := aware_log]},
     [Delivered "rds-1" [aware_record 5 "SELECT 2;"]])
  /\ cursor_le (cursor monitor_at_0200 "rds-1")
               (cursor (mkMonitor (<["rds-1" := may_1 2 5]> {["rds-1" := may_1 2 0]})
                                  {["slowlog_download_1" := aware_log]}) "rds-1").
Proof.
  assert (Hrun : process_instance (ready_env aware_log webhook_ok) "rds-1" monitor_at_0200
                 = (mkMonitor (<["rds-1" := may_1 2 5]> {["rds-1" := may_1 2 0]})
                              {["slowlog_download_1" := aware_log]},
                    [Delivered "rds-1" [aware_record 5 "SELECT 2;"]]))
    by (vm_compute; reflexivity).
  split; [exact Hrun|].
  exact (proj1 (proj2 (proj1 cursor_moves_only_after_delivery _ _ _ _ _ Hrun))).
Defined.

(** When the webhook refuses the message the same execution leaves the
    cursor at 02:00. *)
Example cursor_stays_on_refusal :
  (process_instance (ready_env aware_log webhook_refuses) "rds-1" monitor_at_0200).1
  = mkMonitor {["rds-1" := may_1 2 0]} {["slowlog_download_1" := aware_log]}.
Proof. vm_compute. reflexivity. Qed.

(** ** Awareness of the timestamps and of the cursor *)

Lemma digits_drop (n : nat) (acc v : Z) (s r : string) :
  Iso.digits n acc s = Some (v, r) -> r = Str.drop n s.
Proof.
  revert acc s. induction n as [|n IH]; intros acc s; simpl.
  - intros [= _ <-]. destruct s; reflexivity.
  - destruct s as [|c s]; [discriminate|].
    destruct (Str.isdigit c); [|discriminate]. apply IH.
Qed.

Lemma expect_drop (c : ascii) (s r : string) :
  Iso.expect c s = Some r -> r = Str.drop 1 s.
Proof.
  destruct s as [|d s]; simpl; [discriminate|].
  destruct (Ascii.eqb c d); [|discriminate]. intros [= <-]. destruct s; reflexivity.
Qed.

Lemma drop_drop (a b : nat) (s : string) :
  Str.drop a (Str.drop b s) = Str.drop (b + a) s.
Proof.
  revert s. induction b as [|b IH]; intros s; simpl; [reflexivity|].
  destruct s as [|c s]; [destruct a; reflexivity|]. apply IH.
Qed.

Lemma parse_date_drop (s rest : string) (y m d : Z) :
  Iso.parse_date s = Some (y, m, d, rest) -> rest = Str.drop 10 s.
Proof.
  unfold Iso.parse_date.
  destruct (Iso.digits 4 0 s) as [[y' s1]|] eqn:E1; cbn [mbind option_bind]; [|discriminate].
  destruct (Iso.expect "-" s1) as [s2|] eqn:E2; cbn [mbind option_bind]; [|discriminate].
  destruct (Iso.digits 2 0 s2) as [[m' s3]|] eqn:E3; cbn [mbind option_bind]; [|discriminate].
  destruct (Iso.expect "-" s3) as [s4|] eqn:E4; cbn [mbind option_bind]; [|discriminate].
  destruct (Iso.digits 2 0 s4) as [[d' s5]|] eqn:E5; cbn [mbind option_bind]; [|discriminate].
  intros [= _ _ _ <-].
  apply digits_drop in E1, E3, E5. apply expect_drop in E2, E4.
  subst. rewrite !drop_drop. reflexivity.
Qed.

Lemma span_rest_empty (p : ascii -> bool) (s a b : string) :
  Str.span p s = (a, b) -> Str.all p s = negb (Re.nonempty b).
Proof.
  revert a b. induction s as [|c s IH]; intros a b; simpl.
  - intros [= <- <-]. reflexivity.
  - unfold Str.all in *. simpl. destruct (p c); simpl.
    + destruct (Str.span p s) as [a' b']. intros [= <- <-]. apply (IH a' b'). reflexivity.
    + intros [= <- <-]. reflexivity.
Qed.

Lemma parse_time_awareness (tstr : string) (h mi se us : Z) (tz : option Z) :
  Iso.parse_time tstr = Some (h, mi, se, us, tz) ->
  Str.all (fun c => negb (Iso.is_sign c)) tstr = match tz with None => true | Some _ => false end.
Proof.
  unfold Iso.parse_time.
  destruct (Str.span (fun c => negb (Iso.is_sign c)) tstr) as [clock tzs] eqn:Hspan.
  rewrite (span_rest_empty _ _ _ _ Hspan).
  destruct (Iso.parse_hh_mm_ss_ff clock) as [[[[h' mi'] se'] us']|];
    cbn [mbind option_bind]; [|discriminate].
  destruct tzs as [|c tzs].
  - intros [= _ _ _ _ <-]. reflexivity.
  - destruct (Iso.parse_offset (String c tzs)) as [off|];
      cbn [mbind option_bind]; [|discriminate].
    intros [= _ _ _ _ <-]. reflexivity.
Qed.

Lemma fromisoformat_awareness (s : string) (t : datetime) :
  Iso.fromisoformat s = Some t -> DT.aware t = has_offset s.
Proof.
  unfold Iso.fromisoformat, has_offset.
  destruct (Iso.parse_date s) as [[[[y m] d] rest]|] eqn:Hdate;
    cbn [mbind option_bind]; [|discriminate].
  apply parse_date_drop in Hdate.
  replace (Str.drop 11 s) with (Str.drop 1 rest)
    by (subst rest; apply (drop_drop 1 10)).
  destruct rest as [|sep tstr].
  - cbn [mbind option_bind].
    destruct (DT.valid_date y m d && DT.valid_time 0 0 0 0); [|discriminate].
    intros [= <-]. reflexivity.
  - destruct (Iso.parse_time tstr) as [[[[[h mi] se] us] tz]|] eqn:Htime;
      cbn [mbind option_bind]; [|discriminate].
    destruct (DT.valid_date y m d && DT.valid_time h mi se us); [|discriminate].
    intros [= <-]. apply parse_time_awareness in Htime.
    replace (Str.drop 1 (String sep tstr)) with tstr by (destruct tstr; reflexivity).
    rewrite Htime. unfold DT.aware. simpl. destruct tz; reflexivity.
Qed.

Lemma tzinfo_of_local_us (us : Z) (tz : option Z) :
  tzinfo (Cal.of_local_us us tz) = tz.
Proof. unfold Cal.of_local_us. destruct (Cal.ord2ymd _) as [[y m] d]. reflexivity. Qed.

Lemma init_cursors_shanghai (clock : nat -> Z) (instances : list string) (k : nat)
    (start : gmap string datetime) :
  (forall id t, start !! id = Some t -> tzinfo t = Some DT.shanghai) ->
  forall id t, init_cursors clock k instances start !! id = Some t ->
               tzinfo t = Some DT.shanghai.
Proof.
  revert k start. induction instances as [|i rest IH]; intros k start Hstart; simpl.
  - exact Hstart.
  - apply IH. intros id t.
    destruct (decide (id = i)) as [->|Hne].
    + rewrite lookup_insert_eq. intros [= <-]. apply tzinfo_of_local_us.
    + rewrite lookup_insert_ne by congruence. apply Hstart.
Qed.

Lemma process_instance_keeps_aware (e : instance_env) (id : string) (m : monitor) :
  (forall i t, cursor m i = Some t -> DT.aware t = true) ->
  forall i t, cursor (process_instance e id m).1 i = Some t -> DT.aware t = true.
Proof.
  intros Hm i t.
  pose proof (process_instance_monotone e id i m) as Hle.
  intros Hi. rewrite Hi in Hle.
  destruct (cursor m i) as [old|] eqn:Hold; simpl in Hle; [|contradiction].
  destruct Hle as [_ <-]. apply (Hm i old Hold).
Qed.

Lemma new_queries_aware_cursor (slow_queries : list SlowQuery) (last_time : datetime) :
  DT.aware last_time = true ->
  new_queries slow_queries last_time =
  if forallb is_aware slow_queries
  then Ok (List.filter (later_than last_time) slow_queries)
  else Raise TypeError.
Proof.
  intros Haware. rewrite new_queries_spec.
  replace (forallb (same_awareness last_time) slow_queries)
    with (forallb is_aware slow_queries); [reflexivity|].
  induction slow_queries as [|q rest IH]; simpl; [reflexivity|].
  rewrite IH. f_equal. unfold same_awareness, is_aware. rewrite Haware.
  destruct (DT.aware (timestamp q)); reflexivity.
Qed.

(** ** The export job poller *)

Lemma poll_once_success (r : option response) (link : option string) :
  poll_once r = Return true link <-> first_file_ready r link.
Proof.
  unfold poll_once, first_file_ready. split.
  - destruct r as [resp|]; [|discriminate].
    case_bool_decide as Hfin.
    + destruct (r_list resp) as [[|first rest]|] eqn:Hlist; simpl; try discriminate.
      case_bool_decide as Hok; [|discriminate].
      intros [= <-]. exists resp, first, rest. auto.
    + case_bool_decide; discriminate.
  - intros (resp & first & rest & -> & Hfin & Hlist & Hok & <-).
    rewrite bool_decide_eq_true_2 by exact Hfin.
    rewrite Hlist. simpl. rewrite bool_decide_eq_true_2 by exact Hok. reflexivity.
Qed.

Lemma poll_once_failure (r : option response) (link : option string) :
  poll_once r = Return false link <-> link = None /\ export_failed r /\
                                      ~ (exists l, first_file_ready r l).
Proof.
  unfold poll_once, export_failed, first_file_ready. split.
  - destruct r as [resp|]; [|intros [= <-]].
    + case_bool_decide as Hfin.
      * destruct (r_list resp) as [[|first rest]|]; simpl; try discriminate.
        case_bool_decide; discriminate.
      * case_bool_decide as Hfail; [|discriminate].
        intros [= <-]. split; [reflexivity|]. split; [right; eauto|].
        intros (l & resp' & first & rest & [= <-] & Hfin' & _). congruence.
    + split; [reflexivity|]. split; [left; reflexivity|].
      intros (l & resp' & first & rest & Hr & _). discriminate.
  - intros (-> & Hfailed & Hnot).
    destruct r as [resp|]; [|reflexivity].
    destruct Hfailed as [Hr|(resp' & [= <-] & Hfail)]; [discriminate|].
    rewrite bool_decide_eq_false_2 by congruence.
    rewrite bool_decide_eq_true_2 by exact Hfail. reflexivity.
Qed.

Lemma wait_loop_first_return (replies : nat -> option response) (n i k : nat)
    (success : bool) (link : option string) :
  (k < n)%nat ->
  (forall j, (j < k)%nat -> poll_once (replies (i + j)%nat) = Retry) ->
  poll_once (replies (i + k)%nat) = Return success link ->
  wait_loop replies i n = (success, link).
Proof.
  revert i k. induction n as [|n IH]; intros i k Hk Hretry Hret; [lia|].
  simpl. destruct k as [|k].
  - rewrite Nat.add_0_r in Hret. rewrite Hret. reflexivity.
  - pose proof (Hretry O ltac:(lia)) as H0. rewrite Nat.add_0_r in H0. rewrite H0.
    apply (IH (S i) k); [lia| |].
    + intros j Hj. replace (S i + j)%nat with (i + S j)%nat by lia.
      apply Hretry. lia.
    + replace (S i + k)%nat with (i + S k)%nat by lia. exact Hret.
Qed.

Lemma wait_loop_exhausted (replies : nat -> option response) (n i : nat) :
  (forall j, (j < n)%nat -> poll_once (replies (i + j)%nat) = Retry) ->
  wait_loop replies i n = (false, None).
Proof.
  revert i. induction n as [|n IH]; intros i Hretry; [reflexivity|].
  simpl. pose proof (Hretry O ltac:(lia)) as H0. rewrite Nat.add_0_r in H0. rewrite H0.
  apply IH. intros j Hj. replace (S i + j)%nat with (i + S j)%nat by lia.
  apply Hretry. lia.
Qed.

Lemma wait_loop_inv (replies : nat -> option response) (n i : nat)
    (success : bool) (link : option string) :
  wait_loop replies i n = (success, link) ->
  (exists k, (k < n)%nat
             /\ (forall j, (j < k)%nat -> poll_once (replies (i + j)%nat) = Retry)
             /\ poll_once (replies (i + k)%nat) = Return success link)
  \/ (success = false /\ link = None
      /\ forall j, (j < n)%nat -> poll_once (replies (i + j)%nat) = Retry).
Proof.
  revert i. induction n as [|n IH]; intros i; simpl.
  - intros [= <- <-]. right. repeat split. intros j Hj. lia.
  - destruct (poll_once (replies i)) as [s l|] eqn:Hpoll.
    + intros [= <- <-]. left. exists O. split; [lia|]. split; [intros j Hj; lia|].
      rewrite Nat.add_0_r. exact Hpoll.
    + intros Hrest. destruct (IH (S i) Hrest) as [(k & Hk & Hretry & Hret)|(-> & -> & Hretry)].
      * left. exists (S k). split; [lia|]. split.
        -- intros [|j] Hj; [rewrite Nat.add_0_r; exact Hpoll|].
           replace (i + S j)%nat with (S i + j)%nat by lia. apply Hretry. lia.
        -- replace (i + S k)%nat with (S i + k)%nat by lia. exact Hret.
      * right. repeat split. intros [|j] Hj; [rewrite Nat.add_0_r; exact Hpoll|].
        replace (i + S j)%nat with (S i + j)%nat by lia. apply Hretry. lia.
Qed.

(** C6, as the code has it: the poller returns success exactly when, among
    the first [max_retries] replies and before any failed call or reply with
    status FAILED, a reply has status FINISH and the FIRST entry of its
    list has status SUCCESS; the link returned is that entry's [file_link]
    (absent when the entry has none). A failed call or a FAILED reply
    reached first, or [max_retries] replies that settle nothing, give
    [(False, None)]; the function is total, and [process_instance] leaves the
    instance alone when there is no success or no link. *)
Theorem poller_outcome :
  (forall (replies : nat -> option response) (max_retries : nat) (link : option string),
     wait_for_download_link replies max_retries = (true, link) <->
     exists k, (k < max_retries)%nat
               /\ (forall j, (j < k)%nat -> poll_once (replies j) = Retry)
               /\ first_file_ready (replies k) link)
  /\ (forall (replies : nat -> option response) (max_retries k : nat),
        (k < max_retries)%nat ->
        (forall j, (j < k)%nat -> poll_once (replies j) = Retry) ->
        export_failed (replies k) ->
        ~ (exists l, first_file_ready (replies k) l) ->
        wait_for_download_link replies max_retries = (false, None))
  /\ (forall (replies : nat -> option response) (max_retries : nat),
        (forall j, (j < max_retries)%nat -> poll_once (replies j) = Retry) ->
        wait_for_download_link replies max_retries = (false, None))
  /\ (forall (replies : nat -> option response) (max_retries : nat) (link : option string),
        wait_for_download_link replies max_retries = (false, link) -> link = None)
  /\ (forall (e : instance_env) (id : string) (m : monitor) (success : bool)
             (link : option string),
        wait_for_download_link (replies e) 10 = (success, link) ->
        success = false \/ truthy link = false ->
        process_instance e id m = (m, [])).
Proof.
  unfold wait_for_download_link.
  split; [|split; [|split; [|split]]].
  - intros replies n link. split.
    + intros Hwait. apply wait_loop_inv in Hwait.
      destruct Hwait as [(k & Hk & Hretry & Hret)|(Hfalse & _)]; [|discriminate].
      exists k. split; [exact Hk|]. split; [exact Hretry|].
      apply poll_once_success. exact Hret.
    + intros (k & Hk & Hretry & Hready).
      apply (wait_loop_first_return replies n O k); auto.
      apply poll_once_success. exact Hready.
  - intros replies n k Hk Hretry Hfailed Hnot.
    apply (wait_loop_first_return replies n O k); auto.
    apply poll_once_failure. auto.
  - intros replies n Hretry. apply wait_loop_exhausted. exact Hretry.
  - intros replies n link Hwait. apply wait_loop_inv in Hwait.
    destruct Hwait as [(k & _ & _ & Hret)|(_ & -> & _)]; [|reflexivity].
    apply poll_once_failure in Hret. tauto.
  - intros e id m success link Hwait Hskip.
    unfold process_instance, wait_for_download_link. rewrite Hwait.
    destruct Hskip as [-> | ->]; [reflexivity|].
    rewrite orb_true_r. reflexivity.
Qed.

(** Two replies that are still generating, then a finished one: success at
    the third pass, with the link of the first file. *)
Lemma poller_outcome_witness :
  (exists k, (k < 10)%nat
             /\ (forall j, (j < k)%nat ->
                   poll_once ((fun i => if (i <? 2)%nat then Some generating_reply
                                        else Some (finished_reply "https://obs.example/f")) j)
                   = Retry)
             /\ first_file_ready
                  ((fun i => if (i <? 2)%nat then Some generating_reply
                             else Some (finished_reply "https://obs.example/f")) k)
                  (Some "https://obs.example/f"))
  /\ wait_for_download_link
       (fun i => if (i <? 2)%nat then Some generating_reply
                 else Some (finished_reply "https://obs.example/f")) 10
     = (true, Some "https://obs.example/f").
Proof.
  assert (H : exists k, (k < 10)%nat
             /\ (forall j, (j < k)%nat ->
                   poll_once ((fun i => if (i <? 2)%nat then Some generating_reply
                                        else Some (finished_reply "https://obs.example/f")) j)
                   = Retry)
             /\ first_file_ready
                  ((fun i => if (i <? 2)%nat then Some generating_reply
                             else Some (finished_reply "https://obs.example/f")) k)
                  (Some "https://obs.example/f")).
  { exists 2%nat. split; [lia|]. split.
    - intros [|[|j]] Hj; [reflexivity|reflexivity|lia].
    - exists (finished_reply "https://obs.example/f"),
             (mkEntry (Some "SUCCESS") (Some "https://obs.example/f")), [].
      repeat split. }
  split; [exact H|].
  exact (proj2 (proj1 poller_outcome _ _ _) H).
Defined.

(** C6, as stated, fails: every reply has status FINISH and its second
    entry reports success with a link, yet the poller, which looks at the
    first entry only, gives up after its ten passes. *)
Lemma poller_ignores_later_entries :
  (exists entry,
     In entry (default [] (r_list second_file_reply))
     /\ fe_status entry = Some "SUCCESS"
     /\ truthy (fe_file_link entry) = true)
  /\ r_status second_file_reply = Some "FINISH"
  /\ wait_for_download_link (fun _ => Some second_file_reply) 10 = (false, None).
Proof.
  split; [|split; reflexivity].
  exists (mkEntry (Some "SUCCESS") (Some "https://obs.example/logs/slowlog_download_2")).
  split; [right; left; reflexivity|split; reflexivity].
Qed.

(** ** The clean-up of the download directory *)

Lemma delete_old_lookup (listable : bool) (fails : string -> bool)
    (id new : string) (dir : gmap string string) (name : string) :
  _delete_old_slowlog listable fails id new dir !! name =
  if listable && is_old_slowlog new name && negb (fails name)
  then None else dir !! name.
Proof.
  unfold _delete_old_slowlog. destruct listable; simpl; [|reflexivity].
  rewrite map_lookup_filter. simpl.
  destruct (dir !! name) as [content|] eqn:Hname; simpl.
  - destruct (is_old_slowlog new name && negb (fails name)); reflexivity.
  - destruct (is_old_slowlog new name && negb (fails name)); reflexivity.
Qed.

Lemma is_old_other (new name : string) :
  name <> new -> is_old_slowlog new name = Str.contains "slowlog_download" name.
Proof.
  intros Hne. unfold is_old_slowlog.
  destruct (String.eqb_spec name new); [contradiction|].
  apply andb_true_r.
Qed.

Lemma is_old_self (new : string) : is_old_slowlog new new = false.
Proof. unfold is_old_slowlog. rewrite String.eqb_refl. apply andb_false_r. Qed.

(** C10, as the code has it: the clean-up removes exactly the entries whose
    name contains [slowlog_download], differs from the new name and whose
    removal does not fail (nothing when the directory cannot be listed),
    whatever the instance; every other entry stays as it was. After a
    download that returned a path the new file holds the body, every other
    entry is as the clean-up left it, and when the listing and every removal
    succeed the new file is the only entry whose name contains
    [slowlog_download]. *)
Theorem cleanup_is_global :
  (forall (listable : bool) (fails : string -> bool) (id new : string)
          (dir : gmap string string) (name : string),
     _delete_old_slowlog listable fails id new dir !! name =
     if listable && is_old_slowlog new name && negb (fails name)
     then None else dir !! name)
  /\ (forall (listable : bool) (fails : string -> bool) (id1 id2 new : string)
             (dir : gmap string string),
        _delete_old_slowlog listable fails id1 new dir
        = _delete_old_slowlog listable fails id2 new dir)
  /\ (forall (e : download_env) (link id path : string) (dir dir' : gmap string string),
        download_slow_log e link id dir = (Some path, dir') ->
        (exists content, http e = TransferBody content /\ dir' !! path = Some content)
        /\ (forall name, name <> path ->
              dir' !! name =
              if listable e && Str.contains "slowlog_download" name
                 && negb (remove_fails e name)
              then None else dir !! name)
        /\ (listable e = true ->
            (forall name, remove_fails e name = false) ->
            forall name, Str.contains "slowlog_download" name = true ->
                         is_Some (dir' !! name) -> name = path)).
Proof.
  split; [exact delete_old_lookup|]. split; [reflexivity|].
  intros e link id path dir dir'. unfold download_slow_log.
  set (file_name := if Re.nonempty (link_basename e link) then link_basename e link
                    else "slowlog_download_" +:+ stamp e).
  destruct (http e) as [|partial|content] eqn:Hhttp; try discriminate.
  intros [= <- <-].
  assert (Hother : forall name, name <> file_name ->
            <[file_name := content]>
              (_delete_old_slowlog (listable e) (remove_fails e) id file_name dir) !! name
            = if listable e && Str.contains "slowlog_download" name
                 && negb (remove_fails e name)
              then None else dir !! name).
  { intros name Hne. rewrite lookup_insert_ne by congruence.
    rewrite delete_old_lookup, is_old_other by exact Hne. reflexivity. }
  split; [|split].
  - exists content. split; [reflexivity|]. apply lookup_insert_eq.
  - exact Hother.
  - intros Hlist Hrm name Hmark [x Hx].
    destruct (decide (name = file_name)) as [->|Hne]; [reflexivity|].
    rewrite (Hother name Hne), Hlist, Hmark, Hrm in Hx. discriminate.
Qed.

(** A download for [rds-1] in the shared directory: the files of both
    instances go, the other file stays, the new file is the only slow log. *)
Lemma cleanup_is_global_witness :
  download_slow_log (fetch_env (fun _ => false))
                    "https://obs.example/logs/slowlog_download_c" "rds-1" shared_dir
  = (Some "slowlog_download_c",
     {[ "slowlog_download_c" := "new log"; "notes.txt" := "keep" ]})
  /\ (forall name, Str.contains "slowlog_download" name = true ->
        is_Some (({[ "slowlog_download_c" := "new log"; "notes.txt" := "keep" ]}
                  : gmap string string) !! name) ->
        name = "slowlog_download_c").
Proof.
  assert (Hrun : download_slow_log (fetch_env (fun _ => false))
                   "https://obs.example/logs/slowlog_download_c" "rds-1" shared_dir
                 = (Some "slowlog_download_c",
                    {[ "slowlog_download_c" := "new log"; "notes.txt" := "keep" ]}))
    by (vm_compute; reflexivity).
  split; [exact Hrun|].
  exact (proj2 (proj2 (proj2 (proj2 cleanup_is_global) _ _ _ _ _ _ Hrun))
               eq_refl (fun _ => eq_refl)).
Defined.

(** C10, as stated, fails: when [os.remove] raises on the old file of the
    other instance, the error is logged, the file stays, and after the
    successful download two slow logs are in the directory. *)
Lemma cleanup_leaves_undeletable_files :
  download_slow_log (fetch_env (String.eqb "slowlog_download_b"))
                    "https://obs.example/logs/slowlog_download_c" "rds-1" shared_dir
  = (Some "slowlog_download_c",
     {[ "slowlog_download_c" := "new log";
        "slowlog_download_b" := "log of rds-2";
        "notes.txt" := "keep" ]})
  /\ Str.contains "slowlog_download" "slowlog_download_b" = true
  /\ Str.contains "slowlog_download" "slowlog_download_c" = true
  /\ "slowlog_download_b" <> "slowlog_download_c".
Proof.
  split; [vm_compute; reflexivity|].
  split; [reflexivity|]. split; [reflexivity|]. discriminate.
Qed.

(** ** The parser *)

Section ParserFacts.

(** [datetime.fromisoformat] of the Python that runs the monitor. *)
Variable iso : string -> option datetime.

(** *** The accumulator keeps its timestamp *)

Lemma apply_pair_timestamp (q q' : query) (kv : string * string) :
  Parser.apply_pair q kv = Ok q' -> q_timestamp q' = q_timestamp q.
Proof.
  unfold Parser.apply_pair. destruct kv as [key value].
  repeat (match goal with
          | |- context [if ?b then _ else _] => destruct b
          | |- context [Float.float ?v] => destruct (Float.float v) as [f|]
          | |- context [Float.int ?f] => destruct (Float.int f) as [n|]
          end; cbn [mbind result_bind]);
    try discriminate; intros [= <-]; destruct q; reflexivity.
Qed.

Lemma apply_pairs_timestamp (pairs : list (string * string)) (q q' : query) :
  Parser.apply_pairs q pairs = Ok q' -> q_timestamp q' = q_timestamp q.
Proof.
  revert q. induction pairs as [|kv rest IH]; intros q; simpl.
  - intros [= <-]. reflexivity.
  - destruct (Parser.apply_pair q kv) as [q1|] eqn:H1; cbn [mbind result_bind];
      [|discriminate].
    intros H. rewrite (IH _ H). apply (apply_pair_timestamp _ _ _ H1).
Qed.

Lemma metrics_timestamp (line : string) (q q' : query) :
  Parser.metrics iso line q = Ok q' -> q_timestamp q' = q_timestamp q.
Proof.
  unfold Parser.metrics.
  destruct (Parser.apply_pairs q (Re.findall_pairs line)) as [q1|] eqn:H1;
    cbn [mbind result_bind]; [|discriminate].
  apply apply_pairs_timestamp in H1. rewrite <- H1.
  destruct (Re.search_after "Schema:" Str.isword line) as [name|];
    destruct (Re.search_after "Start:" Parser.not_space line) as [s|];
    destruct (Re.search_after "End:" Parser.not_space line) as [s'|];
    repeat (match goal with
            | |- context [fromisoformat iso ?v] => destruct (fromisoformat iso v) as [?|]
            end; cbn [mbind result_bind]);
    cbn [mbind result_bind];
    try discriminate; intros [= <-]; destruct q1; reflexivity.
Qed.

(** *** Flushing a candidate *)

Lemma date_eqb_eq (a b : date) : DT.date_eqb a b = true <-> a = b.
Proof.
  unfold DT.date_eqb. destruct a as [y1 m1 d1], b as [y2 m2 d2]. simpl.
  rewrite !andb_true_iff, !Z.eqb_eq. split.
  - intros [[-> ->] ->]. reflexivity.
  - intros [= -> -> ->]. auto.
Qed.

Lemma create_with_timestamp (q : query) (ts : datetime) :
  q_timestamp q = Some ts ->
  exists r, _create_slow_query q = Ok r /\ timestamp r = ts.
Proof.
  intros H. unfold _create_slow_query. rewrite H. eexists. split; reflexivity.
Qed.

Lemma set_sql_text_timestamp (v : string) (q : query) :
  q_timestamp (Query.set_sql_text v q) = q_timestamp q.
Proof. destruct q. reflexivity. Qed.

(** A flush with no candidate does nothing; a flush of a candidate reads
    the clock once and appends the record exactly when the date of its
    timestamp, as written, is the date of that reading in Asia/Shanghai. It
    never raises. *)
Lemma flush_spec (clock : nat -> Z) (st : pstate) :
  has_timestamp st ->
  ((current_query st = None \/ sql_lines st = []) /\ Parser.flush clock st = Ok st)
  \/ exists q ts r,
       current_query st = Some q
       /\ q_timestamp q = Some ts
       /\ sql_lines st <> []
       /\ timestamp r = ts
       /\ sql_text r = Str.join_nl (sql_lines st)
       /\ Parser.flush clock st
          = Ok (mkP (if DT.date_eqb (DT.date_of ts)
                          (DT.date_of (Cal.now DT.shanghai (clock (reads st))))
                     then slow_queries st ++ [r] else slow_queries st)
                    (Some (Query.set_sql_text (Str.join_nl (sql_lines st)) q))
                    (sql_lines st) (S (reads st))).
Proof.
  intros Hts. unfold Parser.flush.
  destruct (current_query st) as [q|] eqn:Hq; [|left; auto].
  destruct (sql_lines st) as [|l ls] eqn:Hsql; [left; auto|].
  right. destruct (Hts q Hq) as [ts Hq_ts].
  pose proof (set_sql_text_timestamp (Str.join_nl (l :: ls)) q) as Hset.
  rewrite Hq_ts in Hset.
  destruct (create_with_timestamp _ ts Hset) as (r & Hr & Hr_ts).
  exists q, ts, r. repeat split; auto; try discriminate.
  - unfold _create_slow_query in Hr. rewrite Hset in Hr. injection Hr as <-.
    destruct q. reflexivity.
  - unfold _is_valid_query. rewrite Hset.
    destruct (DT.date_eqb _ _); [rewrite Hr|]; reflexivity.
Qed.

Lemma dated_by_mono (clock : nat -> Z) (n n' : nat) (r : SlowQuery) :
  (n <= n')%nat -> dated_by clock n r -> dated_by clock n' r.
Proof. intros Hle (k & Hk & Hd). exists k. split; [lia|exact Hd]. Qed.

Lemma flush_inv (clock : nat -> Z) (st : pstate) :
  parser_inv clock st ->
  exists st', Parser.flush clock st = Ok st'
              /\ parser_inv clock st'
              /\ seen st' = seen st.
Proof.
  intros [Hts Hdated].
  destruct (flush_spec clock st Hts) as [[_ Hidle]|Hflush].
  - exists st. repeat split; auto.
  - destruct Hflush as (q & ts & r & Hq & Hq_ts & Hsql & Hr_ts & _ & Hflush).
    eexists. split; [exact Hflush|]. split; [split|].
    + intros q' [= <-]. rewrite set_sql_text_timestamp, Hq_ts. eauto.
    + simpl. destruct (DT.date_eqb _ _) eqn:Hdate.
      * apply List.Forall_app. split.
        -- eapply List.Forall_impl; [|exact Hdated].
           intros a. apply dated_by_mono. lia.
        -- constructor; [|constructor]. exists (reads st). split; [lia|].
           rewrite Hr_ts. apply date_eqb_eq. exact Hdate.
      * eapply List.Forall_impl; [|exact Hdated].
        intros a. apply dated_by_mono. lia.
    + unfold seen. simpl. rewrite Hq. reflexivity.
Qed.

Lemma fromisoformat_is_ok (s : string) :
  is_ok (fromisoformat iso s) = bool_decide (is_Some (iso s)).
Proof.
  unfold fromisoformat. destruct (iso s) as [t|]; reflexivity.
Qed.

Lemma apply_pair_is_ok (q : query) (kv : string * string) :
  is_ok (Parser.apply_pair q kv) = pair_ok kv.
Proof.
  unfold Parser.apply_pair, pair_ok. destruct kv as [key value].
  destruct (String.eqb key "Query_time"); simpl.
  { destruct (Float.float value); reflexivity. }
  destruct (String.eqb key "Lock_time"); simpl.
  { destruct (Float.float value); reflexivity. }
  destruct (String.eqb key "Rows_sent"); simpl.
  { destruct (Float.float value) as [f|]; simpl; [|reflexivity].
    destruct (Float.int f); reflexivity. }
  destruct (String.eqb key "Rows_examined"); simpl.
  { destruct (Float.float value) as [f|]; simpl; [|reflexivity].
    destruct (Float.int f); reflexivity. }
  destruct (String.eqb key "Thread_id"); reflexivity.
Qed.

Lemma apply_pairs_is_ok (pairs : list (string * string)) (q : query) :
  is_ok (Parser.apply_pairs q pairs) = forallb pair_ok pairs.
Proof.
  revert q. induction pairs as [|kv rest IH]; intros q; simpl; [reflexivity|].
  rewrite <- (apply_pair_is_ok q kv).
  destruct (Parser.apply_pair q kv) as [q1|]; simpl; [apply IH|reflexivity].
Qed.

Lemma metrics_is_ok (line : string) (q : query) :
  is_ok (Parser.metrics iso line q) = metrics_ok iso line.
Proof.
  unfold Parser.metrics, metrics_ok, stamp_ok.
  rewrite <- (apply_pairs_is_ok (Re.findall_pairs line) q).
  destruct (Parser.apply_pairs q (Re.findall_pairs line)) as [q1|];
    cbn [mbind result_bind is_ok andb]; [|reflexivity].
  destruct (Re.search_after "Start:" Parser.not_space line) as [s|];
    destruct (Re.search_after "End:" Parser.not_space line) as [s'|];
    rewrite <- ?fromisoformat_is_ok;
    repeat (match goal with
            | |- context [fromisoformat iso ?v] => destruct (fromisoformat iso v) as [?|]
            end; cbn [mbind result_bind is_ok andb]);
    reflexivity.
Qed.

(** *** One line *)

Lemma apply_pair_exn (q : query) (kv : string * string) (e : exn) :
  Parser.apply_pair q kv = Raise e -> e = ValueError \/ e = OverflowError.
Proof.
  unfold Parser.apply_pair, Float.float, Float.int. destruct kv as [key value].
  repeat (match goal with
          | |- context [if ?b then _ else _] => destruct b
          | |- context [Float.decimal ?a ?b ?c ?d ?e] =>
              destruct (Float.decimal a b c d e) as [[? ?]|]
          | |- context [Float.round_binary64 ?a ?b] =>
              destruct (Float.round_binary64 a b)
          end; cbn [mbind result_bind]);
    try discriminate; intros [= <-]; auto.
Qed.

Lemma apply_pairs_exn (pairs : list (string * string)) (q : query) (e : exn) :
  Parser.apply_pairs q pairs = Raise e -> e = ValueError \/ e = OverflowError.
Proof.
  revert q. induction pairs as [|kv rest IH]; intros q; simpl; [discriminate|].
  destruct (Parser.apply_pair q kv) as [q1|e1] eqn:H1; cbn [mbind result_bind].
  - apply IH.
  - intros [= <-]. apply (apply_pair_exn _ _ _ H1).
Qed.

Lemma fromisoformat_exn (s : string) (e : exn) :
  fromisoformat iso s = Raise e -> e = ValueError.
Proof.
  unfold fromisoformat. destruct (iso s); [discriminate|].
  intros [= <-]. reflexivity.
Qed.

Lemma metrics_exn (line : string) (q : query) (e : exn) :
  Parser.metrics iso line q = Raise e -> e = ValueError \/ e = OverflowError.
Proof.
  unfold Parser.metrics.
  destruct (Parser.apply_pairs q (Re.findall_pairs line)) as [q1|e1] eqn:H1;
    cbn [mbind result_bind].
  2:{ intros [= <-]. apply (apply_pairs_exn _ _ _ H1). }
  destruct (Re.search_after "Start:" Parser.not_space line) as [s|];
    destruct (Re.search_after "End:" Parser.not_space line) as [s'|];
    repeat (match goal with
            | |- context [fromisoformat iso ?v] =>
                let H := fresh "H" in
                destruct (fromisoformat iso v) as [?|?] eqn:H;
                [|apply fromisoformat_exn in H; subst]
            end; cbn [mbind result_bind]);
    cbn [mbind result_bind]; try discriminate; intros [= <-]; auto.
Qed.

Lemma item1_exn (l : list string) (e : exn) : item1 l = Raise e -> e = IndexError.
Proof. destruct l as [|? [|? ?]]; simpl; intros [= <-]; reflexivity. Qed.

Lemma with_query_inv (clock : nat -> Z) (st : pstate) (q : query) :
  parser_inv clock st -> is_Some (q_timestamp q) ->
  parser_inv clock (Parser.with_query st q) /\ seen (Parser.with_query st q) = true.
Proof.
  intros [Hts Hdated] Hq. split; [split|reflexivity].
  - intros q' [= <-]. exact Hq.
  - exact Hdated.
Qed.

Lemma seen_some (st : pstate) (q : query) : current_query st = Some q -> seen st = true.
Proof. unfold seen. intros ->. reflexivity. Qed.

Lemma seen_none (st : pstate) : current_query st = None -> seen st = false.
Proof. unfold seen. intros ->. reflexivity. Qed.

(** A line is accepted exactly when it is well formed for its place; an
    accepted line keeps the invariant, and the loop has an accumulator
    afterwards when it had one or the line is a time marker. *)
Lemma parse_line_spec (clock : nat -> Z) (st : pstate) (raw : string) :
  parser_inv clock st ->
  match Parser.parse_line iso clock st raw with
  | Ok st' =>
      line_ok iso (seen st) raw = true
      /\ parser_inv clock st'
      /\ seen st' = seen st || is_time_marker raw
  | Raise e =>
      line_ok iso (seen st) raw = false
      /\ (e = ValueError \/ e = IndexError \/ e = OverflowError)
  end.
Proof.
  intros Hinv. unfold Parser.parse_line, line_ok, is_time_marker.
  set (line := Str.strip raw).
  destruct (Re.nonempty line); cbn [negb andb].
  2:{ rewrite orb_false_r. auto. }
  destruct (Str.startswith "# Time:" line).
  { destruct (flush_inv clock st Hinv) as (st1 & -> & [Hts1 Hdated1] & Hseen1).
    cbn [mbind result_bind]. unfold time_marker_ok.
    destruct (item1 (Str.split "Time: " line)) as [piece|e] eqn:Hitem;
      cbn [mbind result_bind].
    2:{ apply item1_exn in Hitem. subst e. auto. }
    rewrite <- fromisoformat_is_ok.
    destruct (fromisoformat iso piece) as [t|e] eqn:Hiso; cbn [mbind result_bind is_ok].
    2:{ apply fromisoformat_exn in Hiso. subst e. auto. }
    split; [reflexivity|]. split; [|rewrite orb_true_r; reflexivity].
    split; [|exact Hdated1]. intros q [= <-]. simpl. eauto. }
  rewrite orb_false_r.
  destruct (Str.startswith "# User@Host:" line).
  { destruct (current_query st) as [q|] eqn:Hq.
    2:{ rewrite (seen_none st Hq). auto. }
    rewrite (seen_some st q Hq). unfold user_host_ok. cbn [negb orb].
    destruct (item1 (Str.split "# User@Host: " line)) as [v|e] eqn:Hitem;
      cbn [mbind result_bind is_ok].
    2:{ apply item1_exn in Hitem. subst e. auto. }
    split; [reflexivity|]. apply with_query_inv; [exact Hinv|].
    destruct Hinv as [Hts _]. destruct (Hts q Hq) as [ts Hq_ts].
    destruct q. simpl in *. eauto. }
  destruct (Str.startswith "# Query_time:" line).
  { destruct (current_query st) as [q|] eqn:Hq.
    2:{ rewrite (seen_none st Hq). auto. }
    rewrite (seen_some st q Hq). cbn [negb orb].
    rewrite <- (metrics_is_ok line q).
    destruct (Parser.metrics iso line q) as [q'|e] eqn:Hm; cbn [mbind result_bind is_ok].
    2:{ apply metrics_exn in Hm. split; [reflexivity|]. tauto. }
    split; [reflexivity|]. apply with_query_inv; [exact Hinv|].
    destruct Hinv as [Hts _]. rewrite (metrics_timestamp _ _ _ Hm). apply (Hts q Hq). }
  destruct (Str.startswith "# QC_Hit:" line).
  { destruct (current_query st) as [q|] eqn:Hq.
    2:{ rewrite (seen_none st Hq). auto. }
    rewrite (seen_some st q Hq).
    split; [reflexivity|]. apply with_query_inv; [exact Hinv|].
    destruct Hinv as [Hts _]. destruct (Hts q Hq) as [ts Hq_ts].
    destruct q. simpl in *. eauto. }
  destruct (Parser.is_sql_line line); [|auto].
  destruct (current_query st) as [q|] eqn:Hq.
  2:{ rewrite (seen_none st Hq). auto. }
  rewrite (seen_some st q Hq).
  destruct (negb (Str.startswith "SET timestamp=" line)).
  2:{ split; [reflexivity|]. split; [exact Hinv|]. apply (seen_some st q Hq). }
  split; [reflexivity|]. split; [|reflexivity].
  destruct Hinv as [Hts Hdated]. split; [|exact Hdated].
  intros q'. simpl. intros [= <-]. apply (Hts q Hq).
Qed.

(** *** The whole file *)

Lemma parse_lines_spec (clock : nat -> Z) (ls : list string) (st : pstate) :
  parser_inv clock st ->
  match Parser.parse_lines iso clock st ls with
  | Ok st' => lines_ok iso (seen st) ls = true /\ parser_inv clock st'
  | Raise e =>
      lines_ok iso (seen st) ls = false
      /\ (e = ValueError \/ e = IndexError \/ e = OverflowError)
  end.
Proof.
  revert st. induction ls as [|l rest IH]; intros st Hinv; simpl; [auto|].
  pose proof (parse_line_spec clock st l Hinv) as Hline.
  destruct (Parser.parse_line iso clock st l) as [st1|e]; cbn [mbind result_bind].
  - destruct Hline as (-> & Hinv1 & Hseen1). simpl. rewrite <- Hseen1.
    apply IH. exact Hinv1.
  - destruct Hline as [-> He]. auto.
Qed.

Lemma init_inv (clock : nat -> Z) : parser_inv clock Parser.init.
Proof. split; [intros q; discriminate|constructor]. Qed.

Lemma insert_perm (x : SlowQuery) (l : list SlowQuery) :
  Permutation (Sort.insert x l) (x :: l).
Proof.
  induction l as [|y l IH]; simpl; [reflexivity|].
  destruct (Sort.key y <? Sort.key x); [|reflexivity].
  rewrite IH. apply perm_swap.
Qed.

Lemma stable_sort_perm (l : list SlowQuery) : Permutation (Sort.stable_sort l) l.
Proof.
  induction l as [|x l IH]; simpl; [reflexivity|].
  unfold Sort.stable_sort in *. simpl. rewrite insert_perm. constructor. exact IH.
Qed.

Lemma insert_sorted (x : SlowQuery) (l : list SlowQuery) :
  StronglySorted key_le l -> StronglySorted key_le (Sort.insert x l).
Proof.
  induction l as [|y l IH]; intros Hs; simpl.
  - constructor; constructor.
  - inversion Hs as [|? ? Hl Hy]; subst.
    destruct (Z.ltb_spec (Sort.key y) (Sort.key x)) as [Hlt|Hge].
    + constructor; [apply IH; exact Hl|].
      apply List.Forall_forall. intros z Hz.
      apply (Permutation_in _ (insert_perm x l)) in Hz.
      destruct Hz as [<-|Hz]; [unfold key_le; lia|].
      rewrite List.Forall_forall in Hy. apply Hy. exact Hz.
    + constructor; [exact Hs|].
      constructor; [exact Hge|].
      eapply List.Forall_impl; [|exact Hy]. unfold key_le. intros a Ha. lia.
Qed.

Lemma stable_sort_sorted (l : list SlowQuery) :
  StronglySorted key_le (Sort.stable_sort l).
Proof.
  induction l as [|x l IH]; simpl; [constructor|].
  apply insert_sorted. exact IH.
Qed.

Lemma parse_slow_log_accepted (clock : nat -> Z) (ls : list string) :
  parse_slow_log_with iso clock (mkReading ls None) = accepted_with iso clock ls ≫= Sort.sort_by_timestamp.
Proof.
  unfold parse_slow_log_with, accepted_with. cbn [lines_read read_error].
  destruct (Parser.parse_lines iso clock Parser.init ls) as [st|];
    cbn [mbind result_bind]; [|reflexivity].
  destruct (Parser.flush clock st); reflexivity.
Qed.

Lemma accepted_spec (clock : nat -> Z) (ls : list string) :
  match accepted_with iso clock ls with
  | Ok l =>
      lines_ok iso false ls = true
      /\ exists n, Forall (dated_by clock n) l
  | Raise e =>
      lines_ok iso false ls = false
      /\ (e = ValueError \/ e = IndexError \/ e = OverflowError)
  end.
Proof.
  unfold accepted_with.
  pose proof (parse_lines_spec clock ls Parser.init (init_inv clock)) as H.
  change (seen Parser.init) with false in H.
  destruct (Parser.parse_lines iso clock Parser.init ls) as [st|e];
    cbn [mbind result_bind]; [|exact H].
  destruct H as [Hok Hinv].
  destruct (flush_inv clock st Hinv) as (st' & -> & [_ Hdated] & _).
  cbn [mbind result_bind]. split; [exact Hok|]. eauto.
Qed.

Lemma lt_spec (a b : datetime) :
  DT.lt a b =
  if Bool.eqb (DT.aware a) (DT.aware b)
  then Ok (DT.instant a <? DT.instant b)
  else Raise TypeError.
Proof.
  unfold DT.lt, DT.compare, DT.aware, DT.instant.
  destruct (tzinfo a) as [oa|], (tzinfo b) as [ob|]; simpl; try reflexivity.
  rewrite !Z.sub_0_r. reflexivity.
Qed.

Lemma comparable_uniform (l : list SlowQuery) :
  Sort.comparable l = true ->
  exists b, Forall (fun x => DT.aware (timestamp x) = b) l.
Proof.
  destruct l as [|x l]; simpl; intros H.
  - exists true. constructor.
  - exists (DT.aware (timestamp x)). constructor; [reflexivity|].
    apply List.Forall_forall. intros y Hy.
    rewrite List.forallb_forall in H. symmetry. apply eqb_prop. apply H. exact Hy.
Qed.

Lemma sorted_not_earlier (l : list SlowQuery) (b : bool) :
  Forall (fun x => DT.aware (timestamp x) = b) l ->
  StronglySorted key_le l -> StronglySorted not_earlier l.
Proof.
  intros Hb Hs. induction Hs as [|x l Hs IH Hx]; [constructor|].
  inversion Hb as [|? ? Hxb Hlb]; subst.
  constructor; [apply IH; exact Hlb|].
  rewrite List.Forall_forall in *. intros y Hy.
  unfold not_earlier. rewrite lt_spec, (Hlb y Hy), eqb_reflx.
  pose proof (Hx y Hy) as Hle. unfold key_le, Sort.key in Hle.
  apply Z.ltb_ge in Hle. rewrite Hle. reflexivity.
Qed.

(** What [parse_slow_log] returns, when it returns: the stable sort of the
    accepted records, which are alike in awareness. *)
Lemma parse_slow_log_ok (clock : nat -> Z) (ls : list string) (out : list SlowQuery) :
  parse_slow_log_with iso clock (mkReading ls None) = Ok out ->
  exists l, accepted_with iso clock ls = Ok l
            /\ Sort.comparable l = true
            /\ out = Sort.stable_sort l.
Proof.
  rewrite parse_slow_log_accepted.
  destruct (accepted_with iso clock ls) as [l|]; cbn [mbind result_bind]; [|discriminate].
  unfold Sort.sort_by_timestamp.
  destruct (Sort.comparable l) eqn:Hc; [|discriminate].
  intros [= <-]. eauto.
Qed.

(** *** Where the timestamps come from *)

Lemma flush_stamped (P : datetime -> Prop) (clock : nat -> Z) (st st' : pstate) :
  has_timestamp st -> stamped P st -> Parser.flush clock st = Ok st' ->
  stamped P st'.
Proof.
  intros Hts [Hcur Hrec] Hflush.
  destruct (flush_spec clock st Hts) as [[_ Hidle]|Hcand].
  - rewrite Hidle in Hflush. injection Hflush as <-. split; assumption.
  - destruct Hcand as (q & ts & r & Hq & Hq_ts & _ & Hr & _ & Heq).
    rewrite Heq in Hflush. injection Hflush as <-.
    assert (HP : P ts). { apply Hcur. unfold cur_ts. rewrite Hq. exact Hq_ts. }
    split.
    + intros ts'. unfold cur_ts. simpl. rewrite set_sql_text_timestamp, Hq_ts.
      intros [= <-]. exact HP.
    + simpl. destruct (DT.date_eqb _ _); [|exact Hrec].
      apply List.Forall_app. split; [exact Hrec|].
      constructor; [rewrite Hr; exact HP|constructor].
Qed.

(** A line either is a time marker, and then the accumulator is a new one
    with the timestamp parsed from the line, or leaves the records and the
    timestamp of the accumulator as they were. *)
Lemma parse_line_shape (clock : nat -> Z) (st st' : pstate) (raw : string) :
  Parser.parse_line iso clock st raw = Ok st' ->
  (exists st1 piece t,
     is_time_marker raw = true
     /\ Parser.flush clock st = Ok st1
     /\ item1 (Str.split "Time: " (Str.strip raw)) = Ok piece
     /\ iso piece = Some t
     /\ slow_queries st' = slow_queries st1
     /\ cur_ts st' = Some t)
  \/ (slow_queries st' = slow_queries st /\ cur_ts st' = cur_ts st).
Proof.
  unfold Parser.parse_line, is_time_marker.
  set (line := Str.strip raw).
  destruct (Re.nonempty line); cbn [negb andb].
  2:{ intros [= <-]. right. auto. }
  destruct (Str.startswith "# Time:" line).
  { destruct (Parser.flush clock st) as [st1|]; cbn [mbind result_bind]; [|discriminate].
    destruct (item1 (Str.split "Time: " line)) as [piece|];
      cbn [mbind result_bind]; [|discriminate].
    unfold fromisoformat.
    destruct (iso piece) as [t|] eqn:Hiso;
      cbn [mbind result_bind]; [|discriminate].
    intros [= <-]. left. exists st1, piece, t. repeat split; auto. }
  destruct (Str.startswith "# User@Host:" line).
  { destruct (current_query st) as [q|] eqn:Hq.
    2:{ intros [= <-]. right. auto. }
    destruct (item1 _) as [v|]; cbn [mbind result_bind]; [|discriminate].
    intros [= <-]. right. split; [reflexivity|].
    unfold cur_ts. simpl. rewrite Hq. destruct q. reflexivity. }
  destruct (Str.startswith "# Query_time:" line).
  { destruct (current_query st) as [q|] eqn:Hq.
    2:{ intros [= <-]. right. auto. }
    destruct (Parser.metrics iso line q) as [q'|] eqn:Hm;
      cbn [mbind result_bind]; [|discriminate].
    intros [= <-]. right. split; [reflexivity|].
    unfold cur_ts. simpl. rewrite Hq. apply (metrics_timestamp _ _ _ Hm). }
  destruct (Str.startswith "# QC_Hit:" line).
  { destruct (current_query st) as [q|] eqn:Hq.
    2:{ intros [= <-]. right. auto. }
    intros [= <-]. right. split; [reflexivity|].
    unfold cur_ts. simpl. rewrite Hq. destruct q. reflexivity. }
  destruct (Parser.is_sql_line line); [|intros [= <-]; right; auto].
  destruct (current_query st) as [q|] eqn:Hq.
  2:{ intros [= <-]. right. auto. }
  destruct (negb (Str.startswith "SET timestamp=" line)).
  - intros [= <-]. right. split; [reflexivity|].
    unfold cur_ts. simpl. rewrite Hq. reflexivity.
  - intros [= <-]. right. auto.
Qed.

Lemma parse_lines_stamped (clock : nat -> Z) (all : list string)
    (ls : list string) (st st' : pstate) :
  (forall raw, In raw ls -> In raw all) ->
  parser_inv clock st -> stamped (from_marker iso all) st ->
  Parser.parse_lines iso clock st ls = Ok st' ->
  parser_inv clock st' /\ stamped (from_marker iso all) st'.
Proof.
  revert st. induction ls as [|raw rest IH]; intros st Hin Hinv Hst; simpl.
  - intros [= <-]. auto.
  - pose proof (parse_line_spec clock st raw Hinv) as Hspec.
    destruct (Parser.parse_line iso clock st raw) as [st1|] eqn:Hline;
      cbn [mbind result_bind]; [|discriminate].
    destruct Hspec as (_ & Hinv1 & _).
    apply IH; [intros r Hr; apply Hin; right; exact Hr|exact Hinv1|].
    destruct (parse_line_shape clock st st1 raw Hline)
      as [(st0 & piece & t & Hmark & Hflush & Hitem & Hiso & Hrec & Hcur)|[Hrec Hcur]].
    + destruct (flush_stamped _ clock st st0 (proj1 Hinv) Hst Hflush) as [_ Hrec0].
      split; [|rewrite Hrec; exact Hrec0].
      intros ts. rewrite Hcur. intros [= <-].
      exists raw, piece. split; [apply Hin; left; reflexivity|]. auto.
    + destruct Hst as [Hc Hr]. split; [|rewrite Hrec; exact Hr].
      intros ts. rewrite Hcur. apply Hc.
Qed.

(** The timestamp of every accepted record was parsed from a time-marker
    line of the file. *)
Lemma accepted_from_marker (clock : nat -> Z) (ls : list string) (l : list SlowQuery) :
  accepted_with iso clock ls = Ok l ->
  Forall (fun r => from_marker iso ls (timestamp r)) l.
Proof.
  unfold accepted_with. intros Hacc.
  destruct (Parser.parse_lines iso clock Parser.init ls) as [st|] eqn:Hlines;
    cbn [mbind result_bind] in Hacc; [|discriminate].
  destruct (Parser.flush clock st) as [st'|] eqn:Hflush;
    cbn [mbind result_bind] in Hacc; [|discriminate].
  injection Hacc as <-.
  destruct (parse_lines_stamped clock ls ls Parser.init st)
    as [Hinv Hst]; auto.
  { apply init_inv. }
  { split; [intros ts; discriminate|constructor]. }
  apply (flush_stamped _ clock st st' (proj1 Hinv) Hst Hflush).
Qed.

Lemma parse_slow_log_from_marker (clock : nat -> Z) (ls : list string)
    (out : list SlowQuery) (r : SlowQuery) :
  parse_slow_log_with iso clock (mkReading ls None) = Ok out -> In r out ->
  from_marker iso ls (timestamp r).
Proof.
  intros Hparse Hin.
  destruct (parse_slow_log_ok clock ls out Hparse) as (l & Hacc & _ & ->).
  apply (Permutation_in _ (stable_sort_perm l)) in Hin.
  pose proof (accepted_from_marker clock ls l Hacc) as Hall.
  rewrite List.Forall_forall in Hall. apply Hall. exact Hin.
Qed.

Lemma uniform_comparable (l : list SlowQuery) (b : bool) :
  Forall (fun r => DT.aware (timestamp r) = b) l -> Sort.comparable l = true.
Proof.
  intros Hall. destruct l as [|x l]; [reflexivity|].
  inversion Hall as [|? ? Hx Hl]; subst. simpl.
  apply List.forallb_forall. intros y Hy.
  rewrite List.Forall_forall in Hl. rewrite (Hl y Hy). apply eqb_reflx.
Qed.

(** When every time marker of the file is alike in carrying an offset or
    not, the accepted records can be sorted. *)
Lemma alike_markers_comparable (clock : nat -> Z) (ls : list string)
    (l : list SlowQuery) (b : bool) :
  markers_alike iso b ls ->
  accepted_with iso clock ls = Ok l -> Sort.comparable l = true.
Proof.
  intros Halike Hacc. apply (uniform_comparable l b).
  pose proof (accepted_from_marker clock ls l Hacc) as Hall.
  rewrite List.Forall_forall in *. intros r Hr.
  destruct (Hall r Hr) as (raw & piece & Hraw & Hmark & Hitem & Hiso).
  apply (Halike raw piece _ Hraw Hmark Hitem Hiso).
Qed.

(** *** Only the civil day of the clock matters *)

Lemma flush_ext (c1 c2 : nat -> Z) (st : pstate) :
  same_days c1 c2 -> Parser.flush c1 st = Parser.flush c2 st.
Proof.
  intros H. unfold Parser.flush, _is_valid_query. rewrite (H (reads st)). reflexivity.
Qed.

Lemma parse_line_ext (c1 c2 : nat -> Z) (st : pstate) (raw : string) :
  same_days c1 c2 -> Parser.parse_line iso c1 st raw = Parser.parse_line iso c2 st raw.
Proof.
  intros H. unfold Parser.parse_line. rewrite (flush_ext c1 c2 st H). reflexivity.
Qed.

Lemma parse_lines_ext (c1 c2 : nat -> Z) (ls : list string) (st : pstate) :
  same_days c1 c2 -> Parser.parse_lines iso c1 st ls = Parser.parse_lines iso c2 st ls.
Proof.
  intros H. revert st. induction ls as [|l rest IH]; intros st; simpl; [reflexivity|].
  rewrite (parse_line_ext c1 c2 st l H).
  destruct (Parser.parse_line iso c2 st l); cbn [mbind result_bind]; [apply IH|reflexivity].
Qed.

Lemma parse_slow_log_ext (c1 c2 : nat -> Z) (ls : list string) :
  same_days c1 c2 -> parse_slow_log_with iso c1 (mkReading ls None) = parse_slow_log_with iso c2 (mkReading ls None).
Proof.
  intros H. unfold parse_slow_log_with. cbn [lines_read read_error].
  rewrite (parse_lines_ext c1 c2 _ _ H).
  destruct (Parser.parse_lines iso c2 Parser.init ls) as [st|];
    cbn [mbind result_bind]; [|reflexivity].
  rewrite (flush_ext c1 c2 st H). reflexivity.
Qed.

Lemma parse_slow_log_dated (clock : nat -> Z) (ls : list string)
    (out : list SlowQuery) (r : SlowQuery) :
  parse_slow_log_with iso clock (mkReading ls None) = Ok out -> In r out ->
  exists k, DT.date_of (timestamp r) = DT.date_of (Cal.now DT.shanghai (clock k)).
Proof.
  intros Hparse Hin.
  destruct (parse_slow_log_ok clock ls out Hparse) as (l & Hacc & _ & ->).
  pose proof (accepted_spec clock ls) as Hspec. rewrite Hacc in Hspec.
  destruct Hspec as (_ & n & Hdated).
  apply (Permutation_in _ (stable_sort_perm l)) in Hin.
  rewrite List.Forall_forall in Hdated.
  destruct (Hdated r Hin) as (k & _ & Hk). eauto.
Qed.

(** [parse_slow_log] returns only when the file was read to its end. *)
Lemma parse_slow_log_read (clock : nat -> Z) (file : reading)
    (out : list SlowQuery) :
  parse_slow_log_with iso clock file = Ok out ->
  read_error file = None
  /\ parse_slow_log_with iso clock (mkReading (lines_read file) None) = Ok out.
Proof.
  destruct file as [ls [ex|]]; [|auto].
  unfold parse_slow_log_with. cbn [lines_read read_error].
  destruct (Parser.parse_lines iso clock Parser.init ls); discriminate.
Qed.

End ParserFacts.

(** *** A file in the common grammar

    A Python that reads the common grammar parses a file whose timestamps
    are all of that grammar as every other such Python does. *)

Lemma fromisoformat_agrees (iso : string -> option datetime) (s : string) :
  reads_common_grammar iso ->
  bool_decide (is_Some (Iso.fromisoformat s)) = true ->
  fromisoformat iso s = fromisoformat Iso.fromisoformat s.
Proof.
  intros Hiso H. apply bool_decide_eq_true in H. destruct H as [t Ht].
  unfold fromisoformat. rewrite Ht, (Hiso s t Ht). reflexivity.
Qed.

Lemma metrics_agrees (iso : string -> option datetime) (line : string) (q : query) :
  reads_common_grammar iso ->
  metrics_ok Iso.fromisoformat line = true ->
  Parser.metrics iso line q = Parser.metrics Iso.fromisoformat line q.
Proof.
  intros Hiso. unfold metrics_ok, stamp_ok, Parser.metrics.
  rewrite !andb_true_iff. intros [[_ Hs] He].
  destruct (Parser.apply_pairs q (Re.findall_pairs line)) as [q1|];
    cbn [mbind result_bind]; [|reflexivity].
  destruct (Re.search_after "Start:" Parser.not_space line) as [s|];
    destruct (Re.search_after "End:" Parser.not_space line) as [s'|];
    rewrite ?(fromisoformat_agrees iso s Hiso Hs),
            ?(fromisoformat_agrees iso s' Hiso He);
    reflexivity.
Qed.

Lemma parse_line_agrees (iso : string -> option datetime) (clock : nat -> Z)
    (st : pstate) (raw : string) :
  reads_common_grammar iso ->
  line_ok Iso.fromisoformat (seen st) raw = true ->
  Parser.parse_line iso clock st raw
  = Parser.parse_line Iso.fromisoformat clock st raw.
Proof.
  intros Hiso. unfold line_ok, Parser.parse_line.
  destruct (negb (Re.nonempty (Str.strip raw))); [reflexivity|].
  destruct (Str.startswith "# Time:" (Str.strip raw)).
  { unfold time_marker_ok. intros H.
    destruct (Parser.flush clock st) as [st1|]; cbn [mbind result_bind];
      [|reflexivity].
    destruct (item1 (Str.split "Time: " (Str.strip raw))) as [piece|];
      cbn [mbind result_bind]; [|reflexivity].
    rewrite (fromisoformat_agrees iso piece Hiso H). reflexivity. }
  destruct (Str.startswith "# User@Host:" (Str.strip raw)); [reflexivity|].
  destruct (Str.startswith "# Query_time:" (Str.strip raw)); [|reflexivity].
  unfold seen. destruct (current_query st) as [q|]; [|reflexivity].
  cbn [negb orb]. intros H. rewrite (metrics_agrees iso _ q Hiso H). reflexivity.
Qed.

Lemma parse_lines_agrees (iso : string -> option datetime) (clock : nat -> Z)
    (ls : list string) (st : pstate) :
  reads_common_grammar iso -> parser_inv clock st ->
  lines_ok Iso.fromisoformat (seen st) ls = true ->
  Parser.parse_lines iso clock st ls
  = Parser.parse_lines Iso.fromisoformat clock st ls.
Proof.
  intros Hiso. revert st. induction ls as [|l rest IH]; intros st Hinv; [reflexivity|].
  cbn [lines_ok Parser.parse_lines]. rewrite andb_true_iff. intros [Hl Hrest].
  rewrite (parse_line_agrees iso clock st l Hiso Hl).
  pose proof (parse_line_spec Iso.fromisoformat clock st l Hinv) as Hspec.
  destruct (Parser.parse_line Iso.fromisoformat clock st l) as [st1|];
    cbn [mbind result_bind]; [|reflexivity].
  destruct Hspec as (_ & Hinv1 & Hseen1).
  apply IH; [exact Hinv1|]. rewrite Hseen1. exact Hrest.
Qed.

Lemma parse_slow_log_agrees (iso : string -> option datetime) (clock : nat -> Z)
    (file : reading) :
  reads_common_grammar iso ->
  lines_ok Iso.fromisoformat false (lines_read file) = true ->
  parse_slow_log_with iso clock file
  = parse_slow_log_with Iso.fromisoformat clock file.
Proof.
  intros Hiso Hok. unfold parse_slow_log_with.
  rewrite (parse_lines_agrees iso clock _ Parser.init Hiso (init_inv clock) Hok).
  reflexivity.
Qed.

Lemma offsets_alike_markers (b : bool) (ls : list string) :
  offsets_alike b ls -> markers_alike Iso.fromisoformat b ls.
Proof.
  intros H raw piece t Hraw Hmark Hitem Hiso.
  rewrite (fromisoformat_awareness _ _ Hiso). apply (H raw piece Hraw Hmark Hitem).
Qed.

(** *** What the parser returns and when it raises *)

Lemma example_log_without_offset : written_without_offset (Str.lines example_log).
Proof.
  intros raw piece Hraw Hmark Hitem.
  assert (Hlines : Str.lines example_log
                   = ["# Time: 2024-05-01T02:00:00";
                      "# Query_time: 3.500000  Lock_time: 0.000000 Rows_sent: 1  Rows_examined: 100";
                      "SELECT 1;";
                      "# Time: 2024-05-01T02:05:00";
                      "# Query_time: 3.500000  Lock_time: 0.000000 Rows_sent: 1  Rows_examined: 100";
                      "SELECT 2;"]) by (vm_compute; reflexivity).
  rewrite Hlines in Hraw.
  repeat (destruct Hraw as [<-|Hraw]; [try discriminate Hmark|]); [| |destruct Hraw].
  - vm_compute in Hitem. injection Hitem as <-.
    eexists. split; vm_compute; reflexivity.
  - vm_compute in Hitem. injection Hitem as <-.
    eexists. split; vm_compute; reflexivity.
Qed.

(** C9: ordering a timestamp against the cursor is defined exactly when the
    two are alike in awareness; the cursors start aware, with the offset of
    Asia/Shanghai, and every execution keeps them aware; a time marker of
    the common grammar is read to the same value by every Python, aware
    exactly when its text carries an offset, so one without an offset is
    naive; the timestamp of every record the parser returns is what the
    running Python made of the text after ['Time: '] on a time-marker line
    of the file; with an aware cursor the filter returns a list exactly
    when every record is aware, and raises [TypeError] otherwise; so for a
    file whose time markers are written without an offset the filter raises
    as soon as the parser returns a record. *)
Theorem filter_needs_aware_timestamps :
  (forall a b : datetime,
     is_ok (DT.gt a b) = Bool.eqb (DT.aware a) (DT.aware b))
  /\ (forall (clock : nat -> Z) (instances : list string) (id : string) (t : datetime),
        init_cursors clock 0 instances ∅ !! id = Some t ->
        tzinfo t = Some DT.shanghai)
  /\ (forall (e : instance_env) (id : string) (m : monitor),
        (forall i t, cursor m i = Some t -> DT.aware t = true) ->
        forall i t, cursor (process_instance e id m).1 i = Some t ->
                    DT.aware t = true)
  /\ (forall (iso : string -> option datetime) (s : string) (t : datetime),
        reads_common_grammar iso ->
        Iso.fromisoformat s = Some t ->
        iso s = Some t /\ DT.aware t = has_offset s)
  /\ (forall (iso : string -> option datetime) (clock : nat -> Z)
             (file : reading) (out : list SlowQuery) (r : SlowQuery),
        parse_slow_log_with iso clock file = Ok out -> In r out ->
        exists raw piece,
          In raw (lines_read file)
          /\ is_time_marker raw = true
          /\ item1 (Str.split "Time: " (Str.strip raw)) = Ok piece
          /\ iso piece = Some (timestamp r))
  /\ (forall (slow_queries : list SlowQuery) (last_time : datetime),
        DT.aware last_time = true ->
        new_queries slow_queries last_time =
        if forallb is_aware slow_queries
        then Ok (List.filter (later_than last_time) slow_queries)
        else Raise TypeError)
  /\ (forall (iso : string -> option datetime) (clock : nat -> Z)
             (file : reading) (out : list SlowQuery) (last_time : datetime),
        reads_common_grammar iso ->
        written_without_offset (lines_read file) ->
        parse_slow_log_with iso clock file = Ok out -> out <> [] ->
        DT.aware last_time = true ->
        new_queries out last_time = Raise TypeError).
Proof.
  assert (Hfrom : forall (iso : string -> option datetime) (clock : nat -> Z)
             (file : reading) (out : list SlowQuery) (r : SlowQuery),
        parse_slow_log_with iso clock file = Ok out -> In r out ->
        exists raw piece,
          In raw (lines_read file)
          /\ is_time_marker raw = true
          /\ item1 (Str.split "Time: " (Str.strip raw)) = Ok piece
          /\ iso piece = Some (timestamp r)).
  { intros iso clock file out r Hparse Hin.
    destruct (parse_slow_log_read iso clock file out Hparse) as [_ Hp].
    exact (parse_slow_log_from_marker iso clock (lines_read file) out r Hp Hin). }
  split; [|split; [|split; [|split; [|split; [|split]]]]].
  - intros a b. rewrite gt_spec.
    destruct (Bool.eqb (DT.aware a) (DT.aware b)); reflexivity.
  - intros clock instances id t.
    apply init_cursors_shanghai. intros i t'. rewrite lookup_empty. discriminate.
  - exact process_instance_keeps_aware.
  - intros iso s t Hiso Hs. split; [exact (Hiso s t Hs)|].
    exact (fromisoformat_awareness s t Hs).
  - exact Hfrom.
  - exact new_queries_aware_cursor.
  - intros iso clock file out last_time Hiso Hnaive Hparse Hne Haware.
    rewrite (new_queries_aware_cursor out last_time Haware).
    destruct out as [|r out']; [congruence|].
    destruct (Hfrom iso clock file (r :: out') r Hparse (or_introl eq_refl))
      as (raw & piece & Hraw & Hmark & Hitem & Hr).
    destruct (Hnaive raw piece Hraw Hmark Hitem) as (t & Ht & Hoff).
    assert (Heq : timestamp r = t) by (rewrite (Hiso piece t Ht) in Hr; congruence).
    assert (Hr_naive : is_aware r = false).
    { unfold is_aware. rewrite Heq, (fromisoformat_awareness piece t Ht). exact Hoff. }
    cbn [forallb]. rewrite Hr_naive. reflexivity.
Qed.

(** The example log, whose time markers have no offset, against the cursor
    of a freshly started monitor: the timestamps are naive, the cursor is
    aware, the filter raises, and [process_instance] logs the error,
    delivers nothing and leaves the cursor where it was. *)
Lemma filter_needs_aware_witness :
  (Iso.fromisoformat "2024-05-01T02:05:00"
   = Some (mkDT 2024 5 1 2 5 0 0 None)
   /\ DT.aware (mkDT 2024 5 1 2 5 0 0 None) = has_offset "2024-05-01T02:05:00")
  /\ init_cursors (at_time may_1_noon) 0 ["rds-1"] ∅ !! "rds-1"
     = Some (Cal.now DT.shanghai (DT.instant may_1_noon))
  /\ tzinfo (Cal.now DT.shanghai (DT.instant may_1_noon)) = Some DT.shanghai
  /\ parse_slow_log (at_time may_1_noon) example_log
     = Ok [example_record 0 "SELECT 1;"; example_record 5 "SELECT 2;"]
  /\ new_queries [example_record 0 "SELECT 1;"; example_record 5 "SELECT 2;"]
                 (Cal.now DT.shanghai (DT.instant may_1_noon))
     = Raise TypeError
  /\ process_instance (ready_env example_log webhook_ok) "rds-1" monitor_at_0200
     = (mkMonitor {["rds-1" := may_1 2 0]} {["slowlog_download_1" := example_log]},
        [LoggedError TypeError]).
Proof.
  destruct filter_needs_aware_timestamps as (_ & Hinit & _ & Hiso & _ & _ & Hraise).
  assert (Hcommon : reads_common_grammar Iso.fromisoformat) by (intros s t H; exact H).
  assert (Hcur : init_cursors (at_time may_1_noon) 0 ["rds-1"] ∅ !! "rds-1"
                 = Some (Cal.now DT.shanghai (DT.instant may_1_noon)))
    by (vm_compute; reflexivity).
  assert (Hparse : parse_slow_log (at_time may_1_noon) example_log
                   = Ok [example_record 0 "SELECT 1;"; example_record 5 "SELECT 2;"])
    by (vm_compute; reflexivity).
  split; [exact (Hiso Iso.fromisoformat "2024-05-01T02:05:00"
                     (mkDT 2024 5 1 2 5 0 0 None) Hcommon eq_refl)|].
  split; [exact Hcur|].
  split; [exact (Hinit _ _ _ _ Hcur)|].
  split; [exact Hparse|].
  split; [|vm_compute; reflexivity].
  apply (Hraise Iso.fromisoformat (at_time may_1_noon) (whole example_log) _ _ Hcommon).
  - apply example_log_without_offset.
  - exact Hparse.
  - discriminate.
  - reflexivity.
Defined.

(** C3, as the code has it: a flushed candidate is appended exactly when
    the civil date of its timestamp AS WRITTEN (the offset of the timestamp
    plays no part) is the civil date in Asia/Shanghai at the reading of the
    clock, and is dropped without an exception otherwise; so every record
    [parse_slow_log] returns carries, as written, the Shanghai date of some
    reading of the clock, and that of the day when all readings fall on one
    day. The log with the one record of 2023-01-01T10:00:00, parsed on
    2023-01-02, yields no record. *)
Theorem accepted_records_are_dated_today :
  (forall (clock : nat -> Z) (st : pstate) (q : query) (ts : datetime),
     current_query st = Some q -> q_timestamp q = Some ts -> sql_lines st <> [] ->
     exists st' r,
       Parser.flush clock st = Ok st'
       /\ timestamp r = ts
       /\ slow_queries st'
          = if bool_decide (DT.date_of ts
                            = DT.date_of (Cal.now DT.shanghai (clock (reads st))))
            then slow_queries st ++ [r] else slow_queries st)
  /\ (forall (clock : nat -> Z) (text : string) (out : list SlowQuery) (r : SlowQuery),
        parse_slow_log clock text = Ok out -> In r out ->
        exists k, DT.date_of (timestamp r)
                  = DT.date_of (Cal.now DT.shanghai (clock k)))
  /\ (forall (clock : nat -> Z) (today : date) (text : string)
             (out : list SlowQuery) (r : SlowQuery),
        (forall k, DT.date_of (Cal.now DT.shanghai (clock k)) = today) ->
        parse_slow_log clock text = Ok out -> In r out ->
        DT.date_of (timestamp r) = today)
  /\ parse_slow_log (at_time jan_2_2023_noon) stale_log = Ok [].
Proof.
  split; [|split; [|split]].
  - intros clock st q ts Hq Hq_ts Hsql.
    assert (Hts : has_timestamp st).
    { intros q'. rewrite Hq. intros [= <-]. rewrite Hq_ts. eauto. }
    destruct (flush_spec clock st Hts) as [[[Hnone|Hnil] _]|Hflush];
      [congruence|contradiction|].
    destruct Hflush as (q' & ts' & r & Hq' & Hq_ts' & _ & Hr & _ & Hflush).
    assert (q' = q) as -> by congruence.
    assert (ts' = ts) as -> by congruence.
    eexists _, r. split; [exact Hflush|]. split; [exact Hr|]. simpl.
    destruct (DT.date_eqb _ _) eqn:Hd.
    + apply date_eqb_eq in Hd. rewrite bool_decide_eq_true_2 by exact Hd. reflexivity.
    + rewrite bool_decide_eq_false_2; [reflexivity|].
      intros Heq. apply date_eqb_eq in Heq. congruence.
  - intros clock text.
    exact (parse_slow_log_dated Iso.fromisoformat clock (Str.lines text)).
  - intros clock today text out r Hday Hparse Hin.
    destruct (parse_slow_log_dated Iso.fromisoformat clock (Str.lines text) out r
                Hparse Hin) as [k ->].
    apply Hday.
  - vm_compute. reflexivity.
Qed.

(** The record of 2024-05-01T12:00:00+08:00, parsed at noon of that day. *)
Lemma accepted_dated_witness :
  parse_slow_log (at_time may_1_noon) aware_log
  = Ok [aware_record 0 "SELECT 1;"; aware_record 5 "SELECT 2;"]
  /\ DT.date_of (timestamp (aware_record 5 "SELECT 2;")) = mkDate 2024 5 1.
Proof.
  assert (Hparse : parse_slow_log (at_time may_1_noon) aware_log
                   = Ok [aware_record 0 "SELECT 1;"; aware_record 5 "SELECT 2;"])
    by (vm_compute; reflexivity).
  split; [exact Hparse|].
  apply (proj1 (proj2 (proj2 accepted_records_are_dated_today))
           (at_time may_1_noon) (mkDate 2024 5 1) aware_log _ _
           (fun _ => eq_refl) Hparse).
  right. left. reflexivity.
Defined.

(** C3, as stated, fails: the record below was written at 23:30 of
    2024-05-01 in Shanghai, the parse happens on 2024-05-02 there, and the
    record is accepted because its timestamp reads 2024-05-02 at its own
    offset. *)
Lemma accepted_by_written_date :
  parse_slow_log (at_time may_2_just_after_midnight) tokyo_log
  = Ok [record_at tokyo_stamp "SELECT 1;"]
  /\ shanghai_date tokyo_stamp = mkDate 2024 5 1
  /\ DT.date_of (Cal.now DT.shanghai (at_time may_2_just_after_midnight O))
     = mkDate 2024 5 2.
Proof. repeat split; vm_compute; reflexivity. Qed.

(** C4: parsed while the civil day in Asia/Shanghai is 2024-05-01, the
    example log yields exactly two records, of 02:00:00 and 02:05:00, each
    with a query time of 3.5 and 100 rows examined, under every Python that
    reads the common grammar; and for every input, what [parse_slow_log]
    returns is the accepted records in ascending order of their timestamps,
    whatever their order in the file: the accepted records, when they are
    all naive or all aware, are returned as their stable sort, which is a
    permutation of them in which no record is earlier than one before
    it. *)
Theorem example_log_parses_sorted :
  (forall (iso : string -> option datetime) (clock : nat -> Z),
     reads_common_grammar iso ->
     (forall k, DT.date_of (Cal.now DT.shanghai (clock k)) = mkDate 2024 5 1) ->
     exists first second,
       parse_slow_log_with iso clock (whole example_log) = Ok [first; second]
       /\ timestamp first = mkDT 2024 5 1 2 0 0 0 None
       /\ timestamp second = mkDT 2024 5 1 2 5 0 0 None
       /\ query_time first = Finite (7 # 2) /\ query_time second = Finite (7 # 2)
       /\ rows_examined first = 100 /\ rows_examined second = 100)
  /\ (forall (iso : string -> option datetime) (clock : nat -> Z)
             (file : reading) (out : list SlowQuery),
        parse_slow_log_with iso clock file = Ok out ->
        StronglySorted not_earlier out
        /\ StronglySorted key_le out
        /\ exists l, accepted_with iso clock (lines_read file) = Ok l
                     /\ Permutation out l)
  /\ (forall (iso : string -> option datetime) (clock : nat -> Z)
             (ls : list string) (l : list SlowQuery),
        accepted_with iso clock ls = Ok l -> Sort.comparable l = true ->
        parse_slow_log_with iso clock (mkReading ls None)
        = Ok (Sort.stable_sort l)).
Proof.
  split; [|split].
  - intros iso clock Hiso Hday.
    exists (example_record 0 "SELECT 1;"), (example_record 5 "SELECT 2;").
    rewrite (parse_slow_log_agrees iso clock (whole example_log) Hiso)
      by (vm_compute; reflexivity).
    unfold whole.
    rewrite (parse_slow_log_ext Iso.fromisoformat clock (at_time may_1_noon)).
    + repeat split; vm_compute; reflexivity.
    + intros k. rewrite Hday. vm_compute. reflexivity.
  - intros iso clock file out Hparse.
    destruct (parse_slow_log_read iso clock file out Hparse) as [_ Hp].
    destruct (parse_slow_log_ok iso clock (lines_read file) out Hp)
      as (l & Hacc & Hcmp & ->).
    pose proof (stable_sort_sorted l) as Hsorted.
    split; [|split; [exact Hsorted|]].
    + destruct (comparable_uniform l Hcmp) as [b Hb].
      apply (sorted_not_earlier _ b); [|exact Hsorted].
      apply List.Forall_forall. intros x Hx.
      apply (Permutation_in _ (stable_sort_perm l)) in Hx.
      rewrite List.Forall_forall in Hb. apply Hb. exact Hx.
    + exists l. split; [exact Hacc|apply stable_sort_perm].
  - intros iso clock ls l Hacc Hcmp.
    rewrite (parse_slow_log_accepted iso clock ls), Hacc.
    cbn [mbind result_bind]. unfold Sort.sort_by_timestamp. rewrite Hcmp. reflexivity.
Qed.

(** The example log parsed at noon of 2024-05-01, and the same records in
    the opposite order: both give the 02:00 record first. *)
Lemma example_log_witness :
  (exists first second,
     parse_slow_log (at_time may_1_noon) example_log = Ok [first; second]
     /\ timestamp first = mkDT 2024 5 1 2 0 0 0 None
     /\ timestamp second = mkDT 2024 5 1 2 5 0 0 None
     /\ query_time first = Finite (7 # 2) /\ query_time second = Finite (7 # 2)
     /\ rows_examined first = 100 /\ rows_examined second = 100)
  /\ parse_slow_log (at_time may_1_noon) reversed_log
     = Ok [example_record 0 "SELECT 1;"; example_record 5 "SELECT 2;"]
  /\ StronglySorted not_earlier
       [example_record 0 "SELECT 1;"; example_record 5 "SELECT 2;"].
Proof.
  assert (Hrev : parse_slow_log (at_time may_1_noon) reversed_log
                 = Ok [example_record 0 "SELECT 1;"; example_record 5 "SELECT 2;"])
    by (vm_compute; reflexivity).
  split; [|split; [exact Hrev|]].
  - apply (proj1 example_log_parses_sorted Iso.fromisoformat (at_time may_1_noon)).
    + intros s t H. exact H.
    + intros k. vm_compute. reflexivity.
  - exact (proj1 (proj1 (proj2 example_log_parses_sorted) Iso.fromisoformat
                    (at_time may_1_noon) (whole reversed_log) _ Hrev)).
Defined.

(** C5, as the code has it. [parse_slow_log] raises [ValueError],
    [IndexError] or [OverflowError] exactly when some line it reads is
    malformed for its place: a [# Time:] line without ['Time: '] or with a
    text after it that the running Python does not read as a timestamp, or,
    once a time marker has been read, a [# User@Host:] line without
    ['# User@Host: '] or a [# Query_time:] line with a numeric value [float]
    or [int] rejects or a [Start:]/[End:] value that does not parse. When
    no line is malformed and the reading of the file fails, it raises the
    exception of the reading. When no line is malformed and the file is
    read to its end, the accepted records reach the sort, which raises
    [TypeError] exactly when they mix naive and aware timestamps; so a file
    with no malformed line whose time markers are all read as aware, or all
    as naive, is parsed without an exception, and so is, under every Python
    that reads the common grammar, a file that is well formed in that
    grammar and whose time markers all carry an offset or all carry none. No
    other line can make the parser raise, and none before the first time
    marker; an exception of the parser is logged by [process_instance],
    which delivers nothing and keeps the cursors. *)
Theorem parser_raises_only_on_malformed_lines (iso : string -> option datetime) :
  (forall (clock : nat -> Z) (ls : list string) (ex : exn),
     lines_ok iso false ls = true ->
     parse_slow_log_with iso clock (mkReading ls (Some ex)) = Raise ex)
  /\ (forall (clock : nat -> Z) (file : reading),
        lines_ok iso false (lines_read file) = false ->
        exists e, parse_slow_log_with iso clock file = Raise e
                  /\ (e = ValueError \/ e = IndexError \/ e = OverflowError))
  /\ (forall (clock : nat -> Z) (ls : list string),
        lines_ok iso false ls = true ->
        exists l, accepted_with iso clock ls = Ok l
                  /\ parse_slow_log_with iso clock (mkReading ls None)
                     = if Sort.comparable l then Ok (Sort.stable_sort l)
                       else Raise TypeError)
  /\ (forall (clock : nat -> Z) (ls : list string) (b : bool),
        lines_ok iso false ls = true ->
        markers_alike iso b ls ->
        exists out, parse_slow_log_with iso clock (mkReading ls None) = Ok out)
  /\ (forall (clock : nat -> Z) (ls : list string) (b : bool),
        reads_common_grammar iso ->
        lines_ok Iso.fromisoformat false ls = true ->
        offsets_alike b ls ->
        exists out, parse_slow_log_with iso clock (mkReading ls None) = Ok out)
  /\ (forall (seen : bool) (raw : string),
        Str.startswith "# Time:" (Str.strip raw) = false ->
        Str.startswith "# User@Host:" (Str.strip raw) = false ->
        Str.startswith "# Query_time:" (Str.strip raw) = false ->
        line_ok iso seen raw = true)
  /\ (forall raw : string,
        Str.startswith "# Time:" (Str.strip raw) = false ->
        line_ok iso false raw = true)
  /\ (forall (e : instance_env) (id link path text : string) (m : monitor)
             (dir : gmap string string) (ex : exn),
        wait_for_download_link (replies e) 10 = (true, Some link) ->
        Re.nonempty link = true ->
        download_slow_log (downloading e) link id (download_dir m) = (Some path, dir) ->
        dir !! path = Some text ->
        parse_slow_log (clock e) text = Raise ex ->
        process_instance e id m
        = (mkMonitor (last_process_time m) dir, [LoggedError ex])).
Proof.
  assert (Halike : forall (iso' : string -> option datetime) (clock : nat -> Z)
                          (ls : list string) (b : bool),
             lines_ok iso' false ls = true ->
             markers_alike iso' b ls ->
             exists out, parse_slow_log_with iso' clock (mkReading ls None) = Ok out).
  { intros iso' clock ls b Hok Hb. rewrite parse_slow_log_accepted.
    pose proof (accepted_spec iso' clock ls) as Hspec.
    destruct (accepted_with iso' clock ls) as [l|e] eqn:Hacc.
    + exists (Sort.stable_sort l). cbn [mbind result_bind].
      unfold Sort.sort_by_timestamp.
      rewrite (alike_markers_comparable iso' clock ls l b Hb Hacc). reflexivity.
    + destruct Hspec as [Hbad _]. congruence. }
  split; [|split; [|split; [|split; [|split; [|split; [|split]]]]]].
  - intros clock ls ex Hok. unfold parse_slow_log_with. cbn [lines_read read_error].
    pose proof (parse_lines_spec iso clock ls Parser.init (init_inv clock)) as Hspec.
    change (seen Parser.init) with false in Hspec.
    destruct (Parser.parse_lines iso clock Parser.init ls) as [st|e];
      [reflexivity|].
    destruct Hspec as [Hbad _]. congruence.
  - intros clock file Hbad. unfold parse_slow_log_with.
    pose proof (parse_lines_spec iso clock (lines_read file) Parser.init
                  (init_inv clock)) as Hspec.
    change (seen Parser.init) with false in Hspec.
    destruct (Parser.parse_lines iso clock Parser.init (lines_read file)) as [st|e].
    + destruct Hspec as [Hok _]. congruence.
    + exists e. split; [reflexivity|tauto].
  - intros clock ls Hok. rewrite parse_slow_log_accepted.
    pose proof (accepted_spec iso clock ls) as Hspec.
    destruct (accepted_with iso clock ls) as [l|e].
    + exists l. split; reflexivity.
    + destruct Hspec as [Hbad _]. congruence.
  - intros clock ls b. apply Halike.
  - intros clock ls b Hiso Hok Hb.
    rewrite (parse_slow_log_agrees iso clock (mkReading ls None) Hiso Hok).
    apply (Halike Iso.fromisoformat clock ls b Hok).
    apply offsets_alike_markers. exact Hb.
  - intros seen raw Ht Hu Hq. unfold line_ok. rewrite Ht, Hu, Hq.
    destruct (negb (Re.nonempty (Str.strip raw))); reflexivity.
  - intros raw Ht. unfold line_ok. rewrite Ht.
    destruct (negb (Re.nonempty (Str.strip raw))); [reflexivity|].
    destruct (Str.startswith "# User@Host:" (Str.strip raw)); [reflexivity|].
    destruct (Str.startswith "# Query_time:" (Str.strip raw)); reflexivity.
  - intros e id link path text m dir ex Hw Hl Hd Ht Hp.
    unfold process_instance. rewrite Hw. cbn [negb orb truthy]. rewrite Hl.
    cbn [negb]. change (default EmptyString (Some link)) with link. rewrite Hd.
    unfold process_downloaded. cbn [download_dir last_process_time].
    rewrite Ht. cbn [mbind result_bind]. rewrite Hp. reflexivity.
Qed.

(** Boilerplate at the head of the file, a metric line before any time
    marker, an unknown comment and a record without metadata: no line is
    malformed for its place, and the record comes out with its statement on
    two lines and every other field at its default. *)
Lemma parser_robust_witness :
  lines_ok Iso.fromisoformat false (Str.lines noisy_log) = true
  /\ (exists l, accepted (at_time may_1_noon) noisy_log = Ok l
                /\ parse_slow_log (at_time may_1_noon) noisy_log
                   = if Sort.comparable l then Ok (Sort.stable_sort l)
                     else Raise TypeError)
  /\ parse_slow_log (at_time may_1_noon) noisy_log
     = Ok [record_at (mkDT 2024 5 1 2 0 0 0 None) ("SELECT a" +:+ nl +:+ "FROM t;")].
Proof.
  assert (Hok : lines_ok Iso.fromisoformat false (Str.lines noisy_log) = true)
    by (vm_compute; reflexivity).
  split; [exact Hok|]. split; [|vm_compute; reflexivity].
  exact (proj1 (proj2 (proj2 (parser_raises_only_on_malformed_lines Iso.fromisoformat)))
           (at_time may_1_noon) (Str.lines noisy_log) Hok).
Defined.

(** C5, as stated, fails: one [# Time:] line that is no timestamp, or one
    metric value with two points after a time marker, and the parser
    raises [ValueError]. *)
Lemma parser_raises_on_malformed_line :
  parse_slow_log (at_time may_1_noon) bad_marker_log = Raise ValueError
  /\ parse_slow_log (at_time may_1_noon) bad_metric_log = Raise ValueError.
Proof. split; vm_compute; reflexivity. Qed.

(** ** The poll loop *)

Lemma checked_app {B : Type} (a b : list (event B)) :
  checked (a ++ b) = checked a ++ checked b.
Proof.
  induction a as [|ev a IH]; simpl; [reflexivity|].
  destruct ev; simpl; rewrite IH; reflexivity.
Qed.

Section PollLoopFacts.

Context {St B : Type}.
Variable body : nat -> string -> St -> result unit * St * list (event B).
Variable interval : Z.
Variable c : nat.

Hypothesis body_quiet : forall id s, checked (body c id s).2 = [].

(** When no instance raises, all of them are handled, in order. *)
Lemma for_instances_all (ids : list string) (s : St) :
  (forall id s, In id ids -> (body c id s).1.1 = Ok tt) ->
  exists s' evs,
    for_instances body c ids s = (Ok tt, s', evs) /\ checked evs = ids.
Proof.
  revert s. induction ids as [|id rest IH]; intros s Hok; simpl.
  - eauto.
  - pose proof (Hok id s (or_introl eq_refl)) as Hid.
    pose proof (body_quiet id s) as Hq.
    destruct (body c id s) as [[r s1] evs1]. simpl in Hid, Hq. subst r.
    destruct (IH s1) as (s2 & evs2 & Hrest & Hchecked).
    { intros id' s' Hin. apply Hok. right. exact Hin. }
    rewrite Hrest. exists s2, (Checked id :: evs1 ++ evs2). split; [reflexivity|].
    simpl. rewrite checked_app, Hq, Hchecked. reflexivity.
Qed.

(** When an instance raises, the instances before it are handled, it is
    handled up to the exception, and the instances after it are not. *)
Lemma for_instances_raise (pre post : list string) (bad : string) (ex : exn) (s : St) :
  (forall id s, In id pre -> (body c id s).1.1 = Ok tt) ->
  (forall s, (body c bad s).1.1 = Raise ex) ->
  exists s' evs,
    for_instances body c (pre ++ bad :: post) s = (Raise ex, s', evs)
    /\ checked evs = pre ++ [bad].
Proof.
  revert s. induction pre as [|id rest IH]; intros s Hok Hbad; simpl.
  - pose proof (Hbad s) as Hb. pose proof (body_quiet bad s) as Hq.
    destruct (body c bad s) as [[r s1] evs1]. simpl in Hb, Hq. subst r.
    exists s1, (Checked bad :: evs1). split; [reflexivity|].
    simpl. rewrite Hq. reflexivity.
  - pose proof (Hok id s (or_introl eq_refl)) as Hid.
    pose proof (body_quiet id s) as Hq.
    destruct (body c id s) as [[r s1] evs1]. simpl in Hid, Hq. subst r.
    destruct (IH s1) as (s2 & evs2 & Hrest & Hchecked).
    { intros id' s' Hin. apply Hok. right. exact Hin. }
    { exact Hbad. }
    rewrite Hrest. exists s2, (Checked id :: evs1 ++ evs2). split; [reflexivity|].
    simpl. rewrite checked_app, Hq, Hchecked. reflexivity.
Qed.

End PollLoopFacts.

Lemma process_downloaded_quiet (e : instance_env) (id path : string)
    (m m' : monitor) (evs : list hw_event) :
  process_downloaded e id path m = Ok (m', evs) -> checked evs = [].
Proof.
  unfold process_downloaded.
  destruct (download_dir m !! path) as [text|];
    cbn [mbind result_bind]; [|discriminate].
  destruct (parse_slow_log (clock e) text) as [[|q0 qs]|];
    cbn [mbind result_bind]; [| |discriminate].
  { intros [= <- <-]. reflexivity. }
  destruct (last_process_time m !! id) as [old|];
    cbn [mbind result_bind]; [|discriminate].
  destruct (new_queries (q0 :: qs) old) as [[|b0 bs]|];
    cbn [mbind result_bind]; [| |discriminate].
  { intros [= <- <-]. reflexivity. }
  destruct (_generate_alert_file (alert_writable e) (b0 :: bs)) as [batch|].
  - destruct (send_alert (hook e)).
    + destruct (max_timestamp (b0 :: bs)); cbn [mbind result_bind]; [|discriminate].
      intros [= <- <-]. reflexivity.
    + intros [= <- <-]. reflexivity.
  - intros [= <- <-]. reflexivity.
Qed.

Lemma huawei_body_spec (envs : nat -> string -> instance_env) (c : nat)
    (id : string) (m : monitor) :
  (huawei_body envs c id m).1.1 = Ok tt
  /\ checked (huawei_body envs c id m).2 = [].
Proof.
  unfold huawei_body.
  destruct (process_instance (envs c id) id m) as [m' evs] eqn:Hrun.
  split; [reflexivity|]. simpl.
  unfold process_instance in Hrun.
  destruct (wait_for_download_link _ _) as [success link].
  destruct (negb success || negb (truthy link)).
  { injection Hrun as <- <-. reflexivity. }
  destruct (download_slow_log _ _ _ _) as [[file_path|] dir].
  2:{ injection Hrun as <- <-. reflexivity. }
  destruct (process_downloaded _ _ _ _) as [[m1 evs1]|ex] eqn:Hdone.
  - injection Hrun as <- <-. apply (process_downloaded_quiet _ _ _ _ _ _ Hdone).
  - injection Hrun as <- <-. reflexivity.
Qed.

Lemma alert_groups_quiet (e : aliyun_env) (id : string)
    (groups : list (string * list item)) :
  checked (alert_groups e id groups).2 = [].
Proof.
  induction groups as [|[db_name db_items] rest IH]; simpl; [reflexivity|].
  destruct (negb (file_writable e db_name)); [reflexivity|].
  destruct (render_items e db_items); [|reflexivity].
  destruct (alert_groups e id rest) as [r evs]. simpl in *.
  destruct (truthy (upload_file e db_name) && message_sent e db_name); exact IH.
Qed.

Lemma check_scope_quiet (e : aliyun_env) (k : nat) (id : string)
    (db_name : option string) :
  checked (check_scope e k id db_name).2 = [].
Proof.
  unfold check_scope, send_wechat_alert.
  destruct (get_slow_sql_records e k id db_name) as [[[[|x items]|]|]|];
    try reflexivity.
  apply alert_groups_quiet.
Qed.

Lemma check_databases_quiet (e : aliyun_env) (id : string)
    (databases : list string) (k : nat) :
  checked (check_databases e k id databases).2 = [].
Proof.
  revert k. induction databases as [|db rest IH]; intros k; simpl; [reflexivity|].
  pose proof (check_scope_quiet e k id (Some db)) as Hq.
  destruct (check_scope e k id (Some db)) as [[[]|ex] evs]; simpl in Hq.
  - specialize (IH (S k)).
    destruct (check_databases e (S k) id rest) as [r evs']. simpl in *.
    rewrite checked_app, Hq, IH. reflexivity.
  - exact Hq.
Qed.

Lemma aliyun_body_quiet (config : gmap string string)
    (envs : nat -> string -> aliyun_env) (c : nat) (id : string) (s : unit) :
  checked (aliyun_body config envs c id s).2 = [].
Proof.
  unfold aliyun_body, check_instance.
  destruct (get_instance_databases config id) as [|db dbs].
  - pose proof (check_scope_quiet (envs c id) O id None) as Hq.
    destruct (check_scope (envs c id) O id None) as [r evs]. exact Hq.
  - pose proof (check_databases_quiet (envs c id) id (db :: dbs) O) as Hq.
    destruct (check_databases (envs c id) O id (db :: dbs)) as [r evs]. exact Hq.
Qed.

(** C8, as the code has it. The one [try] of [run] is around the whole
    pass: when the handling of an instance raises, the instances before it
    have been handled, those after it are not handled in that pass, the
    error is logged, the loop sleeps the full interval and goes on. In the
    Aliyun monitor the alert is built with no handler around it, so an
    instance can raise; in the Huawei monitor [process_instance] never
    raises, so every pass handles every instance and ends with the sleep. *)
Theorem one_exception_ends_the_pass :
  (forall (config : gmap string string) (envs : nat -> string -> aliyun_env)
          (interval : Z) (c : nat) (pre post : list string) (bad : string) (ex : exn),
     (forall id, In id pre -> (check_instance config (envs c id) id).1 = Ok tt) ->
     (check_instance config (envs c bad) bad).1 = Raise ex ->
     ex <> KeyboardInterrupt ->
     exists evs,
       cycle (aliyun_body config envs) (pre ++ bad :: post) interval c tt
       = (true, tt, evs ++ [LoggedError ex; Slept interval])
       /\ checked evs = pre ++ [bad])
  /\ (forall (config : gmap string string) (envs : nat -> string -> aliyun_env)
             (interval : Z) (c : nat) (instances : list string),
        (forall id, In id instances ->
                    (check_instance config (envs c id) id).1 = Ok tt) ->
        exists evs,
          cycle (aliyun_body config envs) instances interval c tt
          = (true, tt, evs ++ [Slept interval])
          /\ checked evs = instances)
  /\ (forall (envs : nat -> string -> instance_env) (interval : Z) (c : nat)
             (instances : list string) (m : monitor),
        exists m' evs,
          cycle (huawei_body envs) instances interval c m
          = (true, m', evs ++ [Slept interval])
          /\ checked evs = instances).
Proof.
  split; [|split].
  - intros config envs interval c pre post bad ex Hpre Hbad Hex.
    destruct (for_instances_raise (aliyun_body config envs) c
                (aliyun_body_quiet config envs c) pre post bad ex tt)
      as (s' & evs & Hfor & Hchecked).
    + intros id s Hin. unfold aliyun_body.
      specialize (Hpre id Hin).
      destruct (check_instance config (envs c id) id) as [r evs]. exact Hpre.
    + intros s. unfold aliyun_body.
      destruct (check_instance config (envs c bad) bad) as [r evs]. exact Hbad.
    + exists evs. split; [|exact Hchecked].
      unfold cycle. rewrite Hfor. destruct s'.
      destruct ex; try reflexivity. congruence.
  - intros config envs interval c instances Hok.
    destruct (for_instances_all (aliyun_body config envs) c
                (aliyun_body_quiet config envs c) instances tt)
      as (s' & evs & Hfor & Hchecked).
    + intros id s Hin. unfold aliyun_body.
      specialize (Hok id Hin).
      destruct (check_instance config (envs c id) id) as [r evs]. exact Hok.
    + exists evs. split; [|exact Hchecked].
      unfold cycle. rewrite Hfor. destruct s'. reflexivity.
  - intros envs interval c instances m.
    destruct (for_instances_all (huawei_body envs) c
                (fun id s => proj2 (huawei_body_spec envs c id s)) instances m)
      as (m' & evs & Hfor & Hchecked).
    + intros id s _. apply huawei_body_spec.
    + exists m', evs. split; [|exact Hchecked].
      unfold cycle. rewrite Hfor. reflexivity.
Qed.

(** The first of two instances gets a record without [ExecutionStartTime]:
    its handling raises [TypeError], the pass ends there, the error is
    logged and the loop sleeps its sixty seconds. *)
Lemma one_exception_witness :
  (check_instance ∅ (two_instances O "rds-a") "rds-a").1 = Raise TypeError
  /\ exists evs,
       cycle (aliyun_body ∅ two_instances) ([] ++ "rds-a" :: ["rds-b"]) 60 O tt
       = (true, tt, evs ++ [LoggedError TypeError; Slept 60])
       /\ checked evs = [] ++ ["rds-a"].
Proof.
  assert (Hbad : (check_instance ∅ (two_instances O "rds-a") "rds-a").1 = Raise TypeError)
    by (vm_compute; reflexivity).
  split; [exact Hbad|].
  refine (proj1 one_exception_ends_the_pass ∅ two_instances 60 O [] ["rds-b"] "rds-a" TypeError _ Hbad _).
  - intros id [].
  - discriminate.
Defined.

(** C8, as stated, fails: in two passes of the Aliyun loop over [rds-a]
    and [rds-b], the exception of [rds-a] ends each pass before [rds-b] is
    handled. *)
Lemma later_instances_are_skipped :
  aliyun_run ∅ two_instances ["rds-a"; "rds-b"] 60 2 O tt
  = (tt, [Checked "rds-a"; LoggedError TypeError; Slept 60;
          Checked "rds-a"; LoggedError TypeError; Slept 60])
  /\ ~ In "rds-b" (checked (aliyun_run ∅ two_instances ["rds-a"; "rds-b"] 60 2 O tt).2).
Proof.
  assert (Hrun : aliyun_run ∅ two_instances ["rds-a"; "rds-b"] 60 2 O tt
                 = (tt, [Checked "rds-a"; LoggedError TypeError; Slept 60;
                         Checked "rds-a"; LoggedError TypeError; Slept 60]))
    by (vm_compute; reflexivity).
  split; [exact Hrun|]. rewrite Hrun. simpl.
  intros [H|[H|[]]]; discriminate.
Qed.

(** With complete records both instances are handled and alerted in every
    pass. *)
Example both_instances_alerted :
  aliyun_run ∅ (fun _ _ => aliyun_world [item_complete]) ["rds-a"; "rds-b"] 60 1 O tt
  = (tt, [Checked "rds-a"; Delivered "rds-a" ("shop", [item_complete]);
          Checked "rds-b"; Delivered "rds-b" ("shop", [item_complete]);
          Slept 60]).
Proof. vm_compute. reflexivity. Qed.

(** ** The calendar *)

Lemma days_ok_all (count : nat) (n : Z) :
  days_ok count n = true ->
  forall i, n <= i < n + Z.of_nat count -> day_ok i = true.
Proof.
  revert n. induction count as [|count IH]; intros n H i Hi; [lia|].
  simpl in H. destruct (day_ok n) eqn:Hn; [|discriminate].
  destruct (Z.eq_dec i n) as [->|Hne]; [exact Hn|].
  apply (IH (n + 1) H). lia.
Qed.

Lemma first_cycle_ok (i : Z) : 1 <= i <= 146097 -> day_ok i = true.
Proof.
  intros Hi.
  assert (H : days_ok (Z.to_nat 146097) 1 = true)
    by (vm_cast_no_check (eq_refl true)).
  apply (days_ok_all _ _ H). lia.
Qed.

Lemma ymd2ord_shift (y m d q : Z) :
  DT.ymd2ord (y + 400 * q) m d = DT.ymd2ord y m d + 146097 * q.
Proof.
  unfold DT.ymd2ord, DT.days_before_year, DT.days_before_month, DT.is_leap.
  replace ((y + 400 * q) mod 4) with (y mod 4)
    by (replace (y + 400 * q) with (y + (q * 100) * 4) by ring; symmetry; apply Z_mod_plus_full).
  replace ((y + 400 * q) mod 100) with (y mod 100)
    by (replace (y + 400 * q) with (y + (q * 4) * 100) by ring; symmetry; apply Z_mod_plus_full).
  replace ((y + 400 * q) mod 400) with (y mod 400)
    by (replace (y + 400 * q) with (y + q * 400) by ring; symmetry; apply Z_mod_plus_full).
  replace ((y + 400 * q - 1) / 4) with ((y - 1) / 4 + 100 * q)
    by (replace (y + 400 * q - 1) with (y - 1 + (100 * q) * 4) by ring; symmetry; apply Z_div_plus_full; lia).
  replace ((y + 400 * q - 1) / 100) with ((y - 1) / 100 + 4 * q)
    by (replace (y + 400 * q - 1) with (y - 1 + (4 * q) * 100) by ring; symmetry; apply Z_div_plus_full; lia).
  replace ((y + 400 * q - 1) / 400) with ((y - 1) / 400 + q)
    by (replace (y + 400 * q - 1) with (y - 1 + q * 400) by ring; symmetry; apply Z_div_plus_full; lia).
  ring.
Qed.

(** An ordinal names the date that the ordinal of the first 400 years at
    the same place in its cycle names, that many cycles on. *)
Lemma ord2ymd_shift (n : Z) :
  let q := (n - 1) / 146097 in
  let r := (n - 1) mod 146097 in
  Cal.ord2ymd n =
  let '(y, m, d) := Cal.ord2ymd (r + 1) in (y + 400 * q, m, d).
Proof.
  intros q r. unfold Cal.ord2ymd.
  replace (r + 1 - 1) with r by ring.
  assert (Hr : 0 <= r < 146097) by (apply Z.mod_pos_bound; lia).
  rewrite (Z.div_small r 146097 Hr), (Z.mod_small r 146097 Hr).
  fold q. fold r.
  set (n100 := r / 36524). set (r1 := r mod 36524).
  set (n4 := r1 / 1461). set (r2 := r1 mod 1461).
  set (n1 := r2 / 365). set (r3 := r2 mod 365).
  destruct ((n1 =? 4) || (n100 =? 4)); [f_equal; f_equal; ring|].
  set (leap := (n1 =? 3) && (negb (n4 =? 24) || (n100 =? 3))).
  set (m := Z.shiftr (r3 + 50) 5).
  destruct (r3 <? _); f_equal; f_equal; ring.
Qed.

Lemma ord2ymd_round (n : Z) :
  1 <= n <= 24 * 146097 ->
  exists y m d,
    Cal.ord2ymd n = (y, m, d)
    /\ DT.ymd2ord y m d = n
    /\ 1 <= y <= 9600 /\ 1 <= m <= 12 /\ 1 <= d <= 31.
Proof.
  intros Hn. rewrite ord2ymd_shift.
  set (q := (n - 1) / 146097). set (r := (n - 1) mod 146097).
  assert (Hr : 0 <= r < 146097) by (apply Z.mod_pos_bound; lia).
  assert (Hq : 0 <= q <= 23).
  { unfold q. split; [apply Z.div_pos; lia|].
    apply Z.lt_succ_r. apply Z.div_lt_upper_bound; lia. }
  assert (Hnqr : n = r + 1 + 146097 * q).
  { unfold q, r. pose proof (Z.div_mod (n - 1) 146097 ltac:(lia)). lia. }
  pose proof (first_cycle_ok (r + 1) ltac:(lia)) as Hok.
  unfold day_ok in Hok.
  destruct (Cal.ord2ymd (r + 1)) as [[y m] d].
  rewrite !andb_true_iff in Hok.
  destruct Hok as [[[[[[H1 H2] H3] H4] H5] H6] H7].
  apply Z.eqb_eq in H1.
  apply Z.leb_le in H2, H3, H4, H5, H6, H7.
  exists (y + 400 * q), m, d. split; [reflexivity|].
  rewrite ymd2ord_shift, H1. lia.
Qed.

Lemma of_local_us_fields (u : Z) (tz : option Z) :
  0 <= u < year_9601 ->
  let t := Cal.of_local_us u tz in
  DT.local_us t = u
  /\ DT.ymd2ord (year t) (month t) (day t) = u / DT.us_per_day + 1
  /\ 1 <= year t <= 9600 /\ 1 <= month t <= 12 /\ 1 <= day t <= 31
  /\ hour t = u mod DT.us_per_day / DT.us_per_hour
  /\ minute t = u mod DT.us_per_day mod DT.us_per_hour / DT.us_per_minute
  /\ tzinfo t = tz.
Proof.
  intros Hu. unfold year_9601 in Hu.
  assert (Hday : DT.us_per_day = 86400000000) by reflexivity.
  assert (Hord : 1 <= u / DT.us_per_day + 1 <= 24 * 146097).
  { rewrite Hday in *. split.
    - pose proof (Z.div_pos u 86400000000 ltac:(lia) ltac:(lia)). lia.
    - assert (u / 86400000000 < 24 * 146097); [|lia].
      apply Z.div_lt_upper_bound; lia. }
  destruct (ord2ymd_round _ Hord) as (y & m & d & Hymd & Hback & Hy & Hm & Hd).
  unfold Cal.of_local_us. rewrite Hymd. unfold DT.local_us. simpl.
  rewrite Hback.
  repeat split; try lia.
  change DT.us_per_day with 86400000000.
  change DT.us_per_hour with 3600000000.
  change DT.us_per_minute with 60000000.
  change DT.us_per_second with 1000000.
  Z.to_euclidean_division_equations. lia.
Qed.

Lemma digit_char_spec (d : Z) :
  0 <= d <= 9 ->
  Str.isdigit (Cal.digit_char d) = true /\ Str.digit_val (Cal.digit_char d) = d.
Proof.
  intros Hd.
  assert (H : d = 0 \/ d = 1 \/ d = 2 \/ d = 3 \/ d = 4 \/ d = 5 \/ d = 6
              \/ d = 7 \/ d = 8 \/ d = 9) by lia.
  repeat (destruct H as [->|H]; [split; reflexivity|]). subst d. split; reflexivity.
Qed.

(** Reading back [width] rendered digits. *)
Lemma digits_fixed (width : nat) (more : nat) (n acc : Z) (tail : string) :
  0 <= n < 10 ^ Z.of_nat width ->
  Iso.digits (width + more) acc (Cal.fixed width n tail)
  = Iso.digits more (acc * 10 ^ Z.of_nat width + n) tail.
Proof.
  revert more n tail. induction width as [|width IH]; intros more n tail Hn.
  - simpl in *. f_equal. lia.
  - rewrite Nat2Z.inj_succ, Z.pow_succ_r in Hn by lia.
    cbn [Cal.fixed].
    replace (S width + more)%nat with (width + S more)%nat by lia.
    rewrite IH.
    2:{ split; [apply Z.div_pos; lia|apply Z.div_lt_upper_bound; lia]. }
    cbn [Iso.digits].
    destruct (digit_char_spec (n mod 10)) as [Hdig Hval].
    { pose proof (Z.mod_pos_bound n 10 ltac:(lia)). lia. }
    rewrite Hdig, Hval. f_equal.
    rewrite Nat2Z.inj_succ, Z.pow_succ_r by lia.
    pose proof (Z.div_mod n 10 ltac:(lia)). lia.
Qed.

Lemma digits_fixed_exact (width : nat) (n : Z) (tail : string) :
  0 <= n < 10 ^ Z.of_nat width ->
  Iso.digits width 0 (Cal.fixed width n tail) = Some (n, tail).
Proof.
  intros Hn. pose proof (digits_fixed width 0 n 0 tail Hn) as H.
  rewrite Nat.add_0_r in H. rewrite H. simpl. reflexivity.
Qed.

Lemma minutes_of_rendered (u : Z) (tz : option Z) :
  0 <= u < year_9601 ->
  Wire.minutes (Cal.strftime_minute (Cal.of_local_us u tz))
  = Some (u / DT.us_per_minute).
Proof.
  intros Hu.
  destruct (of_local_us_fields u tz Hu) as (_ & Hord & Hy & Hm & Hd & Hh & Hmi & _).
  remember (Cal.of_local_us u tz) as t eqn:Ht. clear Ht.
  unfold year_9601 in Hu.
  change DT.us_per_day with 86400000000 in *.
  change DT.us_per_hour with 3600000000 in *.
  change DT.us_per_minute with 60000000 in *.
  change DT.us_per_second with 1000000 in *.
  assert (Hhour : 0 <= hour t < 24).
  { rewrite Hh. clear - Hu. Z.to_euclidean_division_equations. lia. }
  assert (Hminute : 0 <= minute t < 60).
  { rewrite Hmi. clear - Hu. Z.to_euclidean_division_equations. lia. }
  unfold Wire.minutes, Cal.strftime_minute.
  rewrite (digits_fixed_exact 4 (year t))
    by (change (10 ^ Z.of_nat 4) with 10000; lia).
  cbn [mbind option_bind Iso.expect]. rewrite Ascii.eqb_refl.
  cbn [mbind option_bind].
  rewrite (digits_fixed_exact 2 (month t))
    by (change (10 ^ Z.of_nat 2) with 100; lia).
  cbn [mbind option_bind Iso.expect]. rewrite Ascii.eqb_refl.
  cbn [mbind option_bind].
  rewrite (digits_fixed_exact 2 (day t))
    by (change (10 ^ Z.of_nat 2) with 100; lia).
  cbn [mbind option_bind Iso.expect]. rewrite Ascii.eqb_refl.
  cbn [mbind option_bind].
  rewrite (digits_fixed_exact 2 (hour t))
    by (change (10 ^ Z.of_nat 2) with 100; lia).
  cbn [mbind option_bind Iso.expect]. rewrite Ascii.eqb_refl.
  cbn [mbind option_bind].
  rewrite (digits_fixed_exact 2 (minute t))
    by (change (10 ^ Z.of_nat 2) with 100; lia).
  cbn [mbind option_bind Iso.expect].
  f_equal. rewrite Hord, Hh, Hmi.
  clear - Hu. Z.to_euclidean_division_equations. lia.
Qed.

Lemma checked_in_range (u : Z) (tz : option Z) :
  0 <= u < year_9601 -> Cal.checked u tz = Ok (Cal.of_local_us u tz).
Proof.
  intros Hu. unfold Cal.checked, Cal.in_range.
  assert (Hmax : year_9601 <= Cal.max_local_us) by (vm_compute; discriminate).
  destruct (Z.leb_spec 0 u); [|lia].
  destruct (Z.ltb_spec u Cal.max_local_us); [|lia].
  reflexivity.
Qed.

Lemma astimezone_now (t : Z) :
  0 <= t -> t + DT.shanghai < year_9601 ->
  Cal.astimezone (Cal.now DT.shanghai t) DT.utc = Ok (Cal.now DT.utc t).
Proof.
  intros Hlo Hhi.
  assert (Hsh : 0 <= DT.shanghai) by (vm_compute; discriminate).
  destruct (of_local_us_fields (t + DT.shanghai) (Some DT.shanghai))
    as (Hlocal & _ & _ & _ & _ & _ & _ & Htz); [lia|].
  unfold Cal.astimezone. fold (Cal.now DT.shanghai t) in Hlocal, Htz.
  rewrite Htz, Hlocal.
  replace (t + DT.shanghai - DT.shanghai + DT.utc) with (t + DT.utc) by ring.
  unfold Cal.now. apply checked_in_range. unfold DT.utc. lia.
Qed.

Lemma minus_now (t delta : Z) :
  0 <= delta <= t -> t < year_9601 ->
  Cal.minus (Cal.now DT.utc t) delta = Ok (Cal.now DT.utc (t - delta)).
Proof.
  intros Hlo Hhi.
  destruct (of_local_us_fields (t + DT.utc) (Some DT.utc))
    as (Hlocal & _ & _ & _ & _ & _ & _ & Htz); [unfold DT.utc; lia|].
  unfold Cal.minus. fold (Cal.now DT.utc t) in Hlocal, Htz.
  rewrite Htz, Hlocal.
  replace (t + DT.utc - delta) with (t - delta + DT.utc) by ring.
  unfold Cal.now. apply checked_in_range. unfold DT.utc. lia.
Qed.

Lemma get_time_range_steps (cst_now utc_now utc_start : datetime) :
  Cal.astimezone cst_now DT.utc = Ok utc_now ->
  Cal.minus utc_now DT.us_per_minute = Ok utc_start ->
  get_time_range cst_now
  = Ok (Cal.strftime_minute utc_start, Cal.strftime_minute utc_now).
Proof.
  intros H1 H2. unfold get_time_range. rewrite H1. cbn [mbind result_bind].
  rewrite H2. reflexivity.
Qed.

Lemma get_time_range_spec (t : Z) :
  unix_epoch <= t -> t + DT.shanghai < year_9601 ->
  get_time_range (Cal.now DT.shanghai t)
  = Ok (Cal.strftime_minute (Cal.now DT.utc (t - DT.us_per_minute)),
        Cal.strftime_minute (Cal.now DT.utc t)).
Proof.
  intros Hlo Hhi.
  assert (Hepoch : DT.us_per_minute <= unix_epoch) by (vm_compute; discriminate).
  assert (Hsh : 0 <= DT.shanghai) by (vm_compute; discriminate).
  assert (Hmin : 0 <= DT.us_per_minute) by (vm_compute; discriminate).
  apply get_time_range_steps.
  - apply astimezone_now; lia.
  - apply minus_now; lia.
Qed.

Lemma minute_step (t : Z) :
  (t + DT.us_per_second) / DT.us_per_minute
  = if DT.us_per_minute - DT.us_per_second <=? t mod DT.us_per_minute
    then t / DT.us_per_minute + 1 else t / DT.us_per_minute.
Proof.
  change DT.us_per_minute with 60000000. change DT.us_per_second with 1000000.
  destruct (Z.leb_spec (60000000 - 1000000) (t mod 60000000));
    Z.to_euclidean_division_equations; lia.
Qed.

(** C7, as the code has it: for a clock reading between the Unix epoch and
    the year 9601, [get_time_range] returns the two bounds rendered in UTC
    in the format [YYYY-MM-DDTHH:MMZ], which has no seconds: the end reads
    back as the minute the reading falls in (the current time with its
    seconds dropped), the start as the minute before, so the window between
    the rendered bounds is always exactly one minute. Of two calls one
    second apart the second end is the same minute as the first, or the
    next minute when the first call came in the last second of its
    minute. *)
Theorem window_is_the_last_whole_minute :
  (forall t : Z,
     unix_epoch <= t -> t + DT.shanghai < year_9601 ->
     exists start_time end_time,
       get_time_range (Cal.now DT.shanghai t) = Ok (start_time, end_time)
       /\ start_time = Cal.strftime_minute (Cal.now DT.utc (t - DT.us_per_minute))
       /\ end_time = Cal.strftime_minute (Cal.now DT.utc t)
       /\ Wire.minutes start_time = Some (t / DT.us_per_minute - 1)
       /\ Wire.minutes end_time = Some (t / DT.us_per_minute))
  /\ (forall (t : Z) (window1 window2 : string * string),
        unix_epoch <= t -> t + DT.us_per_second + DT.shanghai < year_9601 ->
        get_time_range (Cal.now DT.shanghai t) = Ok window1 ->
        get_time_range (Cal.now DT.shanghai (t + DT.us_per_second)) = Ok window2 ->
        exists m, Wire.minutes window1.2 = Some m
                  /\ Wire.minutes window2.2
                     = Some (if DT.us_per_minute - DT.us_per_second
                                <=? t mod DT.us_per_minute
                             then m + 1 else m)).
Proof.
  assert (Hepoch : unix_epoch = 62135596800000000) by reflexivity.
  assert (Hsh : DT.shanghai = 28800000000) by reflexivity.
  assert (Hmin : DT.us_per_minute = 60000000) by reflexivity.
  assert (Hsec : DT.us_per_second = 1000000) by reflexivity.
  assert (H9601 : year_9601 = 302946739200000000) by reflexivity.
  assert (Hwire : forall u, unix_epoch <= u -> u + DT.shanghai < year_9601 ->
            Wire.minutes (Cal.strftime_minute (Cal.now DT.utc u))
            = Some (u / DT.us_per_minute)).
  { intros u Hlo Hhi. unfold Cal.now. replace (u + DT.utc) with u by (unfold DT.utc; ring).
    apply minutes_of_rendered. lia. }
  split.
  - intros t Hlo Hhi. eexists _, _. split; [apply get_time_range_spec; assumption|].
    split; [reflexivity|]. split; [reflexivity|]. split; [|apply Hwire; assumption].
    unfold Cal.now. replace (t - DT.us_per_minute + DT.utc) with (t - DT.us_per_minute)
      by (unfold DT.utc; ring).
    rewrite minutes_of_rendered by lia. f_equal.
    rewrite Hmin. clear. Z.to_euclidean_division_equations. lia.
  - intros t window1 window2 Hlo Hhi H1 H2.
    rewrite get_time_range_spec in H1 by lia.
    rewrite get_time_range_spec in H2 by lia.
    injection H1 as <-. injection H2 as <-.
    exists (t / DT.us_per_minute). cbn [snd].
    rewrite !Hwire by lia. split; [reflexivity|]. f_equal. apply minute_step.
Qed.

(** The call at noon of 2024-05-01 in Shanghai, and the call one second
    later. *)
Lemma window_witness :
  (exists start_time end_time,
     get_time_range (Cal.now DT.shanghai (DT.instant may_1_noon))
     = Ok (start_time, end_time)
     /\ start_time
        = Cal.strftime_minute
            (Cal.now DT.utc (DT.instant may_1_noon - DT.us_per_minute))
     /\ end_time = Cal.strftime_minute (Cal.now DT.utc (DT.instant may_1_noon))
     /\ Wire.minutes start_time
        = Some (DT.instant may_1_noon / DT.us_per_minute - 1)
     /\ Wire.minutes end_time = Some (DT.instant may_1_noon / DT.us_per_minute))
  /\ get_time_range (Cal.now DT.shanghai (DT.instant may_1_noon))
     = Ok ("2024-05-01T03:59Z", "2024-05-01T04:00Z").
Proof.
  split; [|vm_compute; reflexivity].
  apply (proj1 window_is_the_last_whole_minute (DT.instant may_1_noon));
    vm_compute; [discriminate|reflexivity].
Defined.

(** C7, as stated, fails: the two calls below are one second apart (half
    a second before and half a second after noon in Shanghai); the end of
    the first window is 03:59, a minute less half a second before the
    call, and the ends of the two windows differ by a whole minute. *)
Lemma window_end_jumps_by_a_minute :
  DT.instant (mkDT 2024 5 1 12 0 0 500000 (Some DT.shanghai))
  - DT.instant (mkDT 2024 5 1 11 59 59 500000 (Some DT.shanghai))
  = DT.us_per_second
  /\ get_time_range (mkDT 2024 5 1 11 59 59 500000 (Some DT.shanghai))
     = Ok ("2024-05-01T03:58Z", "2024-05-01T03:59Z")
  /\ get_time_range (mkDT 2024 5 1 12 0 0 500000 (Some DT.shanghai))
     = Ok ("2024-05-01T03:59Z", "2024-05-01T04:00Z")
  /\ Wire.minutes "2024-05-01T03:59Z" ≫= (fun m1 =>
       Wire.minutes "2024-05-01T04:00Z" ≫= (fun m2 =>
         Some ((m2 - m1) * DT.us_per_minute)))
     = Some (60 * DT.us_per_second).
Proof. repeat split; vm_compute; reflexivity. Qed.

(** * Further properties of the two monitors *)

(** ** Repeated executions of [process_instance] *)

Lemma delete_old_idem (listable : bool) (fails : string -> bool)
    (id new : string) (dir : gmap string string) :
  _delete_old_slowlog listable fails id new
    (_delete_old_slowlog listable fails id new dir)
  = _delete_old_slowlog listable fails id new dir.
Proof.
  apply map_eq. intros name. rewrite !delete_old_lookup.
  destruct (listable && is_old_slowlog new name && negb (fails name)); reflexivity.
Qed.

Lemma delete_old_insert (listable : bool) (fails : string -> bool)
    (id new content : string) (dir : gmap string string) :
  _delete_old_slowlog listable fails id new
    (<[new := content]> (_delete_old_slowlog listable fails id new dir))
  = <[new := content]> (_delete_old_slowlog listable fails id new dir).
Proof.
  apply map_eq. intros name. rewrite delete_old_lookup.
  destruct (decide (name = new)) as [->|Hne].
  - rewrite is_old_self, andb_false_r. reflexivity.
  - rewrite !lookup_insert_ne by congruence. rewrite delete_old_lookup.
    destruct (listable && is_old_slowlog new name && negb (fails name)); reflexivity.
Qed.

Lemma download_again (e : download_env) (link id : string)
    (dir dir' : gmap string string) (r : option string) :
  download_slow_log e link id dir = (r, dir') ->
  download_slow_log e link id dir' = (r, dir').
Proof.
  unfold download_slow_log.
  set (name := if Re.nonempty (link_basename e link) then link_basename e link
               else "slowlog_download_" +:+ stamp e).
  destruct (http e); intros H; inversion H; subst; clear H.
  - rewrite delete_old_idem. reflexivity.
  - rewrite delete_old_insert, insert_insert_eq. reflexivity.
  - rewrite delete_old_insert, insert_insert_eq. reflexivity.
Qed.

(** What [process_instance] does once the link, the download and the parse
    have succeeded with a non-empty list of records. *)
Lemma process_instance_parsed (e : instance_env) (id link path text : string)
    (m : monitor) (dir : gmap string string) (sq fresh : list SlowQuery)
    (old : datetime) :
  wait_for_download_link (replies e) 10 = (true, Some link) ->
  Re.nonempty link = true ->
  download_slow_log (downloading e) link id (download_dir m) = (Some path, dir) ->
  dir !! path = Some text ->
  parse_slow_log (clock e) text = Ok sq ->
  sq <> [] ->
  cursor m id = Some old ->
  new_queries sq old = Ok fresh ->
  process_instance e id m =
  match fresh with
  | [] => (mkMonitor (last_process_time m) dir, [])
  | _ =>
      if alert_writable e then
        if send_alert (hook e) then
          match max_timestamp fresh with
          | Ok newest =>
              (mkMonitor (<[id := newest]> (last_process_time m)) dir,
               [Delivered id fresh])
          | Raise ex => (mkMonitor (last_process_time m) dir, [LoggedError ex])
          end
        else (mkMonitor (last_process_time m) dir, [Undelivered id fresh])
      else (mkMonitor (last_process_time m) dir, [])
  end.
Proof.
  intros Hw Hl Hd Ht Hp Hne Hc Hn.
  unfold process_instance. rewrite Hw. cbn [negb orb truthy]. rewrite Hl.
  cbn [negb]. change (default EmptyString (Some link)) with link. rewrite Hd.
  unfold process_downloaded. cbn [download_dir last_process_time].
  rewrite Ht. cbn [mbind result_bind]. rewrite Hp. cbn [mbind result_bind].
  destruct sq as [|q0 sq']; [congruence|].
  unfold cursor in Hc. rewrite Hc. cbn [mbind result_bind]. rewrite Hn.
  cbn [mbind result_bind].
  destruct fresh as [|f0 fresh']; [reflexivity|].
  unfold _generate_alert_file.
  destruct (alert_writable e); [|reflexivity].
  destruct (send_alert (hook e)); [|reflexivity].
  destruct (max_timestamp (f0 :: fresh')); reflexivity.
Qed.

(** An execution that reports a batch, delivered or not, went through every
    stage. *)
Lemma process_instance_batch (e : instance_env) (id : string) (m m' : monitor)
    (b : list SlowQuery) (delivered : bool) :
  process_instance e id m
  = (m', [if delivered then Delivered id b else Undelivered id b]) ->
  exists link path text sq old,
    wait_for_download_link (replies e) 10 = (true, Some link)
    /\ Re.nonempty link = true
    /\ download_slow_log (downloading e) link id (download_dir m)
       = (Some path, download_dir m')
    /\ download_dir m' !! path = Some text
    /\ parse_slow_log (clock e) text = Ok sq
    /\ sq <> []
    /\ cursor m id = Some old
    /\ new_queries sq old = Ok b
    /\ b <> []
    /\ alert_writable e = true
    /\ send_alert (hook e) = delivered
    /\ if delivered
       then exists newest,
              max_timestamp b = Ok newest
              /\ last_process_time m' = <[id := newest]> (last_process_time m)
       else last_process_time m' = last_process_time m.
Proof.
  unfold process_instance.
  destruct (wait_for_download_link (replies e) 10) as [success link] eqn:Hw.
  destruct success; cbn [negb orb];
    [|intros H; inversion H; destruct delivered; discriminate].
  destruct link as [link|]; cbn [truthy negb];
    [|intros H; inversion H; destruct delivered; discriminate].
  destruct (Re.nonempty link) eqn:Hl; cbn [negb];
    [|intros H; inversion H; destruct delivered; discriminate].
  change (default EmptyString (Some link)) with link.
  destruct (download_slow_log (downloading e) link id (download_dir m))
    as [file_path dir] eqn:Hd.
  destruct file_path as [path|];
    [|intros H; inversion H; destruct delivered; discriminate].
  unfold process_downloaded. cbn [download_dir last_process_time].
  destruct (dir !! path) as [text|] eqn:Ht; cbn [mbind result_bind];
    [|intros H; inversion H; destruct delivered; discriminate].
  destruct (parse_slow_log (clock e) text) as [sq|ex] eqn:Hp; cbn [mbind result_bind];
    [|intros H; inversion H; destruct delivered; discriminate].
  destruct sq as [|q0 sq'];
    [intros H; inversion H; destruct delivered; discriminate|].
  destruct (last_process_time m !! id) as [old|] eqn:Hc; cbn [mbind result_bind];
    [|intros H; inversion H; destruct delivered; discriminate].
  destruct (new_queries (q0 :: sq') old) as [fresh|ex] eqn:Hn; cbn [mbind result_bind];
    [|intros H; inversion H; destruct delivered; discriminate].
  destruct fresh as [|f0 fresh'];
    [intros H; inversion H; destruct delivered; discriminate|].
  unfold _generate_alert_file.
  destruct (alert_writable e) eqn:Ha;
    [|intros H; inversion H; destruct delivered; discriminate].
  destruct (send_alert (hook e)) eqn:Hs.
  - destruct (max_timestamp (f0 :: fresh')) as [newest|ex] eqn:Hm; cbn [mbind result_bind];
      [|intros H; inversion H; destruct delivered; discriminate].
    intros H. inversion H as [[Hm' Hev]]. destruct delivered; [|discriminate].
    inversion Hev; subst b. cbn [download_dir last_process_time].
    exists link, path, text, (q0 :: sq'), old.
    repeat split; try assumption; try congruence; eauto.
  - intros H. inversion H as [[Hm' Hev]]. destruct delivered; [discriminate|].
    inversion Hev; subst b. cbn [download_dir last_process_time].
    exists link, path, text, (q0 :: sq'), old.
    repeat split; try assumption; try congruence; eauto.
Qed.

Lemma later_than_lt (c : datetime) (q : SlowQuery) :
  later_than c q = true <-> DT.instant c < DT.instant (timestamp q).
Proof. unfold later_than. apply Z.ltb_lt. Qed.

Lemma later_than_ge (c : datetime) (q : SlowQuery) :
  later_than c q = false <-> DT.instant (timestamp q) <= DT.instant c.
Proof. unfold later_than. apply Z.ltb_ge. Qed.

Lemma process_instance_cases (e : instance_env) (id : string) (m m' : monitor)
    (evs : list hw_event) :
  process_instance e id m = (m', evs) ->
  (last_process_time m' = last_process_time m
   /\ (evs = [] \/ exists ex, evs = [LoggedError ex]))
  \/ exists (b : list SlowQuery) (delivered : bool),
       evs = [if delivered then Delivered id b else Undelivered id b].
Proof.
  unfold process_instance.
  destruct (wait_for_download_link (replies e) 10) as [success link].
  destruct (negb success || negb (truthy link));
    [intros H; inversion H; subst; left; auto|].
  destruct (download_slow_log (downloading e) (default EmptyString link) id
              (download_dir m)) as [file_path dir].
  destruct file_path as [path|]; [|intros H; inversion H; subst; left; auto].
  destruct (process_downloaded e id path (mkMonitor (last_process_time m) dir))
    as [[m1 evs1]|ex] eqn:Hp;
    [|intros H; inversion H; subst; left; eauto].
  intros H; inversion H; subst; clear H.
  revert Hp. unfold process_downloaded. cbn [download_dir last_process_time].
  destruct (dir !! path) as [text|]; cbn [mbind result_bind]; [|discriminate].
  destruct (parse_slow_log (clock e) text) as [sq|]; cbn [mbind result_bind];
    [|discriminate].
  destruct sq as [|q0 sq']; [intros H; inversion H; subst; left; auto|].
  destruct (last_process_time m !! id) as [old|]; cbn [mbind result_bind];
    [|discriminate].
  destruct (new_queries (q0 :: sq') old) as [fresh|]; cbn [mbind result_bind];
    [|discriminate].
  destruct fresh as [|f0 fresh']; [intros H; inversion H; subst; left; auto|].
  unfold _generate_alert_file.
  destruct (alert_writable e); [|intros H; inversion H; subst; left; auto].
  destruct (send_alert (hook e)).
  - destruct (max_timestamp (f0 :: fresh')); cbn [mbind result_bind]; [|discriminate].
    intros H; inversion H; subst. right. exists (f0 :: fresh'), true. reflexivity.
  - intros H; inversion H; subst. right. exists (f0 :: fresh'), false. reflexivity.
Qed.

(** What a delivery says about the batch and the cursors. *)
Lemma delivered_facts (e : instance_env) (id : string) (m m' : monitor)
    (b : list SlowQuery) :
  process_instance e id m = (m', [Delivered id b]) ->
  exists sq old newest,
    cursor m id = Some old
    /\ b = List.filter (later_than old) sq
    /\ Forall (fun q => same_awareness old q = true) sq
    /\ b <> []
    /\ DT.aware newest = DT.aware old
    /\ is_newest newest b
    /\ DT.instant old < DT.instant newest
    /\ last_process_time m' = <[id := newest]> (last_process_time m).
Proof.
  intros H. apply (process_instance_batch e id m m' b true) in H.
  destruct H as (link & path & text & sq & old & _ & _ & _ & _ & _ & _
                 & Hc & Hn & Hne & _ & _ & newest & Hm & Hl).
  apply new_queries_ok in Hn. destruct Hn as [Hb Haw].
  destruct (max_timestamp_spec b old Hne) as (newest' & Hm' & Ha & Hnew).
  { subst b. apply filter_same_awareness. exact Haw. }
  assert (newest' = newest) as -> by congruence.
  exists sq, old, newest.
  split; [exact Hc|]. split; [exact Hb|]. split; [exact Haw|]. split; [exact Hne|].
  split; [exact Ha|]. split; [exact Hnew|]. split; [|exact Hl].
  destruct Hnew as [(q & Hq & Hts) _]. subst b.
  apply List.filter_In in Hq. destruct Hq as [_ Hq].
  apply later_than_lt in Hq. rewrite <- Hts. exact Hq.
Qed.

(** After a delivery no record of the file is later than the new cursor. *)
Lemma nothing_later_than_newest (sq : list SlowQuery) (old newest : datetime) :
  Forall (fun q => same_awareness old q = true) sq ->
  DT.aware newest = DT.aware old ->
  is_newest newest (List.filter (later_than old) sq) ->
  DT.instant old < DT.instant newest ->
  new_queries sq newest = Ok [].
Proof.
  intros Haw Ha [_ Hmax] Hlt. rewrite new_queries_spec.
  assert (Hall : forallb (same_awareness newest) sq = true).
  { apply List.forallb_forall. intros q Hq.
    rewrite List.Forall_forall in Haw. specialize (Haw q Hq).
    unfold same_awareness in *. rewrite Ha. exact Haw. }
  rewrite Hall. f_equal.
  induction sq as [|q sq IH]; [reflexivity|].
  cbn [List.filter].
  assert (Hq : later_than newest q = false).
  { apply later_than_ge.
    destruct (later_than old q) eqn:Hl.
    - apply Hmax. apply List.filter_In. split; [left; reflexivity|exact Hl].
    - apply later_than_ge in Hl. revert Hl Hlt.
      generalize (DT.instant (timestamp q)) (DT.instant old) (DT.instant newest).
      intros; lia. }
  rewrite Hq. apply IH.
  - inversion Haw; assumption.
  - intros q' Hq'. apply Hmax. cbn [List.filter].
    destruct (later_than old q); [right|]; exact Hq'.
  - cbn [forallb] in Hall. apply andb_prop in Hall. apply Hall.
Qed.

(** X1: when an execution of [process_instance] has delivered a batch, the
    same execution repeated (same replies, same download, same file, same
    clock and webhook) finds no record later than the new cursor: it
    delivers nothing and leaves the monitor as it is. *)
Theorem delivered_batch_is_not_sent_again (e : instance_env) (id : string)
    (m m' : monitor) (batch : list SlowQuery) :
  process_instance e id m = (m', [Delivered id batch]) ->
  process_instance e id m' = (m', []).
Proof.
  intros H.
  destruct (delivered_facts e id m m' batch H)
    as (sq' & old' & newest & Hc' & Hb' & Haw' & _ & Ha & Hnew & Hlt & Hl).
  apply (process_instance_batch e id m m' batch true) in H.
  destruct H as (link & path & text & sq & old & Hw & Hlk & Hd & Ht & Hp & Hsq
                 & Hc & Hn & Hne & _ & _ & _).
  apply new_queries_ok in Hn. destruct Hn as [Hb Haw].
  assert (old' = old) as -> by congruence.
  rewrite (process_instance_parsed e id link path text m' (download_dir m') sq []
             newest Hw Hlk (download_again _ _ _ _ _ _ Hd) Ht Hp Hsq).
  - destruct m'; reflexivity.
  - unfold cursor. rewrite Hl. apply lookup_insert_eq.
  - apply (nothing_later_than_newest sq old newest Haw Ha); [|exact Hlt].
    rewrite <- Hb. exact Hnew.
Qed.

(** X2: when the webhook refused a batch, the monitor is left so that the
    same execution with a webhook that accepts delivers that very batch and
    moves the cursor to its newest timestamp. *)
Theorem refused_batch_is_sent_again
    (rep : nat -> option response) (dl : download_env) (clk : nat -> Z)
    (wr : bool) (hk hk' : webhook) (id : string) (m m1 : monitor)
    (batch : list SlowQuery) :
  process_instance (mkInstanceEnv rep dl clk wr hk) id m
  = (m1, [Undelivered id batch]) ->
  send_alert hk' = true ->
  exists newest,
    is_newest newest batch
    /\ process_instance (mkInstanceEnv rep dl clk wr hk') id m1
       = (mkMonitor (<[id := newest]> (last_process_time m1)) (download_dir m1),
          [Delivered id batch]).
Proof.
  intros H Hs.
  apply (process_instance_batch _ id m m1 batch false) in H.
  cbn [replies downloading clock alert_writable hook] in H.
  destruct H as (link & path & text & sq & old & Hw & Hlk & Hd & Ht & Hp & Hsq
                 & Hc & Hn & Hne & Hwr & _ & Hl).
  pose proof Hn as Hn'. apply new_queries_ok in Hn'. destruct Hn' as [Hb Haw].
  destruct (max_timestamp_spec batch old Hne) as (newest & Hm & _ & Hnew).
  { subst batch. apply filter_same_awareness. exact Haw. }
  exists newest. split; [exact Hnew|].
  rewrite (process_instance_parsed (mkInstanceEnv rep dl clk wr hk') id link path
             text m1 (download_dir m1) sq batch old Hw Hlk (download_again _ _ _ _ _ _ Hd) Ht Hp Hsq).
  - cbn [alert_writable hook]. rewrite Hwr, Hs, Hm.
    destruct batch; [congruence|reflexivity].
  - unfold cursor in *. rewrite Hl. exact Hc.
  - exact Hn.
Qed.

(** ** Invariants of the poll loop *)

Section LoopInvariant.

Context {St B : Type}.
Variable body : nat -> string -> St -> result unit * St * list (event B).
Variable Inv : St -> list (event B) -> Prop.

Hypothesis Inv_body :
  forall c id s pre r s' evs,
    Inv s pre -> body c id s = (r, s', evs) -> Inv s' (pre ++ evs).
Hypothesis Inv_other :
  forall s pre ev,
    Inv s pre -> (forall id b, ev <> Delivered id b) -> Inv s (pre ++ [ev]).

Lemma for_instances_inv (c : nat) (ids : list string) (s s' : St)
    (pre evs : list (event B)) (r : result unit) :
  Inv s pre -> for_instances body c ids s = (r, s', evs) -> Inv s' (pre ++ evs).
Proof.
  revert s pre evs. induction ids as [|id rest IH]; intros s pre evs HI H.
  - cbn in H. inversion H; subst. rewrite app_nil_r. exact HI.
  - cbn [for_instances] in H.
    destruct (body c id s) as [[rb sb] evb] eqn:Hb.
    assert (HI1 : Inv s (pre ++ [Checked id])) by (apply Inv_other; [exact HI|discriminate]).
    pose proof (Inv_body _ _ _ _ _ _ _ HI1 Hb) as HI2.
    destruct rb as [u|ex].
    + destruct (for_instances body c rest sb) as [[r2 s2] ev2] eqn:Hr.
      inversion H; subst.
      pose proof (IH _ _ _ HI2 Hr) as HI3.
      replace (pre ++ Checked id :: evb ++ ev2)
        with (((pre ++ [Checked id]) ++ evb) ++ ev2)
        by (rewrite <- !app_assoc; reflexivity).
      exact HI3.
    + inversion H; subst.
      replace (pre ++ Checked id :: evb) with ((pre ++ [Checked id]) ++ evb)
        by (rewrite <- !app_assoc; reflexivity).
      exact HI2.
Qed.

Lemma cycle_inv (instances : list string) (interval : Z) (c : nat) (s s' : St)
    (pre evs : list (event B)) (go : bool) :
  Inv s pre -> cycle body instances interval c s = (go, s', evs) ->
  Inv s' (pre ++ evs).
Proof.
  intros HI H. unfold cycle in H.
  destruct (for_instances body c instances s) as [[r s1] ev1] eqn:Hf.
  pose proof (for_instances_inv _ _ _ _ _ _ _ HI Hf) as HI1.
  assert (Hsleep : Inv s1 ((pre ++ ev1) ++ [Slept interval]))
    by (apply Inv_other; [exact HI1|discriminate]).
  assert (Hlog : forall ex, Inv s1 (((pre ++ ev1) ++ [LoggedError ex]) ++ [Slept interval])).
  { intros ex. apply Inv_other; [|discriminate].
    apply Inv_other; [exact HI1|discriminate]. }
  assert (Hstop : Inv s1 ((pre ++ ev1) ++ [Stopped]))
    by (apply Inv_other; [exact HI1|discriminate]).
  destruct r as [u|ex].
  - inversion H; subst. rewrite app_assoc. exact Hsleep.
  - assert (Hgen : forall x, Inv s1 (pre ++ ev1 ++ [LoggedError x; Slept interval])).
    { intros x.
      replace (pre ++ ev1 ++ [LoggedError x; Slept interval])
        with (((pre ++ ev1) ++ [LoggedError x]) ++ [Slept interval])
        by (rewrite <- !app_assoc; reflexivity).
      apply Hlog. }
    destruct ex; inversion H; subst;
      first [apply Hgen | rewrite app_assoc; exact Hstop].
Qed.

Lemma run_inv (instances : list string) (interval : Z) (n c : nat) (s s' : St)
    (pre evs : list (event B)) :
  Inv s pre -> run body instances interval n c s = (s', evs) ->
  Inv s' (pre ++ evs).
Proof.
  revert c s pre evs. induction n as [|n IH]; intros c s pre evs HI H.
  - cbn in H. inversion H; subst. rewrite app_nil_r. exact HI.
  - cbn [run] in H.
    destruct (cycle body instances interval c s) as [[go s1] ev1] eqn:Hc.
    pose proof (cycle_inv _ _ _ _ _ _ _ _ HI Hc) as HI1.
    destruct go.
    + destruct (run body instances interval n (S c) s1) as [s2 ev2] eqn:Hr.
      inversion H; subst. rewrite app_assoc. exact (IH _ _ _ _ HI1 Hr).
    + inversion H; subst. exact HI1.
Qed.

End LoopInvariant.

(** ** The order of the deliveries *)

Lemma covered_other (m : monitor) (pre : list hw_event) (ev : hw_event) :
  covered m pre -> (forall id b, ev <> Delivered id b) -> covered m (pre ++ [ev]).
Proof.
  intros Hc Hev id b q Hin Hq. apply in_app_or in Hin.
  destruct Hin as [Hin|[Hin|[]]]; [exact (Hc id b q Hin Hq)|].
  exfalso. exact (Hev id b Hin).
Qed.

Lemma in_order_other (pre : list hw_event) (ev : hw_event) :
  in_order pre -> (forall id b, ev <> Delivered id b) -> in_order (pre ++ [ev]).
Proof.
  intros Ho Hev i j id b1 b2 q1 q2 Hij Hi Hj Hq1 Hq2.
  apply lookup_snoc_Some in Hi. apply lookup_snoc_Some in Hj.
  destruct Hj as [[_ Hj]|[_ Hj]]; [|exfalso; exact (Hev _ _ Hj)].
  destruct Hi as [[_ Hi]|[_ Hi]]; [|exfalso; exact (Hev _ _ Hi)].
  exact (Ho i j id b1 b2 q1 q2 Hij Hi Hj Hq1 Hq2).
Qed.

Lemma covered_same (m m' : monitor) (pre : list hw_event) :
  covered m pre -> last_process_time m' = last_process_time m -> covered m' pre.
Proof.
  intros Hc Hl id b q Hin Hq. unfold cursor. rewrite Hl. exact (Hc id b q Hin Hq).
Qed.

Lemma ordered_step (e : instance_env) (id : string) (m m' : monitor)
    (pre evs : list hw_event) :
  covered m pre /\ in_order pre ->
  process_instance e id m = (m', evs) ->
  covered m' (pre ++ evs) /\ in_order (pre ++ evs).
Proof.
  intros [Hc Ho] H.
  destruct (process_instance_cases e id m m' evs H)
    as [[Hl [->|[ex ->]]]|(b & delivered & ->)].
  - rewrite app_nil_r. split; [exact (covered_same _ _ _ Hc Hl)|exact Ho].
  - split; [|apply in_order_other; [exact Ho|discriminate]].
    apply covered_other; [exact (covered_same _ _ _ Hc Hl)|discriminate].
  - destruct delivered.
    + destruct (delivered_facts e id m m' b H)
        as (sq & old & newest & Hcur & Hb & _ & _ & _ & [_ Hmax] & Hlt & Hl).
      split.
      * intros id' b' q Hin Hq. apply in_app_or in Hin.
        destruct Hin as [Hin|[Hin|[]]].
        -- destruct (Hc id' b' q Hin Hq) as (cur & Hcur' & Hle).
           unfold cursor in *. rewrite Hl.
           destruct (decide (id' = id)) as [->|Hne].
           ++ rewrite lookup_insert_eq. exists newest. split; [reflexivity|].
              assert (cur = old) as -> by congruence. revert Hle Hlt.
              generalize (DT.instant (timestamp q)) (DT.instant old)
                         (DT.instant newest).
              intros; lia.
           ++ rewrite lookup_insert_ne by congruence. eauto.
        -- inversion Hin; subst id' b'. unfold cursor. rewrite Hl, lookup_insert_eq.
           exists newest. split; [reflexivity|]. apply Hmax. exact Hq.
      * intros i j id' b1 b2 q1 q2 Hij Hi Hj Hq1 Hq2.
        apply lookup_snoc_Some in Hi. apply lookup_snoc_Some in Hj.
        destruct Hi as [[Hilt Hi]|[Hi _]]; [|destruct Hj as [[? _]|[? _]]; lia].
        destruct Hj as [[_ Hj]|[_ Hj]];
          [exact (Ho i j id' b1 b2 q1 q2 Hij Hi Hj Hq1 Hq2)|].
        inversion Hj; subst id' b2.
        apply list_elem_of_lookup_2, list_elem_of_In in Hi.
        destruct (Hc id b1 q1 Hi Hq1) as (cur & Hcur' & Hle).
        assert (cur = old) as -> by congruence.
        subst b. apply List.filter_In in Hq2. destruct Hq2 as [_ Hq2].
        apply later_than_lt in Hq2. revert Hle Hq2.
        generalize (DT.instant (timestamp q1)) (DT.instant old)
                   (DT.instant (timestamp q2)).
        intros; lia.
    + apply (process_instance_batch e id m m' b false) in H.
      destruct H as (? & ? & ? & ? & ? & _ & _ & _ & _ & _ & _ & _ & _ & _ & _ & _ & Hl).
      split; [|apply in_order_other; [exact Ho|discriminate]].
      apply covered_other; [exact (covered_same _ _ _ Hc Hl)|discriminate].
Qed.

(** X3: in the trace of any number of passes of the Huawei monitor, from
    any state and whatever the world answers, every record of a batch
    delivered for an instance is later than every record of each batch
    delivered for that instance before. *)
Theorem no_record_is_alerted_twice
    (envs : nat -> string -> instance_env) (instances : list string)
    (interval : Z) (n c : nat) (m m' : monitor) (evs : list hw_event)
    (i j : nat) (id : string) (b1 b2 : list SlowQuery) (q1 q2 : SlowQuery) :
  huawei_run envs instances interval n c m = (m', evs) ->
  (i < j)%nat ->
  evs !! i = Some (Delivered id b1) ->
  evs !! j = Some (Delivered id b2) ->
  In q1 b1 -> In q2 b2 ->
  DT.instant (timestamp q1) < DT.instant (timestamp q2).
Proof.
  intros H. unfold huawei_run in H.
  assert (HI : covered m' ([] ++ evs) /\ in_order ([] ++ evs)).
  { apply (run_inv (huawei_body envs) (fun m evs => covered m evs /\ in_order evs))
      with (instances := instances) (interval := interval) (n := n) (c := c) (s := m).
    - intros c' id' s pre r s' evs' HI Hb. unfold huawei_body in Hb.
      destruct (process_instance (envs c' id') id' s) as [m1 ev1] eqn:Hp.
      inversion Hb; subst. exact (ordered_step _ _ _ _ _ _ HI Hp).
    - intros s pre ev [Hc Ho] Hev.
      split; [apply covered_other|apply in_order_other]; assumption.
    - split; [intros ? ? ? []|].
      intros ? ? ? ? ? ? ? ? Hi. rewrite lookup_nil in Hi. discriminate.
    - exact H. }
  destruct HI as [_ Ho]. cbn [app] in Ho. apply Ho.
Qed.

(** ** Records from before the start *)

Lemma init_cursors_lookup (clock : nat -> Z) (instances : list string) (k : nat)
    (start : gmap string datetime) (id : string) (t : datetime) :
  init_cursors clock k instances start !! id = Some t ->
  (exists j, instances !! j = Some id /\ t = Cal.now DT.shanghai (clock (k + j)%nat))
  \/ start !! id = Some t.
Proof.
  revert k start. induction instances as [|i rest IH]; intros k start H.
  - right. exact H.
  - cbn [init_cursors] in H. apply IH in H. destruct H as [(j & Hj & Ht)|H].
    + left. exists (S j). split; [exact Hj|].
      rewrite Ht. do 2 f_equal. lia.
    + destruct (decide (i = id)) as [->|Hne].
      * rewrite lookup_insert_eq in H. inversion H; subst.
        left. exists O. split; [reflexivity|]. do 2 f_equal. lia.
      * rewrite lookup_insert_ne in H by congruence. right. exact H.
Qed.

Lemma after_start_other (m0 m : monitor) (pre : list hw_event) (ev : hw_event) :
  after_start m0 m pre -> (forall id b, ev <> Delivered id b) ->
  after_start m0 m (pre ++ [ev]).
Proof.
  intros [Hle Hev] Hne. split; [exact Hle|].
  intros id b q Hin Hq. apply in_app_or in Hin.
  destruct Hin as [Hin|[Hin|[]]]; [exact (Hev id b q Hin Hq)|].
  exfalso. exact (Hne id b Hin).
Qed.

Lemma after_start_step (e : instance_env) (id : string) (m0 m m' : monitor)
    (pre evs : list hw_event) :
  after_start m0 m pre ->
  process_instance e id m = (m', evs) ->
  after_start m0 m' (pre ++ evs).
Proof.
  intros [Hle Hev] H. split.
  - intros i. apply (cursor_le_trans _ (cursor m i)); [apply Hle|].
    pose proof (process_instance_monotone e id i m) as Hm.
    rewrite H in Hm. exact Hm.
  - intros id' b q Hin Hq. apply in_app_or in Hin.
    destruct Hin as [Hin|Hin]; [exact (Hev id' b q Hin Hq)|].
    destruct (process_instance_cases e id m m' evs H)
      as [[_ [->|[ex ->]]]|(b' & delivered & ->)].
    + destruct Hin.
    + destruct Hin as [Hin|[]]. discriminate.
    + destruct delivered; destruct Hin as [Hin|[]]; [|discriminate].
      inversion Hin; subst id' b'.
      destruct (delivered_facts e id m m' b H)
        as (sq & old & newest & Hcur & Hb & _).
      specialize (Hle id). rewrite Hcur in Hle.
      destruct (cursor m0 id) as [start|]; [|destruct Hle].
      exists start. split; [reflexivity|].
      subst b. apply List.filter_In in Hq. destruct Hq as [_ Hq].
      apply later_than_lt in Hq. apply later_than_lt.
      destruct Hle as [Hle _]. revert Hle Hq.
      generalize (DT.instant start) (DT.instant old) (DT.instant (timestamp q)).
      intros; lia.
Qed.

(** X4: started with the cursors [__init__] sets, the Huawei monitor only
    ever delivers records later than the [datetime.now] read for their
    instance at the start. *)
Theorem records_before_the_start_are_never_alerted
    (clock : nat -> Z) (envs : nat -> string -> instance_env)
    (instances : list string) (interval : Z) (dir : gmap string string)
    (n c : nat) (m' : monitor) (evs : list hw_event)
    (id : string) (b : list SlowQuery) (q : SlowQuery) :
  huawei_run envs instances interval n c
             (mkMonitor (init_cursors clock 0 instances ∅) dir) = (m', evs) ->
  In (Delivered id b) evs -> In q b ->
  exists k, instances !! k = Some id
            /\ later_than (Cal.now DT.shanghai (clock k)) q = true.
Proof.
  intros H Hin Hq. unfold huawei_run in H.
  set (m0 := mkMonitor (init_cursors clock 0 instances ∅) dir) in *.
  assert (HI : after_start m0 m' ([] ++ evs)).
  { apply (run_inv (huawei_body envs) (after_start m0))
      with (instances := instances) (interval := interval) (n := n) (c := c) (s := m0).
    - intros c' id' s pre r s' evs' HI Hb. unfold huawei_body in Hb.
      destruct (process_instance (envs c' id') id' s) as [m1 ev1] eqn:Hp.
      inversion Hb; subst. exact (after_start_step _ _ _ _ _ _ _ HI Hp).
    - intros s pre ev HI Hev. apply after_start_other; assumption.
    - split; [intros i; apply cursor_le_refl|intros ? ? ? []].
    - exact H. }
  destruct HI as [_ Hev]. destruct (Hev id b q Hin Hq) as (start & Hs & Hl).
  unfold m0, cursor in Hs. cbn [last_process_time] in Hs.
  apply init_cursors_lookup in Hs. destruct Hs as [(j & Hj & ->)|Hs].
  - exists j. split; [exact Hj|exact Hl].
  - rewrite lookup_empty in Hs. discriminate.
Qed.

Lemma delivered_batch_witness :
  process_instance (ready_env aware_log webhook_ok) "rds-1"
    (mkMonitor (<["rds-1" := may_1 2 5]> {["rds-1" := may_1 2 0]})
               {["slowlog_download_1" := aware_log]})
  = (mkMonitor (<["rds-1" := may_1 2 5]> {["rds-1" := may_1 2 0]})
               {["slowlog_download_1" := aware_log]}, []).
Proof.
  apply (delivered_batch_is_not_sent_again (ready_env aware_log webhook_ok) "rds-1"
           monitor_at_0200 _ [aware_record 5 "SELECT 2;"]).
  vm_compute. reflexivity.
Defined.

Lemma refused_batch_witness :
  exists newest,
    is_newest newest [aware_record 5 "SELECT 2;"]
    /\ process_instance (ready_env aware_log webhook_ok) "rds-1"
         (mkMonitor {["rds-1" := may_1 2 0]} {["slowlog_download_1" := aware_log]})
       = (mkMonitor (<["rds-1" := newest]> {["rds-1" := may_1 2 0]})
                    {["slowlog_download_1" := aware_log]},
          [Delivered "rds-1" [aware_record 5 "SELECT 2;"]]).
Proof.
  assert (H : process_instance (ready_env aware_log webhook_refuses) "rds-1"
                monitor_at_0200
              = (mkMonitor {["rds-1" := may_1 2 0]}
                           {["slowlog_download_1" := aware_log]},
                 [Undelivered "rds-1" [aware_record 5 "SELECT 2;"]]))
    by (vm_compute; reflexivity).
  exact (refused_batch_is_sent_again _ _ _ _ webhook_refuses webhook_ok "rds-1"
           monitor_at_0200 _ [aware_record 5 "SELECT 2;"] H eq_refl).
Defined.

Lemma no_record_twice_witness :
  DT.instant (timestamp (aware_record 5 "SELECT 2;"))
  < DT.instant (timestamp (record_at (may_1 2 10) "SELECT 3;")).
Proof.
  apply (no_record_is_alerted_twice two_passes ["rds-1"] 60 2 0 monitor_at_0200
           (mkMonitor (<["rds-1" := may_1 2 10]> {["rds-1" := may_1 2 0]})
                      {["slowlog_download_1" := later_log]})
           [Checked "rds-1"; Delivered "rds-1" [aware_record 5 "SELECT 2;"]; Slept 60;
            Checked "rds-1"; Delivered "rds-1" [record_at (may_1 2 10) "SELECT 3;"];
            Slept 60]
           1 4 "rds-1" [aware_record 5 "SELECT 2;"] [record_at (may_1 2 10) "SELECT 3;"]).
  - vm_compute. reflexivity.
  - lia.
  - reflexivity.
  - reflexivity.
  - left. reflexivity.
  - left. reflexivity.
Defined.

Lemma records_before_the_start_witness :
  exists k, ["rds-1"] !! k = Some "rds-1"
            /\ later_than (Cal.now DT.shanghai (at_time (may_1 2 0) k))
                          (aware_record 5 "SELECT 2;") = true.
Proof.
  apply (records_before_the_start_are_never_alerted (at_time (may_1 2 0))
           (fun _ _ => ready_env aware_log webhook_ok) ["rds-1"] 60 ∅ 1 0
           (mkMonitor (<["rds-1" := may_1 2 5]> {["rds-1" := may_1 2 0]})
                      {["slowlog_download_1" := aware_log]})
           [Checked "rds-1"; Delivered "rds-1" [aware_record 5 "SELECT 2;"]; Slept 60]
           "rds-1" [aware_record 5 "SELECT 2;"]).
  - vm_compute. reflexivity.
  - right. left. reflexivity.
  - left. reflexivity.
Defined.

(** ** The blocks of the slow log *)

Section BlockFacts.

(** [datetime.fromisoformat] of the Python that runs the monitor. *)
Variable iso : string -> option datetime.

Lemma parse_lines_app (clock : nat -> Z) (a b : list string) (st : pstate) :
  Parser.parse_lines iso clock st (a ++ b)
  = Parser.parse_lines iso clock st a
    ≫= fun st' => Parser.parse_lines iso clock st' b.
Proof.
  revert st. induction a as [|l a IH]; intros st; [reflexivity|].
  cbn [app Parser.parse_lines].
  destruct (Parser.parse_line iso clock st l) as [st1|]; cbn [mbind result_bind];
    [apply IH|reflexivity].
Qed.

(** Before the first time marker no line changes the state of the loop. *)
Lemma parse_line_before_marker (clock : nat -> Z) (st : pstate) (raw : string) :
  current_query st = None -> is_time_marker raw = false ->
  Parser.parse_line iso clock st raw = Ok st.
Proof.
  intros Hq. unfold is_time_marker, Parser.parse_line.
  destruct (Re.nonempty (Str.strip raw)); cbn [negb andb]; [|reflexivity].
  intros ->. rewrite Hq.
  repeat match goal with
         | |- context [if ?b then _ else _] => destruct b
         end; reflexivity.
Qed.

Lemma parse_lines_before_marker (clock : nat -> Z) (st : pstate) (pre : list string) :
  current_query st = None ->
  Forall (fun l => is_time_marker l = false) pre ->
  Parser.parse_lines iso clock st pre = Ok st.
Proof.
  intros Hq Hpre. induction Hpre as [|l pre Hl _ IH]; [reflexivity|].
  cbn [Parser.parse_lines]. rewrite (parse_line_before_marker _ _ _ Hq Hl).
  exact IH.
Qed.

(** What [flush] does to the records and the statement lines. *)
Lemma flush_sql (clock : nat -> Z) (st st' : pstate) :
  Parser.flush clock st = Ok st' ->
  sql_lines st' = sql_lines st
  /\ seen st' = seen st
  /\ (slow_queries st' = slow_queries st
      \/ exists r, sql_lines st <> []
                   /\ seen st = true
                   /\ slow_queries st' = slow_queries st ++ [r]
                   /\ sql_text r = Str.join_nl (sql_lines st)).
Proof.
  unfold Parser.flush, seen.
  destruct (current_query st) as [q|] eqn:Hq; [|intros [= <-]; rewrite Hq; auto].
  destruct (sql_lines st) as [|l ls] eqn:Hs; [intros [= <-]; rewrite Hq; auto|].
  destruct (_is_valid_query _ _); [|intros [= <-]; cbn; auto].
  destruct (_create_slow_query _) as [r|] eqn:Hr; cbn [mbind result_bind];
    [|discriminate].
  intros [= <-]. cbn. repeat split. right. exists r.
  repeat split; [discriminate|].
  revert Hr. unfold _create_slow_query.
  destruct q as [[ts|] ? ? ? ? ? ? ? ? ? ? ? ? ?]; cbn; [|discriminate].
  intros [= <-]. reflexivity.
Qed.

(** A time-marker line closes the open block and opens one with the
    timestamp read on the line. *)
Lemma parse_line_marker (clock : nat -> Z) (st st' : pstate) (raw : string) :
  is_time_marker raw = true ->
  Parser.parse_line iso clock st raw = Ok st' ->
  exists st1 t,
    Parser.flush clock st = Ok st1
    /\ block_stamp iso raw = Some t
    /\ st' = mkP (slow_queries st1) (Some (Query.new t)) [] (reads st1).
Proof.
  unfold is_time_marker, Parser.parse_line, block_stamp.
  intros Hm. apply andb_prop in Hm. destruct Hm as [-> ->]. cbn [negb].
  destruct (Parser.flush clock st) as [st1|]; cbn [mbind result_bind]; [|discriminate].
  destruct (item1 (Str.split "Time: " (Str.strip raw))) as [piece|];
    cbn [mbind result_bind]; [|discriminate].
  unfold fromisoformat.
  destruct (iso piece) as [t|]; cbn [mbind result_bind]; [|discriminate].
  intros [= <-]. exists st1, t. auto.
Qed.

Lemma startswith_hash (p line : string) :
  Str.startswith "#" line = false ->
  Str.startswith (String "#" p) line = false.
Proof.
  destruct line as [|c line]; [reflexivity|].
  cbn [Str.startswith]. rewrite andb_true_r. intros ->. reflexivity.
Qed.

Lemma comment_is_no_statement (p : string) (raw : string) :
  Str.startswith (String "#" p) (Str.strip raw) = true ->
  is_statement raw = false.
Proof.
  intros H. unfold is_statement, Parser.is_sql_line.
  destruct (Str.startswith "#" (Str.strip raw)) eqn:Hh.
  - cbn [negb andb]. rewrite andb_false_r. reflexivity.
  - rewrite (startswith_hash p _ Hh) in H. discriminate.
Qed.

(** Any other line leaves the records, the readings of the clock and the
    timestamp of the open block as they are, and is appended to the
    statement exactly when it is a statement line. *)
Lemma parse_line_body (clock : nat -> Z) (st st' : pstate) (raw : string) :
  is_time_marker raw = false -> seen st = true ->
  Parser.parse_line iso clock st raw = Ok st' ->
  slow_queries st' = slow_queries st
  /\ reads st' = reads st
  /\ cur_ts st' = cur_ts st
  /\ seen st' = true
  /\ sql_lines st' = sql_lines st ++ statement_lines [raw].
Proof.
  unfold is_time_marker, Parser.parse_line, statement_lines, seen, cur_ts.
  cbn [List.filter].
  destruct (current_query st) as [q|] eqn:Hq; [|discriminate].
  destruct (Re.nonempty (Str.strip raw)) eqn:Hne; cbn [negb andb].
  2:{ intros _ _ [= <-]. unfold is_statement. rewrite Hne, Hq. cbn.
      rewrite app_nil_r. auto. }
  intros -> _.
  destruct (Str.startswith "# User@Host:" (Str.strip raw)) eqn:Hu.
  { rewrite (comment_is_no_statement _ _ Hu).
    destruct (item1 _) as [v|]; cbn [mbind result_bind]; [|discriminate].
    intros [= <-]. cbn. rewrite app_nil_r. destruct q. auto. }
  destruct (Str.startswith "# Query_time:" (Str.strip raw)) eqn:Hqt.
  { rewrite (comment_is_no_statement _ _ Hqt).
    destruct (Parser.metrics iso (Str.strip raw) q) as [q'|] eqn:Hm;
      cbn [mbind result_bind]; [|discriminate].
    intros [= <-]. cbn. rewrite app_nil_r.
    rewrite (metrics_timestamp iso _ _ _ Hm). auto. }
  destruct (Str.startswith "# QC_Hit:" (Str.strip raw)) eqn:Hqc.
  { rewrite (comment_is_no_statement _ _ Hqc).
    intros [= <-]. cbn. rewrite app_nil_r. destruct q. auto. }
  unfold is_statement. rewrite Hne.
  destruct (Parser.is_sql_line (Str.strip raw)); cbn [andb].
  2:{ intros [= <-]. rewrite ?Hq. cbn. rewrite app_nil_r. auto. }
  destruct (Str.startswith "SET timestamp=" (Str.strip raw)); cbn [negb].
  - intros [= <-]. rewrite ?Hq. cbn. rewrite app_nil_r. auto.
  - intros [= <-]. cbn. rewrite ?Hq. auto.
Qed.

Lemma statement_lines_cons (raw : string) (body : list string) :
  statement_lines (raw :: body) = statement_lines [raw] ++ statement_lines body.
Proof.
  unfold statement_lines. cbn [List.filter].
  destruct (is_statement raw); reflexivity.
Qed.

(** The blocks after the first count their readings of the clock from
    where the first leaves off. *)
Lemma yielding_cons (clock : nat -> Z) (k : nat)
    (stamp : option datetime) (lines : list string)
    (rest : list (option datetime * list string)) :
  yielding clock k ((stamp, lines) :: rest)
  = yielding clock k [(stamp, lines)]
    ++ yielding clock (match lines with [] => k | _ => S k end) rest.
Proof.
  cbn [yielding]. destruct lines as [|l lines]; [reflexivity|].
  destruct stamp as [t|]; [|reflexivity].
  destruct (DT.date_eqb _ _); reflexivity.
Qed.

(** What closing the open block adds to the records. *)
Lemma flush_yields (clock : nat -> Z) (st st' : pstate) (t : datetime) :
  cur_ts st = Some t ->
  Parser.flush clock st = Ok st' ->
  map stamp_and_statement (slow_queries st')
  = map stamp_and_statement (slow_queries st)
    ++ yielding clock (reads st) [(Some t, sql_lines st)]
  /\ reads st' = match sql_lines st with [] => reads st | _ => S (reads st) end.
Proof.
  unfold cur_ts, Parser.flush. destruct (current_query st) as [q|] eqn:Hq; [|discriminate].
  intros Hts. cbn [yielding].
  destruct (sql_lines st) as [|l ls] eqn:Hs.
  { intros [= <-]. rewrite app_nil_r. auto. }
  unfold _is_valid_query. rewrite set_sql_text_timestamp, Hts.
  destruct (DT.date_eqb _ _).
  - unfold _create_slow_query. rewrite set_sql_text_timestamp, Hts.
    cbn [mbind result_bind]. intros [= <-]. cbn [slow_queries reads].
    rewrite map_app. split; [|reflexivity]. f_equal.
    destruct q. reflexivity.
  - intros [= <-]. cbn [slow_queries reads]. rewrite app_nil_r. auto.
Qed.

(** The lines that follow a time marker: the records are those of the open
    block, with the lines up to the next marker, and of the blocks after
    it. *)
Lemma parse_lines_open (clock : nat -> Z) (ls : list string) :
  forall (st st' st'' : pstate) (t : datetime),
    cur_ts st = Some t ->
    Parser.parse_lines iso clock st ls = Ok st' ->
    Parser.flush clock st' = Ok st'' ->
    map stamp_and_statement (slow_queries st'')
    = map stamp_and_statement (slow_queries st)
      ++ yielding clock (reads st)
           ((Some t, sql_lines st ++ statement_lines (body_of ls))
            :: blocks_of iso ls).
Proof.
  induction ls as [|raw rest IH]; intros st st' st'' t Hts;
    cbn [Parser.parse_lines body_of blocks_of].
  - intros [= <-] Hf. change (statement_lines []) with (@nil string).
    rewrite app_nil_r. apply (flush_yields clock st st'' t Hts Hf).
  - destruct (Parser.parse_line iso clock st raw) as [st1|] eqn:Hline;
      cbn [mbind result_bind]; [|discriminate].
    intros Hrest Hf.
    assert (Hseen : seen st = true).
    { unfold seen. unfold cur_ts in Hts. destruct (current_query st); [reflexivity|discriminate]. }
    destruct (is_time_marker raw) eqn:Hm.
    + destruct (parse_line_marker clock st st1 raw Hm Hline)
        as (stf & t2 & Hflush & Hstamp & ->).
      destruct (flush_yields clock st stf t Hts Hflush) as [Hrec Hreads].
      rewrite (IH (mkP (slow_queries stf) (Some (Query.new t2)) [] (reads stf))
                  st' st'' t2 eq_refl Hrest Hf).
      cbn [slow_queries reads sql_lines app].
      rewrite Hrec, Hstamp. change (statement_lines []) with (@nil string).
      rewrite app_nil_r, <- app_assoc. f_equal.
      rewrite Hreads. symmetry. apply yielding_cons.
    + destruct (parse_line_body clock st st1 raw Hm Hseen Hline)
        as (Hq & Hr & Hc & _ & Hs).
      rewrite (IH st1 st' st'' t (eq_trans Hc Hts) Hrest Hf), Hq, Hr, Hs.
      rewrite (statement_lines_cons raw (body_of rest)), app_assoc. reflexivity.
Qed.

(** The lines of a file from its head: the records are those of its
    blocks. *)
Lemma parse_lines_closed (clock : nat -> Z) (ls : list string) :
  forall (st st' st'' : pstate),
    current_query st = None ->
    Parser.parse_lines iso clock st ls = Ok st' ->
    Parser.flush clock st' = Ok st'' ->
    map stamp_and_statement (slow_queries st'')
    = map stamp_and_statement (slow_queries st)
      ++ yielding clock (reads st) (blocks_of iso ls).
Proof.
  induction ls as [|raw rest IH]; intros st st' st'' Hq;
    cbn [Parser.parse_lines blocks_of].
  - intros [= <-]. unfold Parser.flush. rewrite Hq. intros [= <-].
    rewrite app_nil_r. reflexivity.
  - destruct (Parser.parse_line iso clock st raw) as [st1|] eqn:Hline;
      cbn [mbind result_bind]; [|discriminate].
    intros Hrest Hf. destruct (is_time_marker raw) eqn:Hm.
    + destruct (parse_line_marker clock st st1 raw Hm Hline)
        as (stf & t2 & Hflush & Hstamp & ->).
      unfold Parser.flush in Hflush. rewrite Hq in Hflush. injection Hflush as <-.
      rewrite (parse_lines_open clock rest
                 (mkP (slow_queries st) (Some (Query.new t2)) [] (reads st))
                 st' st'' t2 eq_refl Hrest Hf), Hstamp.
      reflexivity.
    + rewrite (parse_line_before_marker clock st raw Hq Hm) in Hline.
      injection Hline as <-. apply (IH st st' st'' Hq Hrest Hf).
Qed.

Lemma join_nl_nonempty (body : list string) :
  body <> [] -> Forall (fun l => Re.nonempty l = true) body ->
  Re.nonempty (Str.join_nl body) = true.
Proof.
  intros Hne Hall. destruct body as [|x rest]; [congruence|].
  inversion Hall as [|? ? Hx _]; subst.
  destruct x as [|c x]; [discriminate|].
  cbn [Str.join_nl]. destruct rest; reflexivity.
Qed.

Lemma statement_lines_nonempty (body : list string) :
  Forall (fun l => Re.nonempty l = true) (statement_lines body).
Proof.
  unfold statement_lines. apply List.Forall_forall. intros l Hl.
  apply List.in_map_iff in Hl. destruct Hl as (raw & <- & Hraw).
  apply List.filter_In in Hraw. destruct Hraw as [_ Hs].
  unfold is_statement in Hs. rewrite !andb_true_iff in Hs. tauto.
Qed.

Lemma blocks_of_nonempty (ls : list string) :
  Forall (fun b => Forall (fun l => Re.nonempty l = true) (snd b)) (blocks_of iso ls).
Proof.
  induction ls as [|l rest IH]; cbn [blocks_of]; [constructor|].
  destruct (is_time_marker l); [|exact IH].
  constructor; [apply statement_lines_nonempty|exact IH].
Qed.

(** No statement that the blocks yield is empty. *)
Lemma yielding_nonempty (clock : nat -> Z)
    (blocks : list (option datetime * list string)) (k : nat) :
  Forall (fun b => Forall (fun l => Re.nonempty l = true) (snd b)) blocks ->
  Forall (fun p => snd p <> EmptyString) (yielding clock k blocks).
Proof.
  intros H. revert k. induction H as [|[stamp lines] blocks Hb _ IH]; intros k;
    cbn [yielding]; [constructor|].
  destruct lines as [|l lines]; [apply IH|].
  destruct stamp as [t|]; [|apply IH].
  destruct (DT.date_eqb _ _); [|apply IH].
  constructor; [|apply IH]. cbn [snd] in *.
  intros Heq. pose proof (join_nl_nonempty (l :: lines)) as Hn.
  rewrite Heq in Hn. discriminate Hn; [discriminate|exact Hb].
Qed.

Lemma flush_count (clock : nat -> Z) (st st' : pstate) :
  Parser.flush clock st = Ok st' ->
  seen st' = seen st
  /\ (List.length (slow_queries st')
      <= List.length (slow_queries st) + (if seen st then 1 else 0))%nat.
Proof.
  intros H. apply flush_sql in H.
  destruct H as (_ & Hs & [Hq|(r & _ & Hseen & Hq & _)]); split; try exact Hs.
  - rewrite Hq. lia.
  - rewrite Hq, Hseen, List.length_app. cbn [List.length]. lia.
Qed.

Lemma parse_lines_count (clock : nat -> Z) (ls : list string) (st st' : pstate) :
  Parser.parse_lines iso clock st ls = Ok st' ->
  (List.length (slow_queries st') + (if seen st' then 1 else 0)
   <= List.length (slow_queries st) + (if seen st then 1 else 0) + count_markers ls)%nat.
Proof.
  revert st. induction ls as [|raw rest IH]; intros st; cbn [Parser.parse_lines].
  - intros [= <-]. lia.
  - destruct (Parser.parse_line iso clock st raw) as [st1|] eqn:Hline;
      cbn [mbind result_bind]; [|discriminate].
    intros Hrest. apply IH in Hrest.
    unfold count_markers in *. cbn [List.filter].
    destruct (is_time_marker raw) eqn:Hm.
    + destruct (parse_line_marker clock st st1 raw Hm Hline)
        as (stf & t2 & Hflush & _ & ->).
      apply flush_count in Hflush. destruct Hflush as [_ Hflush].
      cbn [slow_queries seen current_query] in Hrest. cbn [List.length]. lia.
    + destruct (seen st) eqn:Hseen.
      * destruct (parse_line_body clock st st1 raw Hm Hseen Hline)
          as (Hq & _ & _ & Hs & _).
        rewrite Hq, Hs in Hrest. lia.
      * assert (Hnone : current_query st = None).
        { unfold seen in Hseen. destruct (current_query st); [discriminate|reflexivity]. }
        rewrite (parse_line_before_marker clock st raw Hnone Hm) in Hline.
        injection Hline as <-. rewrite Hseen in Hrest. lia.
Qed.

End BlockFacts.

(** X5: the lines before the first [# Time:] line play no part: a file
    whose lines are lines without a time marker followed by the lines of
    [text'] is parsed exactly as [text'] is (same records or same
    exception). *)
Theorem lines_before_the_first_marker_are_ignored
    (clock : nat -> Z) (text text' : string) (pre : list string) :
  Str.lines text = pre ++ Str.lines text' ->
  Forall (fun l => is_time_marker l = false) pre ->
  parse_slow_log clock text = parse_slow_log clock text'.
Proof.
  intros Hlines Hpre. unfold parse_slow_log, parse_slow_log_with, whole.
  cbn [lines_read read_error].
  rewrite Hlines, parse_lines_app.
  rewrite (parse_lines_before_marker Iso.fromisoformat clock Parser.init pre eq_refl Hpre).
  reflexivity.
Qed.

(** X6: the records come from the blocks of the file, a block being a
    [# Time:] line and the lines up to the next one. In the order of the
    file, each block with at least one statement line (a line that, once
    stripped, is not empty, is neither a comment nor boilerplate of the
    file head and does not start with [SET timestamp=]) and whose marker
    carries, as written, the date of the day in Asia/Shanghai yields
    exactly one record, with the timestamp read on its marker and the
    stripped statement lines of that block and no other, joined by
    newlines, as its statement; a block without a statement line yields no
    record. What the parser returns is the stable sort of those records,
    and no statement is empty. *)
Theorem every_record_has_its_statement
    (iso : string -> option datetime) (clock : nat -> Z) (file : reading)
    (out : list SlowQuery) :
  parse_slow_log_with iso clock file = Ok out ->
  exists l,
    accepted_with iso clock (lines_read file) = Ok l
    /\ out = Sort.stable_sort l
    /\ map stamp_and_statement l
       = yielding clock 0 (blocks_of iso (lines_read file))
    /\ Forall (fun r => sql_text r <> EmptyString) out.
Proof.
  intros H. apply parse_slow_log_read in H. destruct H as [_ H].
  apply parse_slow_log_ok in H. destruct H as (l & Hacc & _ & ->).
  exists l. split; [exact Hacc|]. split; [reflexivity|].
  unfold accepted_with in Hacc.
  destruct (Parser.parse_lines iso clock Parser.init (lines_read file))
    as [st|] eqn:Hp; cbn [mbind result_bind] in Hacc; [|discriminate].
  destruct (Parser.flush clock st) as [st'|] eqn:Hf;
    cbn [mbind result_bind] in Hacc; [|discriminate].
  injection Hacc as <-.
  pose proof (parse_lines_closed iso clock (lines_read file) Parser.init st st'
                eq_refl Hp Hf) as Hrec.
  cbn [Parser.init slow_queries reads map app] in Hrec.
  split; [exact Hrec|].
  pose proof (yielding_nonempty clock _ O (blocks_of_nonempty iso (lines_read file)))
    as Hne.
  rewrite <- Hrec in Hne. rewrite List.Forall_forall in *. intros r Hr.
  apply (Permutation_in _ (stable_sort_perm (slow_queries st'))) in Hr.
  apply (Hne (stamp_and_statement r)). apply List.in_map. exact Hr.
Qed.

(** X7: [parse_slow_log] returns at most as many records as the file has
    [# Time:] lines. *)
Theorem at_most_one_record_per_marker
    (clock : nat -> Z) (text : string) (out : list SlowQuery) :
  parse_slow_log clock text = Ok out ->
  (List.length out <= count_markers (Str.lines text))%nat.
Proof.
  intros H. apply (parse_slow_log_ok Iso.fromisoformat clock (Str.lines text)) in H.
  destruct H as (l & Hacc & _ & ->).
  rewrite (Permutation_length (stable_sort_perm l)).
  unfold accepted_with in Hacc.
  destruct (Parser.parse_lines Iso.fromisoformat clock Parser.init (Str.lines text))
    as [st|] eqn:Hp; cbn [mbind result_bind] in Hacc; [|discriminate].
  destruct (Parser.flush clock st) as [st'|] eqn:Hf;
    cbn [mbind result_bind] in Hacc; [|discriminate].
  injection Hacc as <-.
  apply parse_lines_count in Hp. apply flush_count in Hf.
  cbn in Hp. destruct Hf as [_ Hf]. destruct (seen st); lia.
Qed.

(** ** The sort is stable *)

(** Two records whose keys differ can be swapped before a selection by key. *)
Lemma select_swap (key : SlowQuery -> Z) (k : Z) (x y : SlowQuery)
    (t : list SlowQuery) :
  key y < key x ->
  (if key y =? k then y :: (if key x =? k then x :: t else t)
   else (if key x =? k then x :: t else t))
  = (if key x =? k then x :: (if key y =? k then y :: t else t)
     else (if key y =? k then y :: t else t)).
Proof.
  intros Hlt.
  destruct (Z.eqb_spec (key y) k) as [Hy|_], (Z.eqb_spec (key x) k) as [Hx|_];
    try reflexivity.
  exfalso. lia.
Qed.

Lemma insert_filter (k : Z) (x : SlowQuery) (l : list SlowQuery) :
  List.filter (fun r => Sort.key r =? k) (Sort.insert x l)
  = List.filter (fun r => Sort.key r =? k) (x :: l).
Proof.
  induction l as [|y l IH]; [reflexivity|].
  cbn [Sort.insert]. destruct (Z.ltb_spec (Sort.key y) (Sort.key x)) as [Hlt|_];
    [|reflexivity].
  change (List.filter (fun r => Sort.key r =? k) (y :: Sort.insert x l))
    with (if Sort.key y =? k
          then y :: List.filter (fun r => Sort.key r =? k) (Sort.insert x l)
          else List.filter (fun r => Sort.key r =? k) (Sort.insert x l)).
  rewrite IH.
  exact (select_swap Sort.key k x y (List.filter (fun r => Sort.key r =? k) l) Hlt).
Qed.

Lemma stable_sort_filter (k : Z) (l : list SlowQuery) :
  List.filter (fun r => Sort.key r =? k) (Sort.stable_sort l)
  = List.filter (fun r => Sort.key r =? k) l.
Proof.
  induction l as [|x l IH]; [reflexivity|].
  change (Sort.stable_sort (x :: l)) with (Sort.insert x (Sort.stable_sort l)).
  rewrite insert_filter. cbn [List.filter]. rewrite IH. reflexivity.
Qed.

Lemma stable_sort_sorted_id (l : list SlowQuery) :
  StronglySorted key_le l -> Sort.stable_sort l = l.
Proof.
  induction 1 as [|x l Hs IH Hx]; [reflexivity|].
  change (Sort.stable_sort (x :: l)) with (Sort.insert x (Sort.stable_sort l)).
  rewrite IH. destruct l as [|y l']; [reflexivity|].
  cbn [Sort.insert]. inversion Hx as [|? ? Hle _]; subst.
  destruct (Z.ltb_spec (Sort.key y) (Sort.key x)) as [Hlt|_]; [|reflexivity].
  exfalso. unfold key_le in Hle. revert Hle Hlt.
  generalize (Sort.key y) (Sort.key x). intros; lia.
Qed.

(** X8: the sort of [parse_slow_log] is stable: the records with one and the
    same timestamp come out in the order of the file, and accepted records
    that are in time order already come out as they are. *)
Theorem sort_keeps_the_order_of_the_file
    (clock : nat -> Z) (text : string) (out : list SlowQuery) :
  parse_slow_log clock text = Ok out ->
  exists l,
    accepted clock text = Ok l
    /\ (forall k, List.filter (fun r => Sort.key r =? k) out
                  = List.filter (fun r => Sort.key r =? k) l)
    /\ (StronglySorted key_le l -> out = l).
Proof.
  intros H. apply (parse_slow_log_ok Iso.fromisoformat clock (Str.lines text)) in H.
  destruct H as (l & Hacc & _ & ->).
  exists l. split; [exact Hacc|]. split.
  - intros k. apply stable_sort_filter.
  - apply stable_sort_sorted_id.
Qed.

Lemma lines_before_the_first_marker_witness :
  parse_slow_log (at_time may_1_noon) example_log_with_head
  = parse_slow_log (at_time may_1_noon) example_log.
Proof.
  apply (lines_before_the_first_marker_are_ignored (at_time may_1_noon)
           example_log_with_head example_log
           ["Tcp port: 3306  Unix socket: /tmp/mysql.sock"; "SELECT 0;"]).
  - vm_compute. reflexivity.
  - repeat constructor.
Defined.

Lemma every_record_has_its_statement_witness :
  exists l,
    accepted (at_time may_1_noon) reversed_log = Ok l
    /\ [example_record 0 "SELECT 1;"; example_record 5 "SELECT 2;"]
       = Sort.stable_sort l
    /\ map stamp_and_statement l
       = [(mkDT 2024 5 1 2 5 0 0 None, "SELECT 2;");
          (mkDT 2024 5 1 2 0 0 0 None, "SELECT 1;")]
    /\ Forall (fun r => sql_text r <> EmptyString)
              [example_record 0 "SELECT 1;"; example_record 5 "SELECT 2;"].
Proof.
  destruct (every_record_has_its_statement Iso.fromisoformat (at_time may_1_noon)
              (whole reversed_log)
              [example_record 0 "SELECT 1;"; example_record 5 "SELECT 2;"])
    as (l & Hacc & Hout & Hmap & Hne).
  { vm_compute. reflexivity. }
  exists l. split; [exact Hacc|]. split; [exact Hout|]. split; [|exact Hne].
  rewrite Hmap. vm_compute. reflexivity.
Defined.

Lemma at_most_one_record_per_marker_witness :
  (List.length [example_record 0 "SELECT 1;"; example_record 5 "SELECT 2;"]
   <= count_markers (Str.lines example_log))%nat.
Proof.
  apply (at_most_one_record_per_marker (at_time may_1_noon) example_log).
  vm_compute. reflexivity.
Defined.

Lemma sort_keeps_the_order_witness :
  exists l,
    accepted (at_time may_1_noon) reversed_log = Ok l
    /\ (forall k,
          List.filter (fun r => Sort.key r =? k)
                      [example_record 0 "SELECT 1;"; example_record 5 "SELECT 2;"]
          = List.filter (fun r => Sort.key r =? k) l)
    /\ (StronglySorted key_le l ->
        [example_record 0 "SELECT 1;"; example_record 5 "SELECT 2;"] = l).
Proof.
  apply (sort_keeps_the_order_of_the_file (at_time may_1_noon) reversed_log).
  vm_compute. reflexivity.
Defined.

(** ** Row counts go through [float] *)

Lemma decimal_digits (s : string) (any : bool) (num : Z) :
  Str.all Str.isdigit s = true ->
  Float.decimal s false any num 0
  = if any || Re.nonempty s
    then Some (fold_left (fun acc c => 10 * acc + Str.digit_val c)
                         (list_ascii_of_string s) num, 0)
    else None.
Proof.
  revert any num. induction s as [|c s IH]; intros any num H.
  - cbn. rewrite orb_false_r. reflexivity.
  - unfold Str.all in *. cbn [list_ascii_of_string forallb] in H.
    apply andb_prop in H. destruct H as [Hc Hs].
    cbn [Float.decimal]. rewrite Hc. rewrite (IH true _ Hs).
    cbn [orb Re.nonempty]. rewrite orb_true_r. reflexivity.
Qed.

Lemma Qred_integer (n : Z) (p : positive) :
  Qred (n * Z.pos p # p) = (n # 1).
Proof.
  change (n # 1) with (inject_Z n).
  assert (H : Qred (inject_Z n) = inject_Z n).
  { unfold Qred, inject_Z.
    pose proof (Z.ggcd_gcd n 1) as Hg. pose proof (Z.ggcd_correct_divisors n 1) as Hd.
    destruct (Z.ggcd n 1) as [g [aa bb]]. cbn [fst snd] in *.
    rewrite Z.gcd_1_r in Hg. subst g. destruct Hd as [Ha Hb].
    rewrite Z.mul_1_l in Ha, Hb. subst aa bb. reflexivity. }
  rewrite <- H. apply Qred_complete.
  unfold Qeq, inject_Z. cbn [Qnum Qden]. lia.
Qed.

(** An integer up to [2^53] is read exactly. *)
Lemma int_float_integer (n : Z) :
  0 <= n <= 2 ^ 53 ->
  exists f, Float.round_binary64 n 1 = f /\ Float.int f = Ok n.
Proof.
  intros Hn. eexists. split; [reflexivity|].
  unfold Float.round_binary64.
  destruct (Z.eqb_spec n 0) as [->|Hn0]; [reflexivity|].
  destruct (Z.eq_dec n (2 ^ 53)) as [->|Hn53]; [vm_compute; reflexivity|].
  assert (Hpos : 0 < n) by lia.
  pose proof (Z.log2_spec n Hpos) as [Hlo Hhi].
  pose proof (Z.log2_nonneg n) as HL0.
  assert (HL : Z.log2 n <= 52).
  { apply Z.lt_succ_r. apply Z.log2_lt_pow2; lia. }
  change (Z.log2 1) with 0. rewrite Z.sub_0_r.
  set (L := Z.log2 n) in *.
  assert (He1 : (0 <=? L - 53) = false) by (apply Z.leb_gt; lia).
  rewrite He1. rewrite Z.div_1_r.
  assert (Hq : 2 ^ 53 <= n * 2 ^ (- (L - 53))).
  { replace (- (L - 53)) with (53 - L) by lia.
    replace (2 ^ 53) with (2 ^ L * 2 ^ (53 - L)).
    - apply Z.mul_le_mono_nonneg_r; [apply Z.pow_nonneg; lia|exact Hlo].
    - rewrite <- Z.pow_add_r by lia. f_equal. lia. }
  apply Z.leb_le in Hq. rewrite Hq.
  rewrite Z.max_l by lia.
  destruct (Z.leb_spec 0 (L - 53 + 1)) as [He|He].
  - assert (L - 53 + 1 = 0) as -> by lia.
    change (2 ^ 0) with 1. rewrite !Z.mul_1_r, Z.div_1_r, Z.mod_1_r.
    change (2 * 0) with 0. change (1 <? 0) with false. change (1 =? 0) with false.
    cbn [orb andb].
    assert (Hbig : (2 ^ 1024 <=? n) = false).
    { apply Z.leb_gt. apply (Z.le_lt_trans _ (2 ^ 53)); [lia|reflexivity]. }
    rewrite Hbig. cbn [Float.int inject_Z Qnum Qden]. rewrite Z.div_1_r. reflexivity.
  - rewrite Z.div_1_r, Z.mod_1_r.
    change (2 * 0) with 0. change (1 <? 0) with false. change (1 =? 0) with false.
    cbn [orb andb].
    set (k := - (L - 53 + 1)) in *.
    assert (Hk : 0 < 2 ^ k) by (apply Z.pow_pos_nonneg; lia).
    replace (n * 2 ^ k) with (n * Z.pos (Z.to_pos (2 ^ k)))
      by (rewrite Z2Pos.id by exact Hk; reflexivity).
    rewrite Qred_integer. cbn [Float.int Qnum Qden]. rewrite Z.div_1_r. reflexivity.
Qed.

Lemma number_of_nonneg (s : string) (acc : Z) :
  Str.all Str.isdigit s = true -> 0 <= acc ->
  0 <= fold_left (fun acc c => 10 * acc + Str.digit_val c)
                 (list_ascii_of_string s) acc.
Proof.
  revert acc. induction s as [|c s IH]; intros acc H Hacc; [exact Hacc|].
  unfold Str.all in *. cbn [list_ascii_of_string forallb] in H.
  apply andb_prop in H. destruct H as [Hc Hs].
  cbn [list_ascii_of_string fold_left]. apply IH; [exact Hs|].
  unfold Str.isdigit, Str.digit_val in *. lia.
Qed.

Lemma int_float_digits (value : string) :
  Str.all Str.isdigit value = true -> value <> EmptyString ->
  number_of value <= 2 ^ 53 ->
  Float.float value ≫= Float.int = Ok (number_of value).
Proof.
  intros Hd Hne Hle. unfold Float.float.
  rewrite (decimal_digits value false 0 Hd).
  destruct value as [|c s]; [congruence|]. cbn [orb Re.nonempty].
  change (10 ^ 0) with 1. cbn [mbind result_bind].
  fold (number_of (String c s)).
  destruct (int_float_integer (number_of (String c s))) as (f & <- & Hf);
    [|exact Hf].
  split; [|exact Hle]. apply number_of_nonneg; [exact Hd|lia].
Qed.

(** X9: a row count written with digits only is read exactly as long as it
    does not exceed [2^53]; the conversion goes through [float]. *)
Theorem row_counts_are_exact_up_to_2_53 (value : string) (q : query) :
  Str.all Str.isdigit value = true -> value <> EmptyString ->
  number_of value <= 2 ^ 53 ->
  Parser.apply_pair q ("Rows_sent", value)
  = Ok (Query.set_rows_sent (number_of value) q)
  /\ Parser.apply_pair q ("Rows_examined", value)
     = Ok (Query.set_rows_examined (number_of value) q).
Proof.
  intros Hd Hne Hle. pose proof (int_float_digits value Hd Hne Hle) as H.
  unfold Parser.apply_pair. cbn [String.eqb Ascii.eqb Bool.eqb].
  destruct (Float.float value) as [f|]; cbn [mbind result_bind] in *; [|discriminate].
  rewrite H. split; reflexivity.
Qed.

(** Past [2^53] the count is rounded: [2^53 + 1] is read as [2^53]. *)
Example row_count_rounded (q : query) :
  Parser.apply_pair q ("Rows_sent", "9007199254740993")
  = Ok (Query.set_rows_sent 9007199254740992 q).
Proof. reflexivity. Qed.

Lemma row_counts_witness :
  Parser.apply_pair (Query.new may_1_noon) ("Rows_sent", "100")
  = Ok (Query.set_rows_sent (number_of "100") (Query.new may_1_noon))
  /\ Parser.apply_pair (Query.new may_1_noon) ("Rows_examined", "100")
     = Ok (Query.set_rows_examined (number_of "100") (Query.new may_1_noon)).
Proof.
  apply (row_counts_are_exact_up_to_2_53 "100" (Query.new may_1_noon)).
  - reflexivity.
  - discriminate.
  - vm_compute. discriminate.
Defined.

(** ** Strings: [split], [strip] and [join] *)

Lemma append_cons (x : ascii) (a b : string) :
  String x a +:+ b = String x (a +:+ b).
Proof. reflexivity. Qed.

Lemma append_assoc (a b c : string) : (a +:+ b) +:+ c = a +:+ (b +:+ c).
Proof.
  induction a as [|x a IH]; [reflexivity|].
  rewrite !append_cons, IH. reflexivity.
Qed.

Lemma append_nil_r (a : string) : a +:+ EmptyString = a.
Proof.
  induction a as [|x a IH]; [reflexivity|].
  rewrite append_cons, IH. reflexivity.
Qed.

Lemma rev_app_append (cur s : string) :
  Str.rev_app cur s = Str.rev_app cur EmptyString +:+ s.
Proof.
  revert s. induction cur as [|c cur IH]; intros s; [reflexivity|].
  cbn [Str.rev_app]. rewrite (IH (String c s)), (IH (String c EmptyString)).
  rewrite append_assoc. reflexivity.
Qed.

Lemma contains_cons (sub : string) (c : ascii) (s : string) :
  Str.contains sub (String c s) = false ->
  Str.startswith sub (String c s) = false /\ Str.contains sub s = false.
Proof. cbn [Str.contains]. intros H. apply orb_false_elim in H. exact H. Qed.

Lemma contains_append_l (sub a b : string) :
  Str.contains sub (a +:+ b) = false -> Str.contains sub b = false.
Proof.
  induction a as [|c a IH]; [auto|].
  rewrite append_cons. intros H. apply contains_cons in H. apply IH, H.
Qed.

(** The pieces of a split by one character. *)
Lemma split_char_step (sep c : ascii) (s cur : string) :
  Str.split_aux (String sep EmptyString) (String c s) O cur
  = if Ascii.eqb sep c
    then Str.rev_app cur EmptyString :: Str.split_aux (String sep EmptyString) s O EmptyString
    else Str.split_aux (String sep EmptyString) s O (String c cur).
Proof.
  cbn [Str.split_aux Str.startswith Str.length]. rewrite andb_true_r. reflexivity.
Qed.

Lemma comma_free_cons (c : ascii) (s : string) :
  comma_free (String c s) = negb (Ascii.eqb "," c) && comma_free s.
Proof.
  unfold comma_free. cbn [Str.contains Str.startswith].
  rewrite andb_true_r, negb_orb. reflexivity.
Qed.

Lemma comma_free_append (a b : string) :
  comma_free (a +:+ b) = comma_free a && comma_free b.
Proof.
  induction a as [|c a IH]; [reflexivity|].
  rewrite append_cons, !comma_free_cons, IH, andb_assoc. reflexivity.
Qed.

Lemma comma_free_rev_app (cur s : string) :
  comma_free (Str.rev_app cur s) = comma_free cur && comma_free s.
Proof.
  revert s. induction cur as [|c cur IH]; intros s; [reflexivity|].
  cbn [Str.rev_app]. rewrite IH, !comma_free_cons.
  destruct (negb (Ascii.eqb "," c)), (comma_free cur), (comma_free s); reflexivity.
Qed.

(** No piece of a split by commas has a comma. *)
Lemma split_comma_free (s cur : string) :
  comma_free cur = true ->
  Forall (fun p => comma_free p = true) (Str.split_aux "," s O cur).
Proof.
  revert cur. induction s as [|c s IH]; intros cur Hcur.
  - cbn. constructor; [|constructor].
    rewrite comma_free_rev_app, Hcur. reflexivity.
  - rewrite split_char_step. destruct (Ascii.eqb "," c) eqn:Hc.
    + constructor; [|apply IH; reflexivity].
      rewrite comma_free_rev_app, Hcur. reflexivity.
    + apply IH. rewrite comma_free_cons, Hc, Hcur. reflexivity.
Qed.

(** A text with no comma is one piece. *)
Lemma split_no_comma (s cur : string) :
  comma_free s = true ->
  Str.split_aux "," s O cur = [Str.rev_app cur s].
Proof.
  revert cur. induction s as [|c s IH]; intros cur H; [reflexivity|].
  rewrite comma_free_cons in H. apply andb_prop in H. destruct H as [Hc Hs].
  rewrite split_char_step. apply negb_true_iff in Hc. rewrite Hc.
  rewrite (IH _ Hs). reflexivity.
Qed.

(** The split of a comma-free piece, a comma and a rest. *)
Lemma split_piece (a b cur : string) :
  comma_free a = true ->
  Str.split_aux "," (a +:+ String "," b) O cur
  = Str.rev_app cur a :: Str.split_aux "," b O EmptyString.
Proof.
  revert cur. induction a as [|c a IH]; intros cur H.
  - change (EmptyString +:+ String "," b) with (String "," b).
    rewrite split_char_step. reflexivity.
  - rewrite comma_free_cons in H. apply andb_prop in H. destruct H as [Hc Ha].
    rewrite append_cons, split_char_step.
    apply negb_true_iff in Hc. rewrite Hc. rewrite (IH _ Ha). reflexivity.
Qed.

(** [split] undoes [join] on comma-free pieces. *)
Lemma split_join_comma (ps : list string) :
  ps <> [] -> Forall (fun p => comma_free p = true) ps ->
  Str.split "," (join_comma ps) = ps.
Proof.
  intros Hne Hall. unfold Str.split.
  induction Hall as [|p ps Hp Hps IH]; [congruence|].
  destruct ps as [|p' ps'].
  - cbn [join_comma]. rewrite (split_no_comma _ _ Hp). reflexivity.
  - change (join_comma (p :: p' :: ps'))
      with (p +:+ String "," (join_comma (p' :: ps'))).
    rewrite (split_piece _ _ _ Hp). cbn [Str.rev_app]. f_equal.
    apply IH. discriminate.
Qed.

(** *** [strip] *)

Lemma lstrip_head (s : string) :
  Str.lstrip s = EmptyString
  \/ exists c r, Str.lstrip s = String c r /\ Str.isspace c = false.
Proof.
  induction s as [|c s IH]; [left; reflexivity|].
  cbn [Str.lstrip]. destruct (Str.isspace c) eqn:Hc; [exact IH|].
  right. exists c, s. auto.
Qed.

Lemma rstrip_cons (c : ascii) (s : string) :
  Str.isspace c = false -> Str.rstrip (String c s) = String c (Str.rstrip s).
Proof.
  intros Hc. cbn [Str.rstrip]. rewrite Hc. destruct (Str.rstrip s); reflexivity.
Qed.

Lemma rstrip_idem (s : string) : Str.rstrip (Str.rstrip s) = Str.rstrip s.
Proof.
  induction s as [|c s IH]; [reflexivity|].
  cbn [Str.rstrip]. destruct (Str.rstrip s) as [|d r] eqn:Hr.
  - destruct (Str.isspace c) eqn:Hc; [reflexivity|].
    cbn [Str.rstrip]. rewrite Hc. reflexivity.
  - change (Str.rstrip (String c (String d r)))
      with (match Str.rstrip (String d r) with
            | EmptyString => if Str.isspace c then EmptyString else String c EmptyString
            | r' => String c r'
            end).
    rewrite IH. reflexivity.
Qed.

Lemma strip_idem (s : string) : Str.strip (Str.strip s) = Str.strip s.
Proof.
  unfold Str.strip. destruct (lstrip_head s) as [->|(c & r & -> & Hc)]; [reflexivity|].
  rewrite (rstrip_cons _ _ Hc). cbn [Str.lstrip]. rewrite Hc.
  rewrite (rstrip_cons _ _ Hc), rstrip_idem. reflexivity.
Qed.

Lemma comma_free_lstrip (s : string) :
  comma_free s = true -> comma_free (Str.lstrip s) = true.
Proof.
  induction s as [|c s IH]; [auto|].
  intros H. cbn [Str.lstrip]. destruct (Str.isspace c); [|exact H].
  rewrite comma_free_cons in H. apply andb_prop in H. apply IH, H.
Qed.

Lemma comma_free_rstrip (s : string) :
  comma_free s = true -> comma_free (Str.rstrip s) = true.
Proof.
  induction s as [|c s IH]; [auto|].
  intros H. rewrite comma_free_cons in H. apply andb_prop in H. destruct H as [Hc Hs].
  cbn [Str.rstrip]. specialize (IH Hs). destruct (Str.rstrip s) as [|d r].
  - destruct (Str.isspace c); [reflexivity|].
    rewrite comma_free_cons, Hc. reflexivity.
  - rewrite comma_free_cons, Hc, IH. reflexivity.
Qed.

Lemma comma_free_strip (s : string) :
  comma_free s = true -> comma_free (Str.strip s) = true.
Proof. intros H. apply comma_free_rstrip, comma_free_lstrip, H. Qed.

(** [s] is what [rstrip] keeps of it, then blanks. *)
Lemma rstrip_split (s : string) :
  exists w, Str.all Str.isspace w = true /\ s = Str.rstrip s +:+ w.
Proof.
  induction s as [|c s (w & Hw & Hs)]; [exists EmptyString; auto|].
  cbn [Str.rstrip]. destruct (Str.rstrip s) as [|d r] eqn:Hr.
  - change (EmptyString +:+ w) with w in Hs. subst s.
    destruct (Str.isspace c) eqn:Hc.
    + exists (String c w). split; [|reflexivity].
      unfold Str.all in *. cbn [list_ascii_of_string forallb]. rewrite Hc, Hw. reflexivity.
    + exists w. auto.
  - exists w. split; [exact Hw|]. rewrite append_cons, <- Hs. reflexivity.
Qed.

Lemma all_space_cons (c : ascii) (w : string) :
  Str.all Str.isspace (String c w) = Str.isspace c && Str.all Str.isspace w.
Proof. reflexivity. Qed.

Lemma lstrip_spaces (w : string) :
  Str.all Str.isspace w = true -> Str.lstrip w = EmptyString.
Proof.
  induction w as [|c w IH]; [auto|].
  rewrite all_space_cons. intros H. apply andb_prop in H. destruct H as [Hc Hw].
  cbn [Str.lstrip]. rewrite Hc. exact (IH Hw).
Qed.

Lemma rstrip_spaces (w : string) :
  Str.all Str.isspace w = true -> Str.rstrip w = EmptyString.
Proof.
  induction w as [|c w IH]; [auto|].
  rewrite all_space_cons. intros H. apply andb_prop in H. destruct H as [Hc Hw].
  cbn [Str.rstrip]. rewrite (IH Hw), Hc. reflexivity.
Qed.

Lemma rstrip_append_spaces (a w : string) :
  Str.all Str.isspace w = true -> Str.rstrip (a +:+ w) = Str.rstrip a.
Proof.
  intros Hw. induction a as [|c a IH]; [exact (rstrip_spaces w Hw)|].
  rewrite append_cons. cbn [Str.rstrip]. rewrite IH. reflexivity.
Qed.

Lemma strip_append_spaces (a w : string) :
  Str.all Str.isspace w = true -> Str.strip (a +:+ w) = Str.strip a.
Proof.
  intros Hw. unfold Str.strip. induction a as [|c a IH].
  - change (EmptyString +:+ w) with w. rewrite (lstrip_spaces w Hw). reflexivity.
  - rewrite append_cons. cbn [Str.lstrip]. destruct (Str.isspace c); [exact IH|].
    rewrite <- append_cons. apply rstrip_append_spaces, Hw.
Qed.

Lemma space_is_no_comma (c : ascii) : Str.isspace c = true -> Ascii.eqb "," c = false.
Proof.
  intros H. destruct (Ascii.eqb_spec "," c) as [<-|]; [discriminate H|reflexivity].
Qed.

Lemma spaces_comma_free (w : string) :
  Str.all Str.isspace w = true -> comma_free w = true.
Proof.
  induction w as [|c w IH]; [auto|].
  rewrite all_space_cons. intros H. apply andb_prop in H. destruct H as [Hc Hw].
  rewrite comma_free_cons, (space_is_no_comma c Hc), (IH Hw). reflexivity.
Qed.

(** *** [split] after [strip] *)

(** The piece under construction goes in front of the first piece. *)
Lemma split_cur (s cur : string) :
  exists p rest,
    Str.split_aux "," s O EmptyString = p :: rest
    /\ Str.split_aux "," s O cur = Str.rev_app cur p :: rest.
Proof.
  revert cur. induction s as [|c s IH]; intros cur.
  - exists EmptyString, []. auto.
  - rewrite !split_char_step. destruct (Ascii.eqb "," c).
    + exists EmptyString, (Str.split_aux "," s O EmptyString). auto.
    + destruct (IH (String c EmptyString)) as (p & rest & Hp & Hc).
      destruct (IH (String c cur)) as (p' & rest' & Hp' & Hc').
      rewrite Hp in Hp'. injection Hp' as <- <-.
      exists (String c p), rest. rewrite Hc, Hc'. auto.
Qed.

Lemma strip_blank_cons (c : ascii) (s : string) :
  Str.isspace c = true -> Str.strip (String c s) = Str.strip s.
Proof. intros Hc. unfold Str.strip. cbn [Str.lstrip]. rewrite Hc. reflexivity. Qed.

Lemma split_lstrip (s : string) :
  map Str.strip (Str.split "," (Str.lstrip s)) = map Str.strip (Str.split "," s).
Proof.
  unfold Str.split. induction s as [|c s IH]; [reflexivity|].
  cbn [Str.lstrip]. destruct (Str.isspace c) eqn:Hc; [|reflexivity].
  rewrite IH, split_char_step, (space_is_no_comma c Hc).
  destruct (split_cur s (String c EmptyString)) as (p & rest & -> & ->).
  cbn [Str.rev_app map]. rewrite (strip_blank_cons c p Hc). reflexivity.
Qed.

(** Blanks after the text go behind the last piece. *)
Lemma split_append_spaces (r w cur : string) :
  comma_free w = true ->
  exists init last,
    Str.split_aux "," r O cur = init ++ [last]
    /\ Str.split_aux "," (r +:+ w) O cur = init ++ [last +:+ w].
Proof.
  intros Hw. revert cur. induction r as [|c r IH]; intros cur.
  - exists [], (Str.rev_app cur EmptyString). split; [reflexivity|].
    change (EmptyString +:+ w) with w.
    rewrite (split_no_comma w cur Hw), (rev_app_append cur w). reflexivity.
  - rewrite append_cons, !split_char_step. destruct (Ascii.eqb "," c).
    + destruct (IH EmptyString) as (init & last & -> & ->).
      exists (Str.rev_app cur EmptyString :: init), last. auto.
    + apply IH.
Qed.

Lemma split_rstrip (s : string) :
  map Str.strip (Str.split "," (Str.rstrip s)) = map Str.strip (Str.split "," s).
Proof.
  destruct (rstrip_split s) as (w & Hw & Hs).
  rewrite Hs at 2. unfold Str.split.
  destruct (split_append_spaces (Str.rstrip s) w EmptyString (spaces_comma_free w Hw))
    as (init & last & -> & ->).
  rewrite !map_app. cbn [map]. rewrite (strip_append_spaces last w Hw). reflexivity.
Qed.

Lemma split_strip (s : string) :
  map Str.strip (Str.split "," (Str.strip s)) = map Str.strip (Str.split "," s).
Proof. unfold Str.strip. rewrite split_rstrip, split_lstrip. reflexivity. Qed.

(** ** The names read from the configuration *)

Lemma configured_clean (s name : string) :
  In name (configured_instances s) -> clean_name name.
Proof.
  unfold configured_instances. intros H.
  apply List.filter_In in H. destruct H as [H Hne].
  apply List.in_map_iff in H. destruct H as (p & <- & Hp).
  pose proof (split_comma_free s EmptyString eq_refl) as Hall.
  rewrite List.Forall_forall in Hall. specialize (Hall p Hp).
  split; [|split].
  - intros Heq. rewrite Heq in Hne. discriminate.
  - apply strip_idem.
  - apply comma_free_strip, Hall.
Qed.

(** [get_instance_databases] is the comprehension of [__init__] on the text
    of the option, a missing section counting as an empty text. *)
Lemma databases_as_configured (config : gmap string string) (id : string) :
  get_instance_databases config id
  = configured_instances (default EmptyString (config !! id)).
Proof.
  unfold get_instance_databases, configured_instances.
  destruct (config !! id) as [databases|]; [|reflexivity].
  change (default EmptyString (Some databases)) with databases.
  rewrite <- (split_strip databases).
  destruct (Str.strip databases) as [|c d]; reflexivity.
Qed.

(** X10: the instance names [__init__] reads from [instance_list] and the
    database names [get_instance_databases] returns are clean: none is
    empty, none has a blank at either end, none contains a comma. *)
Theorem configured_names_are_clean :
  (forall s name, In name (configured_instances s) -> clean_name name)
  /\ (forall config id db, In db (get_instance_databases config id) -> clean_name db).
Proof.
  split; [exact configured_clean|].
  intros config id db. rewrite databases_as_configured. apply configured_clean.
Qed.

Lemma configured_join (ps : list string) :
  Forall (fun p => comma_free p = true) ps ->
  configured_instances (join_comma ps) = List.filter Re.nonempty (map Str.strip ps).
Proof.
  intros Hall. unfold configured_instances.
  destruct ps as [|p ps]; [reflexivity|].
  rewrite split_join_comma; [reflexivity|discriminate|exact Hall].
Qed.

(** X11: a list written with commas is read back as its entries: for
    pieces without commas, the instance list and the databases of a
    section whose option is their join by [,] are the pieces stripped, in
    order, the blank ones left out. *)
Theorem comma_list_is_read_back (ps : list string) :
  Forall (fun p => comma_free p = true) ps ->
  configured_instances (join_comma ps) = List.filter Re.nonempty (map Str.strip ps)
  /\ forall config id,
       config !! id = Some (join_comma ps) ->
       get_instance_databases config id = List.filter Re.nonempty (map Str.strip ps).
Proof.
  intros Hall. split; [exact (configured_join ps Hall)|].
  intros config id H. rewrite databases_as_configured, H. exact (configured_join ps Hall).
Qed.

(** X12: [get_instance_databases] reads the [databases] option exactly as
    [__init__] reads [instance_list]; a missing section counts as an empty
    option, and the two early returns change nothing. *)
Theorem databases_are_read_as_instances (config : gmap string string) (id : string) :
  get_instance_databases config id
  = configured_instances (default EmptyString (config !! id)).
Proof. apply databases_as_configured. Qed.

Lemma configured_names_witness : clean_name "rds-1".
Proof.
  apply (proj1 configured_names_are_clean " rds-1 , ,rds-2" "rds-1").
  left. reflexivity.
Defined.

Lemma comma_list_witness :
  configured_instances (join_comma [" rds-1 "; " "; "rds-2"])
  = List.filter Re.nonempty (map Str.strip [" rds-1 "; " "; "rds-2"])
  /\ forall (config : gmap string string) (id : string),
       config !! id = Some (join_comma [" rds-1 "; " "; "rds-2"]) ->
       get_instance_databases config id
       = List.filter Re.nonempty (map Str.strip [" rds-1 "; " "; "rds-2"]).
Proof.
  apply (comma_list_is_read_back [" rds-1 "; " "; "rds-2"]).
  repeat constructor.
Defined.

(** ** The key of the webhook *)

Lemma split_aux_nonempty (sep s : string) (skip : nat) (cur : string) :
  Str.split_aux sep s skip cur <> [].
Proof.
  revert skip cur. induction s as [|c s IH]; intros skip cur; [discriminate|].
  cbn [Str.split_aux]. destruct skip; [|apply IH].
  destruct (Str.startswith sep (String c s)); [discriminate|apply IH].
Qed.

Lemma last_cons_nonempty {A : Type} (x d : A) (l : list A) :
  l <> [] -> List.last (x :: l) d = List.last l d.
Proof. destruct l; [congruence|reflexivity]. Qed.

(** A text in which the separator does not occur is one piece. *)
Lemma split_absent (sep s cur : string) :
  Str.contains sep s = false ->
  Str.split_aux sep s O cur = [Str.rev_app cur s].
Proof.
  revert cur. induction s as [|c s IH]; intros cur H; [reflexivity|].
  cbn [Str.contains] in H. apply orb_false_elim in H. destruct H as [Hhere Hrest].
  cbn [Str.split_aux]. rewrite Hhere. rewrite (IH _ Hrest). reflexivity.
Qed.

(** A match of [key=] that starts within [base] ends within [base], when
    [key=] follows [base]: the separator does not overlap itself. *)
Lemma key_match_within (c : ascii) (base k : string) :
  Str.startswith "key="
    (String c (base +:+ String "k" (String "e" (String "y" (String "=" k))))) = true ->
  (3 <= Str.length base)%nat.
Proof.
  destruct base as [|c1 [|c2 [|c3 base]]]; cbn [Str.length]; try lia;
    intros H; exfalso; revert H;
    repeat change (String ?a ?b +:+ ?s) with (String a (b +:+ s));
    change (EmptyString +:+ ?s) with s;
    cbn [Str.startswith];
    repeat match goal with
           | |- context [Ascii.eqb ?a ?b] =>
               destruct (Ascii.eqb_spec a b) as [Heq|_];
               [first [discriminate Heq|clear Heq]|]; cbn [andb]
           end;
    intros H; discriminate H.
Qed.

(** Past a match that ends within [base] the last piece is what follows the
    last [key=]. *)
Lemma last_piece_after_key (k base : string) (skip : nat) (cur : string) :
  Str.contains "key=" k = false ->
  (skip <= Str.length base)%nat ->
  List.last (Str.split_aux "key="
               (base +:+ String "k" (String "e" (String "y" (String "=" k))))
               skip cur) EmptyString
  = k.
Proof.
  intros Hk. revert skip cur. induction base as [|c base IH]; intros skip cur Hskip.
  - assert (skip = O) as -> by (cbn in Hskip; lia).
    change (EmptyString +:+ ?s) with s.
    cbn [Str.split_aux Str.startswith Ascii.eqb Bool.eqb andb Str.length Nat.sub].
    rewrite (split_absent "key=" k EmptyString Hk). reflexivity.
  - change (String c base +:+ ?s) with (String c (base +:+ s)).
    cbn [Str.split_aux]. destruct skip as [|j].
    + destruct (Str.startswith "key=" (String c (base +:+ _))) eqn:Hm.
      * rewrite last_cons_nonempty by apply split_aux_nonempty.
        apply IH. apply key_match_within in Hm. cbn [Str.length Nat.sub]. exact Hm.
      * apply IH. lia.
    + apply IH. cbn [Str.length] in Hskip. lia.
Qed.

(** X13: the key of the upload is the text after the last [key=] of the
    webhook URL, and the whole URL when it has no [key=]. *)
Theorem webhook_key_is_the_text_after_the_last_key :
  (forall base k : string,
     Str.contains "key=" k = false ->
     webhook_key (base +:+ "key=" +:+ k) = k
     /\ upload_url (base +:+ "key=" +:+ k)
        = "https://qyapi.weixin.qq.com/cgi-bin/webhook/upload_media?key="
          +:+ k +:+ "&type=file")
  /\ (forall url : string,
        Str.contains "key=" url = false -> webhook_key url = url).
Proof.
  split.
  - intros base k Hk.
    assert (H : webhook_key (base +:+ "key=" +:+ k) = k).
    { unfold webhook_key, Str.split.
      exact (last_piece_after_key k base O EmptyString Hk (Nat.le_0_l _)). }
    split; [exact H|]. unfold upload_url. rewrite H. reflexivity.
  - intros url H. unfold webhook_key, Str.split.
    rewrite (split_absent "key=" url EmptyString H). reflexivity.
Qed.

Lemma webhook_key_witness :
  webhook_key ("https://qyapi.weixin.qq.com/cgi-bin/webhook/send?" +:+ "key=" +:+ "abc-123")
  = "abc-123"
  /\ upload_url ("https://qyapi.weixin.qq.com/cgi-bin/webhook/send?" +:+ "key=" +:+ "abc-123")
     = "https://qyapi.weixin.qq.com/cgi-bin/webhook/upload_media?key="
       +:+ "abc-123" +:+ "&type=file".
Proof.
  apply (proj1 webhook_key_is_the_text_after_the_last_key
           "https://qyapi.weixin.qq.com/cgi-bin/webhook/send?" "abc-123").
  reflexivity.
Defined.

(** ** The groups of the Aliyun alert *)

Lemma add_to_group_names (db : string) (x : item) (gs : list (string * list item)) :
  (In db (map fst gs) /\ map fst (add_to_group db x gs) = map fst gs)
  \/ (~ In db (map fst gs) /\ map fst (add_to_group db x gs) = map fst gs ++ [db]).
Proof.
  induction gs as [|[n ms] gs IH]; [right; split; [intros []|reflexivity]|].
  cbn [add_to_group]. destruct (String.eqb_spec n db) as [->|Hne].
  - left. split; [left; reflexivity|reflexivity].
  - cbn [map fst]. destruct IH as [[Hin ->]|[Hno ->]].
    + left. split; [right; exact Hin|reflexivity].
    + right. split; [|reflexivity]. intros [H|H]; [congruence|exact (Hno H)].
Qed.

Lemma NoDup_snoc {A : Type} (l : list A) (x : A) :
  List.NoDup l -> ~ In x l -> List.NoDup (l ++ [x]).
Proof.
  induction 1 as [|y l Hy Hl IH]; intros Hx.
  - constructor; [intros []|constructor].
  - cbn [app]. constructor.
    + intros Hin. apply in_app_or in Hin. destruct Hin as [Hin|[->|[]]].
      * exact (Hy Hin).
      * apply Hx. left. reflexivity.
    + apply IH. intros Hin. apply Hx. right. exact Hin.
Qed.

Lemma add_to_group_NoDup (db : string) (x : item) (gs : list (string * list item)) :
  List.NoDup (map fst gs) -> List.NoDup (map fst (add_to_group db x gs)).
Proof.
  intros H. destruct (add_to_group_names db x gs) as [[_ ->]|[Hno ->]]; [exact H|].
  apply NoDup_snoc; assumption.
Qed.

(** The groups after one more record. *)
Lemma add_to_group_In (db : string) (x : item) (gs : list (string * list item))
    (n : string) (ms : list item) :
  List.NoDup (map fst gs) ->
  In (n, ms) (add_to_group db x gs) <->
  (n <> db /\ In (n, ms) gs)
  \/ (n = db /\ exists ms0, ms = ms0 ++ [x]
                            /\ (In (db, ms0) gs
                                \/ (ms0 = [] /\ ~ In db (map fst gs)))).
Proof.
  induction gs as [|[n' ms'] gs IH]; intros Hnd.
  - cbn [add_to_group]. split.
    + intros [[= <- <-]|[]]. right. split; [reflexivity|].
      exists []. split; [reflexivity|]. right. split; [reflexivity|intros []].
    + intros [[_ []]|(-> & ms0 & -> & [[]|[-> _]])]. left. reflexivity.
  - inversion Hnd as [|? ? Hn' Hgs]; subst. specialize (IH Hgs).
    cbn [add_to_group]. destruct (String.eqb_spec n' db) as [->|Hne].
    + split.
      * intros [[= <- <-]|Hin].
        -- right. split; [reflexivity|]. exists ms'. split; [reflexivity|].
           left. left. reflexivity.
        -- left. split; [|right; exact Hin].
           intros ->. apply Hn'. apply (in_map fst) in Hin. exact Hin.
      * intros [[Hn [[= -> ->]|Hin]]|(-> & ms0 & -> & [[[= ->]|Hin]|[_ Hno]])].
        -- congruence.
        -- right. exact Hin.
        -- left. reflexivity.
        -- exfalso. apply Hn'. apply (in_map fst) in Hin. exact Hin.
        -- exfalso. apply Hno. left. reflexivity.
    + split.
      * intros [[= <- <-]|Hin].
        -- left. split; [exact Hne|left; reflexivity].
        -- apply IH in Hin.
           destruct Hin as [[Hn Hin]|(-> & ms0 & -> & [Hin|[-> Hno]])].
           ++ left. split; [exact Hn|right; exact Hin].
           ++ right. split; [reflexivity|]. exists ms0. split; [reflexivity|].
              left. right. exact Hin.
           ++ right. split; [reflexivity|]. exists []. split; [reflexivity|].
              right. split; [reflexivity|].
              intros [H|H]; [cbn in H; congruence|exact (Hno H)].
      * intros [[Hn [[= -> ->]|Hin]]|(-> & ms0 & -> & [[[= -> ->]|Hin]|[-> Hno]])].
        -- left. reflexivity.
        -- right. apply IH. left. auto.
        -- congruence.
        -- right. apply IH. right. split; [reflexivity|]. exists ms0. auto.
        -- right. apply IH. right. split; [reflexivity|]. exists [].
           split; [reflexivity|]. right. split; [reflexivity|].
           intros H. apply Hno. right. exact H.
Qed.

Lemma records_of_snoc (n : string) (items : list item) (x : item) :
  records_of n (items ++ [x])
  = records_of n items ++ (if String.eqb (db_of x) n then [x] else []).
Proof.
  unfold records_of. rewrite List.filter_app. cbn [List.filter].
  destruct (String.eqb (db_of x) n); reflexivity.
Qed.

Lemma group_by_db_snoc (items : list item) (x : item) :
  group_by_db (items ++ [x]) = add_to_group (db_of x) x (group_by_db items).
Proof. unfold group_by_db. rewrite foldl_snoc. reflexivity. Qed.

(** The groups are the records filed by database. *)
Lemma group_by_db_spec (items : list item) :
  List.NoDup (map fst (group_by_db items))
  /\ forall n ms,
       In (n, ms) (group_by_db items) <-> (ms <> [] /\ ms = records_of n items).
Proof.
  induction items as [|x items [Hnd IH]] using rev_ind.
  - split; [constructor|]. intros n ms. split; [intros []|].
    intros [Hne ->]. exfalso. apply Hne. reflexivity.
  - rewrite group_by_db_snoc. split; [apply add_to_group_NoDup, Hnd|].
    intros n ms. rewrite (add_to_group_In _ _ _ _ _ Hnd), records_of_snoc.
    assert (Hnone : ~ In (db_of x) (map fst (group_by_db items)) ->
                    records_of (db_of x) items = []).
    { intros Hno. destruct (records_of (db_of x) items) as [|y l] eqn:Hr;
        [reflexivity|].
      exfalso. apply Hno.
      assert (Hin : In (db_of x, y :: l) (group_by_db items))
        by (apply IH; split; [discriminate|congruence]).
      apply (in_map fst) in Hin. exact Hin. }
    split.
    + intros [[Hn Hin]|(-> & ms0 & -> & [Hin|[-> Hno]])].
      * apply IH in Hin. destruct Hin as [Hne ->]. split; [exact Hne|].
        destruct (String.eqb_spec (db_of x) n); [congruence|].
        rewrite app_nil_r. reflexivity.
      * apply IH in Hin. destruct Hin as [_ ->].
        rewrite String.eqb_refl. split; [|reflexivity].
        intros H. apply app_eq_nil in H. destruct H as [_ H]. discriminate.
      * rewrite String.eqb_refl, (Hnone Hno). split; [discriminate|reflexivity].
    + intros [Hne ->]. destruct (String.eqb_spec (db_of x) n) as [<-|Hn].
      * right. split; [reflexivity|]. exists (records_of (db_of x) items).
        split; [reflexivity|].
        destruct (records_of (db_of x) items) as [|y l] eqn:Hr.
        -- right. split; [reflexivity|]. intros Hin.
           apply List.in_map_iff in Hin. destruct Hin as ([n' ms'] & Heq & Hin).
           cbn in Heq. subst n'. apply IH in Hin. destruct Hin as [Hne' Hms].
           congruence.
        -- left. apply IH. split; [discriminate|congruence].
      * left. split; [congruence|]. rewrite app_nil_r in *.
        apply IH. split; [exact Hne|reflexivity].
Qed.

(** X14: the groups [send_wechat_alert] builds are the records filed by
    database: no database has two groups, a group is never empty and holds
    exactly the records of the reply filed under its name (those without a
    [DBName] under [Unknown]), in the order of the reply, and every record
    is in the group of its database. *)
Theorem groups_are_the_records_by_database (items : list item) :
  List.NoDup (map fst (group_by_db items))
  /\ (forall name members,
        In (name, members) (group_by_db items) <->
        members <> [] /\ members = records_of name items)
  /\ (forall x, In x items ->
        exists members, In (db_of x, members) (group_by_db items) /\ In x members).
Proof.
  destruct (group_by_db_spec items) as [Hnd Hin].
  split; [exact Hnd|]. split; [exact Hin|].
  intros x Hx. exists (records_of (db_of x) items).
  assert (Hmem : In x (records_of (db_of x) items)).
  { apply List.filter_In. split; [exact Hx|apply String.eqb_refl]. }
  split; [|exact Hmem].
  apply Hin. split; [|reflexivity].
  intros H. rewrite H in Hmem. destruct Hmem.
Qed.

(** The names of the groups after one more record. *)
Lemma add_to_group_fst (db : string) (x : item) (gs : list (string * list item)) :
  map fst (add_to_group db x gs)
  = if existsb (String.eqb db) (map fst gs) then map fst gs else map fst gs ++ [db].
Proof.
  induction gs as [|[n ms] gs IH]; [reflexivity|].
  cbn [add_to_group map fst existsb]. rewrite (String.eqb_sym db n).
  destruct (String.eqb n db); [reflexivity|].
  cbn [map fst orb]. rewrite IH.
  destruct (existsb (String.eqb db) (map fst gs)); reflexivity.
Qed.

Lemma filter_not_in (acc : list string) (name : string) (l : list string) :
  existsb (String.eqb name) acc = true ->
  List.filter (fun n => negb (existsb (String.eqb n) acc))
              (List.filter (fun n => negb (String.eqb n name)) l)
  = List.filter (fun n => negb (existsb (String.eqb n) acc)) l.
Proof.
  intros Hin. induction l as [|n l IH]; [reflexivity|].
  cbn [List.filter]. destruct (String.eqb_spec n name) as [->|Hne]; cbn [negb].
  - rewrite Hin. cbn [negb]. exact IH.
  - cbn [List.filter]. rewrite IH. reflexivity.
Qed.

Lemma filter_not_in_snoc (acc : list string) (name : string) (l : list string) :
  List.filter (fun n => negb (existsb (String.eqb n) (acc ++ [name]))) l
  = List.filter (fun n => negb (existsb (String.eqb n) acc))
                (List.filter (fun n => negb (String.eqb n name)) l).
Proof.
  induction l as [|n l IH]; [reflexivity|].
  cbn [List.filter]. rewrite existsb_app. cbn [existsb]. rewrite orb_false_r.
  destruct (String.eqb n name); cbn [negb].
  - rewrite orb_true_r. cbn [negb]. exact IH.
  - rewrite orb_false_r. cbn [List.filter].
    destruct (existsb (String.eqb n) acc); cbn [negb]; rewrite IH; reflexivity.
Qed.

(** Filing names one by one, each new name at the end, lists them in the
    order of their first appearance. *)
Lemma file_names_first_seen (names acc : list string) :
  foldl (fun acc n => if existsb (String.eqb n) acc then acc else acc ++ [n])
        acc names
  = acc ++ List.filter (fun n => negb (existsb (String.eqb n) acc)) (first_seen names).
Proof.
  revert acc. induction names as [|name names IH]; intros acc.
  - cbn. rewrite app_nil_r. reflexivity.
  - cbn [foldl first_seen List.filter]. rewrite IH.
    destruct (existsb (String.eqb name) acc) eqn:Hin; cbn [negb].
    + rewrite (filter_not_in acc name _ Hin). reflexivity.
    + rewrite <- app_assoc. cbn [app]. rewrite filter_not_in_snoc. reflexivity.
Qed.

Lemma group_names_fold (items : list item) (gs : list (string * list item)) :
  map fst (foldl (fun groups x => add_to_group (db_of x) x groups) gs items)
  = foldl (fun acc n => if existsb (String.eqb n) acc then acc else acc ++ [n])
          (map fst gs) (map db_of items).
Proof.
  revert gs. induction items as [|x items IH]; intros gs; [reflexivity|].
  cbn [foldl map]. rewrite IH, add_to_group_fst. reflexivity.
Qed.

(** The groups come in the order in which their databases first appear. *)
Lemma group_names_first_seen (items : list item) :
  map fst (group_by_db items) = first_seen (map db_of items).
Proof.
  unfold group_by_db.
  change (fun (groups : list (string * list item)) (x : item) =>
            add_to_group (default "Unknown" (DBName x)) x groups)
    with (fun (groups : list (string * list item)) (x : item) =>
            add_to_group (db_of x) x groups).
  rewrite group_names_fold, file_names_first_seen. cbn [map app existsb negb].
  induction (first_seen (map db_of items)) as [|n l IH]; [reflexivity|].
  cbn [List.filter]. f_equal. exact IH.
Qed.

(** The trace of the loop over the groups: one event for each group up to
    the first whose file cannot be written. *)
Lemma alert_groups_trace (e : aliyun_env) (id : string)
    (groups : list (string * list item)) :
  (alert_groups e id groups).2 = map (alert_of e id) (written_prefix e groups)
  /\ ((alert_groups e id groups).1 = Ok tt
      <-> forallb (group_written e) groups = true).
Proof.
  induction groups as [|[db_name db_items] groups [IHt IHr]].
  - split; [reflexivity|]. split; reflexivity.
  - cbn [alert_groups written_prefix forallb].
    change (group_written e (db_name, db_items))
      with (file_writable e db_name && is_ok (render_items e db_items)).
    destruct (file_writable e db_name); cbn [negb andb fst snd];
      [|split; [reflexivity|split; discriminate]].
    destruct (render_items e db_items) as [[]|ex]; cbn [is_ok fst snd];
      [|split; [reflexivity|split; discriminate]].
    destruct (alert_groups e id groups) as [r evs]. cbn [fst snd map] in *.
    split; [unfold alert_of at 1; cbn [fst snd]; rewrite IHt; reflexivity|].
    exact IHr.
Qed.

(** X15: [send_wechat_alert] builds one group for each database, in the
    order in which the databases first appear in the reply, each with the
    records of the reply filed under it, and hands the groups to the webhook
    one by one in that order, one alert for each: the trace shows exactly
    the groups before the first whose alert file cannot be written, each
    delivered or undelivered, and the call returns normally exactly when
    every file can be written. *)
Theorem one_alert_per_database (e : aliyun_env) (items : list item) (id : string) :
  group_by_db items
  = map (fun name => (name, records_of name items)) (first_seen (map db_of items))
  /\ (send_wechat_alert e (Some items) id).2
     = map (alert_of e id) (written_prefix e (group_by_db items))
  /\ ((send_wechat_alert e (Some items) id).1 = Ok tt
      <-> forallb (group_written e) (group_by_db items) = true).
Proof.
  split.
  - rewrite <- group_names_first_seen.
    destruct (group_by_db_spec items) as [_ Hin].
    assert (Hall : Forall (fun g => g = (g.1, records_of g.1 items))
                          (group_by_db items)).
    { apply List.Forall_forall. intros [n ms] Hg. apply Hin in Hg.
      destruct Hg as [_ ->]. reflexivity. }
    clear Hin. revert Hall. generalize (group_by_db items) as gs.
    induction 1 as [|g gs Hg _ IH]; [reflexivity|].
    cbn [map]. rewrite <- IH, <- Hg. reflexivity.
  - unfold send_wechat_alert. destruct items as [|x items].
    + split; [reflexivity|]. split; reflexivity.
    + apply alert_groups_trace.
Qed.

(** Three records of two databases when the webhook accepts everything:
    first the group of [shop], seen first, with its two records, then the
    group of the record without a database. *)
Example one_alert_per_database_example :
  (send_wechat_alert (aliyun_world three_items) (Some three_items) "rds-a").2
  = [Delivered "rds-a"
       ("shop", [mkItem (Some "shop") (Some "2024-05-01T03:59:30Z") (Some "SELECT 1");
                 mkItem (Some "shop") (Some "2024-05-01T03:59:50Z") (Some "SELECT 3")]);
     Delivered "rds-a"
       ("Unknown", [mkItem None (Some "2024-05-01T03:59:40Z") (Some "SELECT 2")])].
Proof. vm_compute. reflexivity. Qed.

(** ** The windows of two calls *)

Lemma window_bounds (t : Z) :
  unix_epoch <= t -> t + DT.shanghai < year_9601 ->
  exists w,
    get_time_range (Cal.now DT.shanghai t) = Ok w
    /\ Wire.minutes w.1 = Some (t / DT.us_per_minute - 1)
    /\ Wire.minutes w.2 = Some (t / DT.us_per_minute).
Proof.
  intros Hlo Hhi.
  assert (Hepoch : unix_epoch = 62135596800000000) by reflexivity.
  assert (Hsh : DT.shanghai = 28800000000) by reflexivity.
  assert (Hmin : DT.us_per_minute = 60000000) by reflexivity.
  assert (H9601 : year_9601 = 302946739200000000) by reflexivity.
  eexists. split; [apply get_time_range_spec; assumption|].
  cbn [fst snd]. unfold Cal.now.
  replace (t - DT.us_per_minute + DT.utc) with (t - DT.us_per_minute)
    by (unfold DT.utc; ring).
  replace (t + DT.utc) with t by (unfold DT.utc; ring).
  rewrite !minutes_of_rendered by lia. split; [|reflexivity].
  f_equal. rewrite Hmin. clear. Z.to_euclidean_division_equations. lia.
Qed.

(** X16: how the windows of two calls lie. The end of the window of a call
    and the start of the window of a call [delta] later, read as minutes,
    differ by the number of minute boundaries between the two calls less
    one: calls less than a minute apart have windows that overlap or abut,
    calls exactly a minute apart have windows that abut, and when two
    minutes or more pass between two calls the second window starts after
    the first has ended. *)
Theorem windows_of_two_calls (t delta : Z) :
  unix_epoch <= t -> 0 <= delta -> t + delta + DT.shanghai < year_9601 ->
  exists w1 w2 end1 start2,
    get_time_range (Cal.now DT.shanghai t) = Ok w1
    /\ get_time_range (Cal.now DT.shanghai (t + delta)) = Ok w2
    /\ Wire.minutes w1.2 = Some end1
    /\ Wire.minutes w2.1 = Some start2
    /\ start2 - end1
       = (t + delta) / DT.us_per_minute - t / DT.us_per_minute - 1
    /\ (delta < DT.us_per_minute -> start2 <= end1)
    /\ (delta = DT.us_per_minute -> start2 = end1)
    /\ (2 * DT.us_per_minute <= delta -> end1 < start2).
Proof.
  intros Hlo Hd Hhi.
  destruct (window_bounds t) as (w1 & H1 & _ & He1); [lia|lia|].
  destruct (window_bounds (t + delta)) as (w2 & H2 & Hs2 & _); [lia|lia|].
  exists w1, w2, (t / DT.us_per_minute), ((t + delta) / DT.us_per_minute - 1).
  repeat (split; [assumption|]).
  split; [lia|].
  change DT.us_per_minute with 60000000. clear - Hd.
  repeat split; intros; Z.to_euclidean_division_equations; lia.
Qed.

Lemma windows_of_two_calls_witness :
  exists w1 w2 end1 start2,
    get_time_range (Cal.now DT.shanghai (DT.instant may_1_noon)) = Ok w1
    /\ get_time_range
         (Cal.now DT.shanghai (DT.instant may_1_noon + 3 * DT.us_per_minute)) = Ok w2
    /\ Wire.minutes w1.2 = Some end1
    /\ Wire.minutes w2.1 = Some start2
    /\ start2 - end1
       = (DT.instant may_1_noon + 3 * DT.us_per_minute) / DT.us_per_minute
         - DT.instant may_1_noon / DT.us_per_minute - 1
    /\ (3 * DT.us_per_minute < DT.us_per_minute -> start2 <= end1)
    /\ (3 * DT.us_per_minute = DT.us_per_minute -> start2 = end1)
    /\ (2 * DT.us_per_minute <= 3 * DT.us_per_minute -> end1 < start2).
Proof.
  apply (windows_of_two_calls (DT.instant may_1_noon) (3 * DT.us_per_minute)).
  - vm_compute. discriminate.
  - vm_compute. discriminate.
  - vm_compute. reflexivity.
Defined.

(** ** The execution time of the Aliyun alert *)

(** Two rendered digits are read back by the group of their directive. *)
Lemma group_m_nat (n : nat) (A : Type) (k : Z -> string -> option A)
    (rest : string) (r : A) :
  (1 <= n <= 12)%nat -> k (Z.of_nat n) rest = Some r ->
  Strptime.group Strptime.m k (Cal.fixed 2 (Z.of_nat n) rest) = Some r.
Proof.
  intros Hn Hk.
  do 13 (destruct n as [|n];
         [first [lia | vm_compute; vm_compute in Hk; rewrite Hk; reflexivity]|]).
  lia.
Qed.

Lemma group_d_nat (n : nat) (A : Type) (k : Z -> string -> option A)
    (rest : string) (r : A) :
  (1 <= n <= 31)%nat -> k (Z.of_nat n) rest = Some r ->
  Strptime.group Strptime.d k (Cal.fixed 2 (Z.of_nat n) rest) = Some r.
Proof.
  intros Hn Hk.
  do 32 (destruct n as [|n];
         [first [lia | vm_compute; vm_compute in Hk; rewrite Hk; reflexivity]|]).
  lia.
Qed.

Lemma group_H_nat (n : nat) (A : Type) (k : Z -> string -> option A)
    (rest : string) (r : A) :
  (n <= 23)%nat -> k (Z.of_nat n) rest = Some r ->
  Strptime.group Strptime.H k (Cal.fixed 2 (Z.of_nat n) rest) = Some r.
Proof.
  intros Hn Hk.
  do 24 (destruct n as [|n];
         [first [lia | vm_compute; vm_compute in Hk; rewrite Hk; reflexivity]|]).
  lia.
Qed.

Lemma group_M_nat (n : nat) (A : Type) (k : Z -> string -> option A)
    (rest : string) (r : A) :
  (n <= 59)%nat -> k (Z.of_nat n) rest = Some r ->
  Strptime.group Strptime.M k (Cal.fixed 2 (Z.of_nat n) rest) = Some r.
Proof.
  intros Hn Hk.
  do 60 (destruct n as [|n];
         [first [lia | vm_compute; vm_compute in Hk; rewrite Hk; reflexivity]|]).
  lia.
Qed.

Lemma group_S_nat (n : nat) (A : Type) (k : Z -> string -> option A)
    (rest : string) (r : A) :
  (n <= 59)%nat -> k (Z.of_nat n) rest = Some r ->
  Strptime.group Strptime.S k (Cal.fixed 2 (Z.of_nat n) rest) = Some r.
Proof.
  intros Hn Hk.
  do 60 (destruct n as [|n];
         [first [lia | vm_compute; vm_compute in Hk; rewrite Hk; reflexivity]|]).
  lia.
Qed.

Lemma valid_date_inv (y mo d : Z) :
  DT.valid_date y mo d = true ->
  1 <= y <= 9999 /\ 1 <= mo <= 12 /\ 1 <= d <= DT.days_in_month y mo.
Proof.
  unfold DT.valid_date. rewrite !andb_true_iff.
  intros [[[[[Hy1 Hy2] Hm1] Hm2] Hd1] Hd2].
  apply Z.leb_le in Hy1, Hy2, Hm1, Hm2, Hd1, Hd2. lia.
Qed.

Lemma valid_time_inv (h mi s us : Z) :
  DT.valid_time h mi s us = true ->
  0 <= h < 24 /\ 0 <= mi < 60 /\ 0 <= s < 60.
Proof.
  unfold DT.valid_time. rewrite !andb_true_iff.
  intros [[[[[[[Hh1 Hh2] Hi1] Hi2] Hs1] Hs2] _] _].
  apply Z.leb_le in Hh1, Hi1, Hs1. apply Z.ltb_lt in Hh2, Hi2, Hs2. lia.
Qed.

Lemma days_before_month_bound (y mo d : Z) :
  1 <= mo <= 12 -> 1 <= d <= DT.days_in_month y mo ->
  1 <= DT.days_before_month y mo + d <= 366.
Proof.
  intros Hm Hd.
  assert (H : mo = 1 \/ mo = 2 \/ mo = 3 \/ mo = 4 \/ mo = 5 \/ mo = 6 \/ mo = 7
              \/ mo = 8 \/ mo = 9 \/ mo = 10 \/ mo = 11 \/ mo = 12) by lia.
  unfold DT.days_before_month, DT.days_in_month in *.
  repeat (destruct H as [H|H]); subst mo;
    match goal with
    | |- context [DT.days_before_month_common ?k] =>
        let v := eval vm_compute in (DT.days_before_month_common k) in
        change (DT.days_before_month_common k) with v
    end;
    cbn in *; destruct (DT.is_leap y); cbn in *; lia.
Qed.

(** The instant of a valid UTC date and time up to the year 9599. *)
Lemma utc_instant_bounds (y mo d h mi s : Z) :
  DT.valid_date y mo d = true -> DT.valid_time h mi s 0 = true -> y <= 9599 ->
  0 <= DT.instant (mkDT y mo d h mi s 0 (Some DT.utc)) + DT.shanghai < year_9601.
Proof.
  intros Hdate Htime Hy.
  apply valid_date_inv in Hdate. apply valid_time_inv in Htime.
  destruct Hdate as (Hy1 & Hm1 & Hd1). destruct Htime as (Hh & Hi & Hs).
  pose proof (days_before_month_bound y mo d ltac:(lia) ltac:(lia)) as Hdm.
  unfold DT.instant, DT.local_us, DT.ymd2ord, DT.days_before_year.
  cbn [year month day hour minute second microsecond tzinfo].
  change (default 0 (Some DT.utc)) with 0.
  rewrite <- (Z.add_assoc _ (DT.days_before_month y mo) d).
  remember (DT.days_before_month y mo + d) as doy eqn:Hdoy.
  clear Hdoy Hd1 Hm1.
  change DT.us_per_day with 86400000000. change DT.us_per_hour with 3600000000.
  change DT.us_per_minute with 60000000. change DT.us_per_second with 1000000.
  change DT.shanghai with 28800000000. change year_9601 with 302946739200000000.
  Z.to_euclidean_division_equations. lia.
Qed.

Lemma strptime_utc_text (y mo d h mi s : Z) :
  DT.valid_date y mo d = true -> DT.valid_time h mi s 0 = true ->
  Strptime.strptime (utc_text y mo d h mi s) = Ok (mkDT y mo d h mi s 0 None).
Proof.
  intros Hdate Htime.
  destruct (valid_date_inv _ _ _ Hdate) as (Hy1 & Hm1 & Hd1).
  destruct (valid_time_inv _ _ _ _ Htime) as (Hh & Hi & Hs).
  assert (Hd31 : d <= 31).
  { unfold DT.days_in_month in Hd1.
    destruct (mo =? 2); [destruct (DT.is_leap y); lia|].
    destruct ((mo =? 4) || (mo =? 6) || (mo =? 9) || (mo =? 11)); lia. }
  assert (Hmatch : Strptime.match_format (utc_text y mo d h mi s)
                   = Some (y, mo, d, h, mi, s, EmptyString)).
  { unfold Strptime.match_format, utc_text, Strptime.Y.
    rewrite digits_fixed_exact by (change (10 ^ Z.of_nat 4) with 10000; lia).
    cbn [Strptime.one Strptime.dash Ascii.eqb Bool.eqb].
    rewrite <- (Z2Nat.id mo) by lia.
    apply group_m_nat; [lia|]. rewrite Z2Nat.id by lia.
    cbn [Strptime.one Strptime.dash Ascii.eqb Bool.eqb].
    rewrite <- (Z2Nat.id d) at 1 by lia.
    apply group_d_nat; [lia|]. rewrite Z2Nat.id by lia.
    cbn [Strptime.one Strptime.tee Ascii.eqb Bool.eqb orb].
    rewrite <- (Z2Nat.id h) at 1 by lia.
    apply group_H_nat; [lia|]. rewrite Z2Nat.id by lia.
    cbn [Strptime.one Strptime.colon Ascii.eqb Bool.eqb].
    rewrite <- (Z2Nat.id mi) at 1 by lia.
    apply group_M_nat; [lia|]. rewrite Z2Nat.id by lia.
    cbn [Strptime.one Strptime.colon Ascii.eqb Bool.eqb].
    rewrite <- (Z2Nat.id s) at 1 by lia.
    apply group_S_nat; [lia|]. rewrite Z2Nat.id by lia.
    cbn [Strptime.one Strptime.zed Ascii.eqb Bool.eqb orb].
    reflexivity. }
  unfold Strptime.strptime. rewrite Hmatch. cbn [Re.nonempty].
  rewrite Hdate, Htime. reflexivity.
Qed.

Lemma bind_ok {A B : Type} (a : A) (k : A -> result B) : (Ok a ≫= k) = k a.
Proof. reflexivity. Qed.

Lemma astimezone_unfold (t : datetime) (off tz : Z) :
  tzinfo t = Some off ->
  Cal.astimezone t tz = Cal.checked (DT.instant t + tz) (Some tz).
Proof.
  intros Htz. unfold Cal.astimezone, DT.instant. rewrite Htz. reflexivity.
Qed.

(** The time in another zone of an aware value. *)
Lemma astimezone_aware (t : datetime) (off tz : Z) :
  tzinfo t = Some off ->
  0 <= DT.instant t + tz < year_9601 ->
  Cal.astimezone t tz = Ok (Cal.now tz (DT.instant t)).
Proof.
  intros Htz Hrange. rewrite (astimezone_unfold t off tz Htz).
  unfold Cal.now. apply checked_in_range. exact Hrange.
Qed.

(** From the parsed value to the text. *)
Lemma execution_time_steps (zone : Z -> Z) (text : string) (t cst : datetime) :
  Strptime.strptime text = Ok t ->
  Cal.astimezone (mkDT (year t) (month t) (day t) (hour t) (minute t) (second t)
                       (microsecond t) (Some DT.utc))
                 (zone (DT.instant (mkDT (year t) (month t) (day t) (hour t)
                                         (minute t) (second t) (microsecond t)
                                         (Some DT.utc)))) = Ok cst ->
  execution_time_cst zone (Some text) = Ok (strftime_seconds cst).
Proof.
  intros Hs Hz. unfold execution_time_cst. rewrite Hs, bind_ok.
  cbv beta zeta. rewrite Hz, bind_ok. reflexivity.
Qed.

(** X17: the execution time of a record is shown in the time of Shanghai:
    for a valid UTC date and time written [YYYY-MM-DDTHH:MM:SSZ], the text
    put in the alert is the time it is at that instant at +08:00 (the
    offset of Asia/Shanghai at every instant since 1992), eight hours on,
    written [YYYY-MM-DD HH:MM:SS]. *)
Theorem execution_time_is_shown_in_shanghai_time
    (zone : Z -> Z) (y mo d h mi s : Z) :
  DT.valid_date y mo d = true -> DT.valid_time h mi s 0 = true ->
  1000 <= y <= 9599 ->
  zone (DT.instant (mkDT y mo d h mi s 0 (Some DT.utc))) = DT.shanghai ->
  execution_time_cst zone (Some (utc_text y mo d h mi s))
  = Ok (strftime_seconds
          (Cal.now DT.shanghai (DT.instant (mkDT y mo d h mi s 0 (Some DT.utc))))).
Proof.
  intros Hdate Htime Hy Hzone.
  apply (execution_time_steps zone _ (mkDT y mo d h mi s 0 None)).
  - exact (strptime_utc_text y mo d h mi s Hdate Htime).
  - cbn [year month day hour minute second microsecond].
    rewrite Hzone. apply (astimezone_aware _ DT.utc); [reflexivity|].
    apply utc_instant_bounds; [assumption|assumption|lia].
Qed.

Lemma execution_time_witness :
  execution_time_cst shanghai_zone (Some (utc_text 2024 5 1 20 59 30))
  = Ok (strftime_seconds
          (Cal.now DT.shanghai (DT.instant (mkDT 2024 5 1 20 59 30 0 (Some DT.utc))))).
Proof.
  apply (execution_time_is_shown_in_shanghai_time shanghai_zone 2024 5 1 20 59 30).
  - reflexivity.
  - reflexivity.
  - lia.
  - reflexivity.
Defined.

(** The record of 20:59:30 UTC on 2024-05-01 is shown as 04:59:30 of the
    next day. *)
Example execution_time_next_day :
  execution_time_cst shanghai_zone (Some "2024-05-01T20:59:30Z")
  = Ok "2024-05-02 04:59:30".
Proof. vm_compute. reflexivity. Qed.

(** ** The time the poller spends asleep *)

Lemma wait_loop_slept_spec (replies : nat -> option response) (retry_interval : Z)
    (n i : nat) :
  exists k,
    (k <= n)%nat
    /\ wait_loop_slept replies retry_interval i n
       = (wait_loop replies i n, retry_interval * Z.of_nat k)
    /\ (forall j, (j < k)%nat -> poll_once (replies (i + j)%nat) = Retry)
    /\ (k = n \/ poll_once (replies (i + k)%nat) <> Retry).
Proof.
  revert i. induction n as [|n IH]; intros i.
  - exists O. repeat split; [lia| |intros j Hj; lia|left; reflexivity].
    cbn. rewrite Z.mul_0_r. reflexivity.
  - cbn [wait_loop_slept wait_loop].
    destruct (poll_once (replies i)) as [success link|] eqn:Hp.
    + exists O. repeat split; [lia| |intros j Hj; lia|].
      * rewrite Z.mul_0_r. reflexivity.
      * right. rewrite Nat.add_0_r, Hp. discriminate.
    + destruct (IH (S i)) as (k & Hk & Heq & Hretry & Hend).
      exists (S k). repeat split; [lia| | |].
      * rewrite Heq. destruct (wait_loop replies (S i) n) as [success link].
        f_equal. lia.
      * intros j Hj. destruct j as [|j]; [rewrite Nat.add_0_r; exact Hp|].
        replace (i + S j)%nat with (S i + j)%nat by lia. apply Hretry. lia.
      * destruct Hend as [->|Hend]; [left; reflexivity|right].
        replace (i + S k)%nat with (S i + k)%nat by lia. exact Hend.
Qed.

(** X18: the poller sleeps [retry_interval] after every pass that settles
    nothing, the last one included: it returns what
    [wait_for_download_link] returns after as many sleeps as passes came
    before the deciding one, and a poll that times out has slept
    [max_retries] times. *)
Theorem the_poller_sleeps_after_every_undecided_pass
    (replies : nat -> option response) (max_retries : nat) (retry_interval : Z) :
  exists k,
    (k <= max_retries)%nat
    /\ wait_for_download_link_slept replies max_retries retry_interval
       = (wait_for_download_link replies max_retries, retry_interval * Z.of_nat k)
    /\ (forall j, (j < k)%nat -> poll_once (replies j) = Retry)
    /\ (k = max_retries \/ poll_once (replies k) <> Retry).
Proof.
  exact (wait_loop_slept_spec replies retry_interval max_retries O).
Qed.

(** With the defaults, ten passes five seconds apart, an export that stays
    in preparation costs fifty seconds. *)
Example timeout_costs_fifty_seconds :
  wait_for_download_link_slept (fun _ => Some generating_reply) 10 5
  = (false, None, 50).
Proof. reflexivity. Qed.

(** ** The order of a delivered batch *)

Lemma filter_sorted (p : SlowQuery -> bool) (l : list SlowQuery) :
  StronglySorted key_le l -> StronglySorted key_le (List.filter p l).
Proof.
  induction 1 as [|x l Hs IH Hx]; [constructor|].
  cbn [List.filter]. destruct (p x); [|exact IH].
  constructor; [exact IH|].
  rewrite List.Forall_forall in *. intros y Hy.
  apply List.filter_In in Hy. apply Hx, Hy.
Qed.

Lemma key_unfold (a : SlowQuery) : Sort.key a = DT.instant (timestamp a).
Proof. reflexivity. Qed.

Lemma key_le_unfold (a b : SlowQuery) : key_le a b = (Sort.key a <= Sort.key b).
Proof. reflexivity. Qed.

Lemma key_le_instant (a b : SlowQuery) :
  key_le a b -> DT.instant (timestamp a) <= DT.instant (timestamp b).
Proof. rewrite key_le_unfold, !key_unfold. intros H. exact H. Qed.

Lemma last_In {A : Type} (l : list A) (d : A) : l <> [] -> In (List.last l d) l.
Proof.
  induction l as [|a l IH]; [congruence|]. intros _.
  destruct l as [|b l]; [left; reflexivity|].
  change (List.last (a :: b :: l) d) with (List.last (b :: l) d).
  right. apply IH. discriminate.
Qed.

(** The last record of a sorted list has the greatest key. *)
Lemma sorted_last (l : list SlowQuery) (d q : SlowQuery) :
  StronglySorted key_le l -> In q l -> key_le q (List.last l d).
Proof.
  induction 1 as [|x l Hs IH Hx]; intros Hq; [destruct Hq|].
  destruct l as [|y l'].
  - destruct Hq as [->|[]]. rewrite key_le_unfold. cbn [List.last]. apply Z.le_refl.
  - change (List.last (x :: y :: l') d) with (List.last (y :: l') d).
    destruct Hq as [->|Hq]; [|exact (IH Hq)].
    rewrite List.Forall_forall in Hx. apply Hx. apply last_In. discriminate.
Qed.

(** X19: a delivered batch is in time order, and the cursor moves to the
    time of its last record. *)
Theorem delivered_batch_is_in_time_order (e : instance_env) (id : string)
    (m m' : monitor) (batch : list SlowQuery) (d : SlowQuery) :
  process_instance e id m = (m', [Delivered id batch]) ->
  StronglySorted key_le batch
  /\ exists newest,
       cursor m' id = Some newest
       /\ DT.instant newest = DT.instant (timestamp (List.last batch d)).
Proof.
  intros H.
  destruct (delivered_facts e id m m' batch H)
    as (sq0 & old0 & newest & _ & _ & _ & Hne & _ & [(q & Hq & Hts) Hmax] & _ & Hl).
  apply (process_instance_batch e id m m' batch true) in H.
  destruct H as (link & path & text & sq & old & _ & _ & _ & _ & Hp & _
                 & _ & Hn & _).
  apply new_queries_ok in Hn. destruct Hn as [Hb _].
  apply parse_slow_log_ok in Hp. destruct Hp as (l & _ & _ & ->).
  assert (Hsorted : StronglySorted key_le batch).
  { rewrite Hb. apply filter_sorted, stable_sort_sorted. }
  split; [exact Hsorted|].
  exists newest. split; [unfold cursor; rewrite Hl; apply lookup_insert_eq|].
  pose proof (sorted_last batch d q Hsorted Hq) as Hle.
  pose proof (Hmax (List.last batch d) (last_In batch d Hne)) as Hge.
  apply key_le_instant in Hle. rewrite Hts in Hle.
  revert Hle Hge.
  generalize (DT.instant newest) (DT.instant (timestamp (List.last batch d))).
  intros; lia.
Qed.

Lemma delivered_batch_order_witness :
  StronglySorted key_le [aware_record 5 "SELECT 2;"]
  /\ exists newest,
       cursor (mkMonitor (<["rds-1" := may_1 2 5]> {["rds-1" := may_1 2 0]})
                         {["slowlog_download_1" := aware_log]}) "rds-1"
       = Some newest
       /\ DT.instant newest
          = DT.instant (timestamp (List.last [aware_record 5 "SELECT 2;"]
                                             (aware_record 0 "SELECT 1;"))).
Proof.
  apply (delivered_batch_is_in_time_order (ready_env aware_log webhook_ok) "rds-1"
           monitor_at_0200).
  vm_compute. reflexivity.
Defined.

(** ** A record without metadata *)

(** A statement line is appended to the statement under construction. *)
Lemma parse_line_statement (iso : string -> option datetime) (clock : nat -> Z)
    (st : pstate) (q : query) (raw : string) :
  current_query st = Some q -> is_statement raw = true ->
  Parser.parse_line iso clock st raw
  = Ok (mkP (slow_queries st) (current_query st)
            (sql_lines st ++ [Str.strip raw]) (reads st)).
Proof.
  intros Hq H. unfold is_statement in H. rewrite !andb_true_iff in H.
  destruct H as [[Hne Hsql] Hset]. apply negb_true_iff in Hset.
  assert (Hhash : Str.startswith "#" (Str.strip raw) = false).
  { unfold Parser.is_sql_line in Hsql. rewrite !andb_true_iff in Hsql.
    destruct Hsql as [[[Hh _] _] _]. apply negb_true_iff in Hh. exact Hh. }
  unfold Parser.parse_line. rewrite Hne. cbn [negb].
  rewrite !(startswith_hash _ _ Hhash), Hsql, Hq, Hset. reflexivity.
Qed.

Lemma parse_lines_statements_only (iso : string -> option datetime)
    (clock : nat -> Z) (body : list string) (st : pstate) (q : query) :
  current_query st = Some q ->
  Forall (fun raw => is_statement raw = true) body ->
  Parser.parse_lines iso clock st body
  = Ok (mkP (slow_queries st) (current_query st)
            (sql_lines st ++ map Str.strip body) (reads st)).
Proof.
  intros Hq Hall. revert st Hq. induction Hall as [|raw body Hraw _ IH]; intros st Hq.
  - cbn [Parser.parse_lines map]. rewrite app_nil_r. destruct st; reflexivity.
  - cbn [Parser.parse_lines].
    rewrite (parse_line_statement iso clock st q raw Hq Hraw).
    rewrite bind_ok.
    rewrite (IH (mkP (slow_queries st) (current_query st)
                     (sql_lines st ++ [Str.strip raw]) (reads st)) Hq).
    cbn [slow_queries current_query sql_lines reads map].
    rewrite <- app_assoc. reflexivity.
Qed.

(** X20: a record without metadata gets the defaults. When the file is one
    parseable time marker of today followed by statement lines only, the
    parser returns one record: its statement is the stripped lines joined
    by newlines, [start_time] and [end_time] are the time of the marker,
    the times and row counts are zero, the names are empty and the three
    flags are off. *)
Theorem a_record_without_metadata_gets_the_defaults
    (clock : nat -> Z) (text marker piece : string) (body : list string)
    (t : datetime) :
  Str.lines text = marker :: body ->
  is_time_marker marker = true ->
  item1 (Str.split "Time: " (Str.strip marker)) = Ok piece ->
  Iso.fromisoformat piece = Some t ->
  body <> [] ->
  Forall (fun raw => is_statement raw = true) body ->
  DT.date_of t = DT.date_of (Cal.now DT.shanghai (clock O)) ->
  parse_slow_log clock text
  = Ok [record_at t (Str.join_nl (map Str.strip body))].
Proof.
  intros Hlines Hmark Hpiece Hiso Hne Hbody Hdate.
  unfold parse_slow_log, parse_slow_log_with, whole. cbn [lines_read read_error].
  rewrite Hlines. cbn [Parser.parse_lines].
  assert (Hfirst : Parser.parse_line Iso.fromisoformat clock Parser.init marker
                   = Ok (mkP [] (Some (Query.new t)) [] O)).
  { unfold is_time_marker in Hmark. apply andb_prop in Hmark.
    destruct Hmark as [Hn Hs].
    unfold Parser.parse_line. rewrite Hn, Hs. cbn [negb].
    change (Parser.flush clock Parser.init) with (Ok Parser.init).
    rewrite bind_ok, Hpiece, bind_ok. unfold fromisoformat. rewrite Hiso, bind_ok.
    reflexivity. }
  rewrite Hfirst, bind_ok.
  rewrite (parse_lines_statements_only Iso.fromisoformat clock body
             (mkP [] (Some (Query.new t)) [] O) (Query.new t) eq_refl Hbody).
  rewrite bind_ok. cbn [slow_queries current_query sql_lines reads app].
  unfold Parser.flush. cbn [current_query sql_lines slow_queries reads].
  destruct (map Str.strip body) as [|l ls] eqn:Hmap.
  { destruct body; [congruence|discriminate]. }
  unfold _is_valid_query. cbn [Query.set_sql_text Query.new q_timestamp].
  apply date_eqb_eq in Hdate. rewrite Hdate.
  cbn [_create_slow_query Query.set_sql_text Query.new q_timestamp].
  rewrite !bind_ok. reflexivity.
Qed.

Lemma a_record_without_metadata_witness :
  parse_slow_log (at_time may_1_noon) bare_log
  = Ok [record_at (mkDT 2024 5 1 2 0 0 0 None)
                  (Str.join_nl (map Str.strip ["SELECT a"; "  FROM t;"]))].
Proof.
  apply (a_record_without_metadata_gets_the_defaults (at_time may_1_noon) bare_log
           "# Time: 2024-05-01T02:00:00" "2024-05-01T02:00:00").
  - vm_compute. reflexivity.
  - reflexivity.
  - reflexivity.
  - reflexivity.
  - discriminate.
  - repeat constructor.
  - vm_compute. reflexivity.
Defined.

(** ** Passes of the Aliyun monitor with nothing to report *)

Lemma check_scope_idle (e : aliyun_env) (k : nat) (id : string)
    (db : option string) :
  within_the_calendar (al_clock e k) ->
  (forall w, nothing_to_report (describe e k id w db)) ->
  check_scope e k id db = (Ok tt, []).
Proof.
  intros [Hlo Hhi] Hnone. unfold check_scope, get_slow_sql_records.
  rewrite (get_time_range_spec _ Hlo Hhi), bind_ok.
  match goal with |- context [describe e k id ?w db] =>
    specialize (Hnone w); destruct (describe e k id w db) as [[[|x items]|]|ex]
  end; try reflexivity.
  - discriminate Hnone.
  - destruct ex; try reflexivity. exfalso. apply Hnone. reflexivity.
Qed.

Lemma check_databases_idle (e : aliyun_env) (id : string) (dbs : list string)
    (k : nat) :
  (forall k, within_the_calendar (al_clock e k)) ->
  (forall k w db, nothing_to_report (describe e k id w db)) ->
  check_databases e k id dbs = (Ok tt, []).
Proof.
  intros Hclock Hnone. revert k. induction dbs as [|db dbs IH]; intros k.
  - reflexivity.
  - cbn [check_databases].
    rewrite (check_scope_idle e k id (Some db) (Hclock k) (fun w => Hnone k w _)).
    rewrite (IH (S k)). reflexivity.
Qed.

Lemma check_instance_idle (config : gmap string string) (e : aliyun_env)
    (id : string) :
  (forall k, within_the_calendar (al_clock e k)) ->
  (forall k w db, nothing_to_report (describe e k id w db)) ->
  check_instance config e id = (Ok tt, []).
Proof.
  intros Hclock Hnone. unfold check_instance.
  destruct (get_instance_databases config id) as [|db dbs].
  - apply check_scope_idle; [apply Hclock|intros w; apply Hnone].
  - apply check_databases_idle; assumption.
Qed.

Lemma for_instances_idle (config : gmap string string)
    (envs : nat -> string -> aliyun_env) (c : nat) (ids : list string) :
  (forall id, In id ids -> check_instance config (envs c id) id = (Ok tt, [])) ->
  for_instances (aliyun_body config envs) c ids tt = (Ok tt, tt, map Checked ids).
Proof.
  induction ids as [|id ids IH]; intros Hids.
  - reflexivity.
  - cbn [for_instances map]. unfold aliyun_body at 1.
    rewrite (Hids id (or_introl eq_refl)).
    rewrite IH by (intros id' Hin; apply Hids; right; exact Hin).
    reflexivity.
Qed.

(** X21: an outage of the API is passed over. While every request gets an
    exception of the client (other than [KeyboardInterrupt]), a reply
    without [Items] or an empty list of records, the Aliyun monitor raises nothing, sends nothing and logs no
    error of its loop: every pass goes through all the instances in the
    configured order and ends with one sleep of the interval. *)
Theorem passes_with_nothing_to_report
    (config : gmap string string) (envs : nat -> string -> aliyun_env)
    (instances : list string) (interval : Z) (n c : nat) :
  (forall c id k, within_the_calendar (al_clock (envs c id) k)) ->
  (forall c id k w db, nothing_to_report (describe (envs c id) k id w db)) ->
  aliyun_run config envs instances interval n c tt
  = (tt, idle_passes instances interval n).
Proof.
  intros Hclock Hnone. unfold aliyun_run. revert c.
  induction n as [|n IH]; intros c.
  - reflexivity.
  - cbn [run idle_passes]. unfold cycle.
    rewrite (for_instances_idle config envs c instances).
    + rewrite (IH (S c)). rewrite <- app_assoc. reflexivity.
    + intros id _. apply check_instance_idle.
      * intros k. apply Hclock.
      * intros k w db. apply Hnone.
Qed.

Lemma passes_with_nothing_to_report_witness :
  aliyun_run (<["rm-1" := "app, crm"]> ∅) (fun _ _ => api_down)
             ["rm-1"; "rm-2"] 60 2 0 tt
  = (tt, [Checked "rm-1"; Checked "rm-2"; Slept 60;
          Checked "rm-1"; Checked "rm-2"; Slept 60]).
Proof.
  apply (passes_with_nothing_to_report (<["rm-1" := "app, crm"]> ∅)
           (fun _ _ => api_down) ["rm-1"; "rm-2"] 60 2 0).
  - intros c id k. split; vm_compute; [discriminate|reflexivity].
  - intros c id k w db. discriminate.
Defined.
